(** * The ensemble image client of the inference server, and its specification

    A shallow embedding of [src/clients/python/examples/ensemble_image_client.py]:
    the two model validators [parse_model_grpc] and [parse_model_http], the
    result printer [postprocess] and the script body ([main]), followed by the
    properties the specification states about them.

    The script is Python 3 glue code around three external collaborators: the
    client library (one module per transport), the file system and numpy.
    They are not part of the script, so [main] takes them as an explicit
    [World]; everything the script itself decides is computed by the
    definitions below. *)

From Stdlib Require Import List String Ascii ZArith NArith Bool Lia.
From Stdlib Require Import Sorting Permutation DecimalString.
Import ListNotations.

Open Scope string_scope.
Open Scope Z_scope.
Open Scope list_scope.

Set Implicit Arguments.
#[local] Set Warnings "-register-all".

(* ================================================================= *)
(** ** Python strings *)

(** A Python [str] is modelled by [string]; each character stands for one
    code point in the range U+0000..U+00FF, which is all that [chr] of a byte
    can produce and all that the literals of the script use.  Comparison of
    two [str] is the lexicographic order of the code points, which is
    [String.leb]. *)

Notation "a +s+ b" := (String.append a b) (at level 60, right associativity).

(** [str.lower] on one code point of that range: the upper-case letters are
    A-Z, and in the Latin-1 block U+00C0..U+00DE without the sign U+00D7. *)
Definition lower_char (c : ascii) : ascii :=
  let n := N_of_ascii c in
  if ((65 <=? n) && (n <=? 90)
      || (192 <=? n) && (n <=? 214)
      || (216 <=? n) && (n <=? 222))%N
  then ascii_of_N (n + 32) else c.

Fixpoint lower (s : string) : string :=
  match s with
  | EmptyString => EmptyString
  | String c s' => String (lower_char c) (lower s')
  end.

(** [s.split(sep)] for a one-character separator. *)
Fixpoint split (sep : ascii) (s : string) : list string :=
  match s with
  | EmptyString => [EmptyString]
  | String c s' =>
      if Ascii.eqb c sep then EmptyString :: split sep s'
      else match split sep s' with
           | [] => [String c EmptyString]
           | w :: ws => String c w :: ws
           end
  end.

(** ["{}".format(n)] for an integer. *)
Definition str_of_Z (z : Z) : string := NilZero.string_of_int (Z.to_int z).

Definition str_of_bool (b : bool) : string := if b then "True" else "False".

(** [chr(x)] for the items of a [bytes] object, and the join of them. *)
Definition chr (x : Byte.byte) : ascii := ascii_of_byte x.

Definition bytes := list Byte.byte.

Fixpoint join_chr (b : bytes) : string :=
  match b with
  | [] => EmptyString
  | x :: b' => String (chr x) (join_chr b')
  end.

(* ================================================================= *)
(** ** Exceptions and results *)

(** The exception classes the script can meet.  All of them derive from
    [Exception]; [InferenceServerException] is the class of the client
    library, the others are raised by the interpreter, by numpy, by the
    protobuf runtime or by the operating system.  The text of an error raised
    by the interpreter, by numpy or by protobuf is not modelled (it only
    reaches the traceback on standard error). *)
Inductive exn_class :=
| InferenceServerException
| Exception
| TypeError
| KeyError
| IndexError
| ValueError
| AttributeError
| OSError
| OtherError.

Record exn := mk_exn { exn_type : exn_class; exn_str : string }.

Definition builtin_error (c : exn_class) : exn := mk_exn c "".

Definition is_InferenceServerException (e : exn) : bool :=
  match exn_type e with
  | InferenceServerException => true
  | _ => false
  end.

(** What a Python expression or a call that does no output comes to: a
    value, or an exception raised. *)
Inductive outcome (A : Type) :=
| Return (a : A)
| Throw (e : exn).

Arguments Return {A} a.
Arguments Throw {A} e.

Definition rbind {A B} (r : outcome A) (k : A -> outcome B) : outcome B :=
  match r with
  | Return a => k a
  | Throw e => Throw e
  end.

Notation "'let?' x := e 'in' k" := (rbind e (fun x => k))
  (at level 10, x pattern, e at level 100, k at level 200).

Definition outcome_map {A B} (f : A -> B) (r : outcome A) : outcome B :=
  match r with
  | Return a => Return (f a)
  | Throw e => Throw e
  end.

(* ================================================================= *)
(** ** Values of the HTTP client: what [json.loads] returns *)

(** Floats are left out: no field the script reads is one.  A dictionary is
    an association list with one binding per key. *)
Inductive pyval :=
| PyNone
| PyBool (b : bool)
| PyInt (z : Z)
| PyStr (s : string)
| PyList (l : list pyval)
| PyDict (kvs : list (string * pyval)).

Fixpoint dict_get (kvs : list (string * pyval)) (k : string) : option pyval :=
  match kvs with
  | [] => None
  | (k', v) :: kvs' => if String.eqb k' k then Some v else dict_get kvs' k
  end.

(** [v[k]] for a string key. *)
Definition py_getitem (v : pyval) (k : string) : outcome pyval :=
  match v with
  | PyDict kvs =>
      match dict_get kvs k with
      | Some x => Return x
      | None => Throw (mk_exn KeyError k)
      end
  | _ => Throw (builtin_error TypeError)
  end.

(** [v[0]]. *)
Definition py_getitem0 (v : pyval) : outcome pyval :=
  match v with
  | PyList (x :: _) => Return x
  | PyList [] => Throw (builtin_error IndexError)
  | PyStr (String c _) => Return (PyStr (String c EmptyString))
  | PyStr EmptyString => Throw (builtin_error IndexError)
  | PyDict _ => Throw (mk_exn KeyError "0")
  | _ => Throw (builtin_error TypeError)
  end.

(** [len(v)]. *)
Definition py_len (v : pyval) : outcome Z :=
  match v with
  | PyList l => Return (Z.of_nat (List.length l))
  | PyStr s => Return (Z.of_nat (String.length s))
  | PyDict kvs => Return (Z.of_nat (List.length kvs))
  | _ => Throw (builtin_error TypeError)
  end.

(** The values of class [int], among them those of its subclass [bool]. *)
Inductive pyint :=
| PInt (z : Z)
| PBool (b : bool).

Definition int_of (n : pyint) : Z :=
  match n with
  | PInt z => z
  | PBool b => if b then 1 else 0
  end.

(** The integer a value is where Python wants one to compare an [int] with
    or to count from; a [TypeError] for the other values. *)
Definition py_index (v : pyval) : outcome pyint :=
  match v with
  | PyInt z => Return (PInt z)
  | PyBool b => Return (PBool b)
  | _ => Throw (builtin_error TypeError)
  end.

(** ["{}".format(n)]. *)
Definition py_format (n : pyint) : string :=
  match n with
  | PInt z => str_of_Z z
  | PBool b => str_of_bool b
  end.

(* ================================================================= *)
(** ** Messages of the gRPC client *)

Module TensorMetadata.
(** Modelled from the spec: the protobuf declaration of the metadata of one
    tensor is not part of the script; the fields are those "ModelMetadata"
    names (a name, with the data type and shape the server reports). *)
Record t := mk { name : string; datatype : string; shape : list Z }.
End TensorMetadata.

Module ModelMetadataResponse.
(** Modelled from the spec: "ModelMetadata: server-reported description of a
    model's declared inputs and outputs (name, count)". *)
Record t := mk {
  name : string;
  versions : list string;
  platform : string;
  inputs : list TensorMetadata.t;
  outputs : list TensorMetadata.t
}.
End ModelMetadataResponse.

Module ModelTensor.
(** Modelled from the spec: one declared input or output of the model
    configuration. *)
Record t := mk { name : string; data_type : string; dims : list Z }.
End ModelTensor.

Module ModelConfig.
(** Modelled from the spec: "ModelConfig: server-reported operational
    limits, notably maximum batch size". *)
Record t := mk {
  name : string;
  platform : string;
  max_batch_size : Z;
  input : list ModelTensor.t;
  output : list ModelTensor.t
}.
End ModelConfig.

Module ModelConfigResponse.
Record t := mk { config : ModelConfig.t }.
End ModelConfigResponse.

(* ================================================================= *)
(** ** The two model validators *)

Definition expecting_input (n : Z) : exn :=
  mk_exn Exception ("expecting 1 input, got " +s+ str_of_Z n).

Definition expecting_output (n : Z) : exn :=
  mk_exn Exception ("expecting 1 output, got " +s+ str_of_Z n).

Definition expecting_config_input (n : Z) : exn :=
  mk_exn Exception
    ("expecting 1 input in model configuration, got " +s+ str_of_Z n).

Definition len {A} (l : list A) : Z := Z.of_nat (List.length l).

Definition parse_model_grpc
    (model_metadata : ModelMetadataResponse.t) (model_config : ModelConfig.t)
  : outcome (string * string * Z) :=
  if negb (len (ModelMetadataResponse.inputs model_metadata) =? 1) then
    Throw (expecting_input (len (ModelMetadataResponse.inputs model_metadata)))
  else if negb (len (ModelMetadataResponse.outputs model_metadata) =? 1) then
    Throw (expecting_output (len (ModelMetadataResponse.outputs model_metadata)))
  else if negb (len (ModelConfig.input model_config) =? 1) then
    Throw (expecting_config_input (len (ModelConfig.input model_config)))
  else
    match ModelMetadataResponse.inputs model_metadata,
          ModelMetadataResponse.outputs model_metadata with
    | input_metadata :: _, output_metadata :: _ =>
        Return (TensorMetadata.name input_metadata,
                TensorMetadata.name output_metadata,
                ModelConfig.max_batch_size model_config)
    | _, _ => Throw (builtin_error IndexError)
    end.

Definition parse_model_http (model_metadata model_config : pyval)
  : outcome (pyval * pyval * pyval) :=
  let? ins := py_getitem model_metadata "inputs" in
  let? n_in := py_len ins in
  if negb (n_in =? 1) then Throw (expecting_input n_in) else
  let? outs := py_getitem model_metadata "outputs" in
  let? n_out := py_len outs in
  if negb (n_out =? 1) then Throw (expecting_output n_out) else
  let? cfg_in := py_getitem model_config "input" in
  let? n_cfg := py_len cfg_in in
  if negb (n_cfg =? 1) then Throw (expecting_config_input n_cfg) else
  let? input_metadata := py_getitem0 ins in
  let? output_metadata := py_getitem0 outs in
  let? input_name := py_getitem input_metadata "name" in
  let? output_name := py_getitem output_metadata "name" in
  let? max_batch_size := py_getitem model_config "max_batch_size" in
  Return (input_name, output_name, max_batch_size).

(* ================================================================= *)
(** ** numpy arrays *)

(** One item of an array, as iteration over the array yields it: a [bytes]
    object, a [str], or anything else. *)
Inductive elem :=
| ElBytes (b : bytes)
| ElStr (s : string)
| ElOther.

(** A two-dimensional array (one row per image): whether
    [dtype.type == np.bytes_], and the rows. *)
Record ndarray := mk_ndarray { dtype_is_bytes : bool; rows : list (list elem) }.

Definition is_nul (x : Byte.byte) : bool :=
  match x with
  | Byte.x00 => true
  | _ => false
  end.

(** An item of a fixed-width bytes array, as numpy gives it back: the array
    pads every item with zero bytes up to the width of the longest one, and
    an item read out of it ends at its last byte that is not zero.  The zero
    bytes an item ended with before it was stored are lost with the
    padding. *)
Fixpoint rstrip_nul (b : bytes) : bytes :=
  match b with
  | [] => []
  | x :: b' =>
      match rstrip_nul b' with
      | [] => if is_nul x then [] else [x]
      | r => x :: r
      end
  end.

(** [np.array(items, dtype=bytes)], a one-dimensional array of fixed-width
    items. *)
Definition np_array (items : list bytes) : list elem :=
  map (fun b => ElBytes (rstrip_nul b)) items.

(** [np.stack(arrays, axis=0)] of one-dimensional arrays: a [ValueError] for
    an empty list or for arrays of different lengths. *)
Definition np_stack (arrays : list (list elem)) : outcome ndarray :=
  match arrays with
  | [] => Throw (builtin_error ValueError)
  | a :: rest =>
      if forallb (fun b => Nat.eqb (List.length b) (List.length a)) rest
      then Return (mk_ndarray true arrays)
      else Throw (builtin_error ValueError)
  end.

Definition shape (a : ndarray) : list Z :=
  match rows a with
  | [] => [0; 0]
  | r :: _ => [len (rows a); len r]
  end.

(* ================================================================= *)
(** ** The client library, as the script uses it *)

Inductive Transport := GRPC | HTTP.

(** [InferInput(name, shape, datatype)] of either module, and what
    [set_data_from_numpy] stores in it. *)
Record InferInput := mk_InferInput {
  in_module : Transport;
  in_name : pyval;
  in_shape : list Z;
  in_datatype : string;
  in_data : option ndarray;
  in_binary_data : option bool
}.

Definition set_data_from_numpy (i : InferInput) (a : ndarray)
    (binary_data : option bool) : InferInput :=
  mk_InferInput (in_module i) (in_name i) (in_shape i) (in_datatype i)
                (Some a) binary_data.

(** [InferRequestedOutput(name, binary_data=..., class_count=...)]. *)
Record InferRequestedOutput := mk_InferRequestedOutput {
  out_module : Transport;
  out_name : pyval;
  out_binary_data : option bool;
  out_class_count : Z
}.

(** The class of the gRPC module keeps the class count in an [int64] field
    of a protobuf message, and protobuf raises a [ValueError] on a value the
    field cannot hold; the class of the HTTP module keeps the Python integer
    as it is. *)
Definition fits_int64 (z : Z) : bool := (- 2 ^ 63 <=? z) && (z <? 2 ^ 63).

Definition tritongrpcclient_InferRequestedOutput (name : pyval) (class_count : Z)
  : outcome InferRequestedOutput :=
  if fits_int64 class_count
  then Return (mk_InferRequestedOutput GRPC name None class_count)
  else Throw (builtin_error ValueError).

Definition tritonhttpclient_InferRequestedOutput (name : pyval)
    (binary_data : bool) (class_count : Z) : InferRequestedOutput :=
  mk_InferRequestedOutput HTTP name (Some binary_data) class_count.

(** An inference result is used through [as_numpy] only, which answers
    [None] for a name the response does not hold. *)
Record InferResult := mk_InferResult { as_numpy : pyval -> option ndarray }.

Record GrpcClient := mk_GrpcClient {
  grpc_get_model_metadata : string -> outcome ModelMetadataResponse.t;
  grpc_get_model_config : string -> outcome ModelConfigResponse.t;
  grpc_infer : string -> list InferInput -> list InferRequestedOutput ->
               outcome InferResult
}.

Record HttpClient := mk_HttpClient {
  http_get_model_metadata : string -> outcome pyval;
  http_get_model_config : string -> outcome pyval;
  http_infer : string -> list InferInput -> list InferRequestedOutput ->
               outcome InferResult
}.

(** The variables [triton_client], [model_metadata] and [model_config] hold
    objects of one module or of the other. *)
Inductive Client := GrpcC (c : GrpcClient) | HttpC (c : HttpClient).
Inductive Metadata := MetaMsg (m : ModelMetadataResponse.t) | MetaDict (d : pyval).
Inductive Config := ConfigMsg (m : ModelConfigResponse.t) | ConfigDict (d : pyval).

Definition get_model_metadata (c : Client) (model_name : string) : outcome Metadata :=
  match c with
  | GrpcC g => outcome_map MetaMsg (grpc_get_model_metadata g model_name)
  | HttpC h => outcome_map MetaDict (http_get_model_metadata h model_name)
  end.

Definition get_model_config (c : Client) (model_name : string) : outcome Config :=
  match c with
  | GrpcC g => outcome_map ConfigMsg (grpc_get_model_config g model_name)
  | HttpC h => outcome_map ConfigDict (http_get_model_config h model_name)
  end.

Definition infer (c : Client) (model_name : string) (inputs : list InferInput)
    (outputs : list InferRequestedOutput) : outcome InferResult :=
  match c with
  | GrpcC g => grpc_infer g model_name inputs outputs
  | HttpC h => http_infer h model_name inputs outputs
  end.

(** Everything outside the script: the constructors of the two client
    modules and the file system. *)
Record World := mk_World {
  tritongrpcclient_InferenceServerClient : string -> bool -> outcome GrpcClient;
  tritonhttpclient_InferenceServerClient : string -> bool -> outcome HttpClient;
  os_path_isdir : string -> bool;
  os_listdir : string -> outcome (list string);
  os_path_isfile : string -> bool;
  (** [open(path, "rb")] followed by [fd.read()] *)
  read_file : string -> outcome bytes
}.

(* ================================================================= *)
(** ** Runs: a result and the trace of what the script did *)

Inductive event :=
| Print (line : string)
| CreateClient (t : Transport) (url : string) (verbose : bool)
| GetModelMetadata (model_name : string)
| GetModelConfig (model_name : string)
| Open (path : string)
| Infer (model_name : string) (inputs : list InferInput)
        (outputs : list InferRequestedOutput).

(** How a run of the script, or of a part of it, ends: with a value, with
    an uncaught exception, or in [sys.exit]. *)
Inductive result (A : Type) :=
| Ok (a : A)
| Raise (e : exn)
| SysExit (code : Z).

Arguments Ok {A} a.
Arguments Raise {A} e.
Arguments SysExit {A} code.

Definition M (A : Type) : Type := result A * list event.

Definition ret {A} (a : A) : M A := (Ok a, []).

Definition bind {A B} (m : M A) (k : A -> M B) : M B :=
  match fst m with
  | Ok a => (fst (k a), snd m ++ snd (k a))
  | Raise e => (Raise e, snd m)
  | SysExit c => (SysExit c, snd m)
  end.

Notation "'do' x <- e ; k" := (bind e (fun x => k))
  (at level 10, x pattern, e at level 100, k at level 200).
Notation "e ;; k" := (bind e (fun _ => k))
  (at level 100, k at level 200, right associativity).

Definition lift {A} (r : outcome A) : M A :=
  (match r with
   | Return a => Ok a
   | Throw e => Raise e
   end, []).

Definition raise {A} (e : exn) : M A := (Raise e, []).

(** [sys.exit(code)]. *)
Definition sys_exit {A} (code : Z) : M A := (SysExit code, []).

Definition emit (ev : event) : M unit := (Ok tt, [ev]).

Definition print (line : string) : M unit := emit (Print line).

(** A call into the world: the event, then its answer. *)
Definition call {A} (ev : event) (r : outcome A) : M A := emit ev ;; lift r.

(** [try: m  except C as e: handler(e)], [catches] telling the instances
    of [C]. *)
Definition try_except {A} (m : M A) (catches : exn -> bool) (handler : exn -> M A)
  : M A :=
  match fst m with
  | Raise e =>
      if catches e then (fst (handler e), snd m ++ snd (handler e)) else m
  | _ => m
  end.

Fixpoint for_each {A} (l : list A) (body : A -> M unit) : M unit :=
  match l with
  | [] => ret tt
  | x :: l' => body x ;; for_each l' body
  end.

Definition stdout (t : list event) : list string :=
  flat_map (fun ev => match ev with Print s => [s] | _ => [] end) t.

(** The status the process ends with: 0 at the end of the script, the
    argument of [sys.exit], and 1 after an uncaught exception. *)
Definition exit_status {A} (r : result A) : Z :=
  match r with
  | Ok _ => 0
  | Raise _ => 1
  | SysExit c => c
  end.

(* ================================================================= *)
(** ** Command line *)

Module Flags.
(** The namespace [parse_args] returns. *)
Record t := mk {
  verbose : bool;
  classes : Z;
  url : string;
  protocol : string;
  image_filename : option string
}.
End Flags.

(** What the user gave on the command line: every argument of the parser is
    optional ([required=False] for the four options, [nargs='?'] for the
    positional one), [-v] is a switch and [-c] has [type=int]. *)
Record CommandLine := mk_CommandLine {
  given_verbose : bool;
  given_classes : option Z;
  given_url : option string;
  given_protocol : option string;
  given_image_filename : option string
}.

Definition with_default {A} (given : option A) (default : A) : A :=
  match given with
  | Some a => a
  | None => default
  end.

Definition parse_args (argv : CommandLine) : Flags.t :=
  Flags.mk (given_verbose argv)
           (with_default (given_classes argv) 1)
           (with_default (given_url argv) "localhost:8000")
           (with_default (given_protocol argv) "HTTP")
           (given_image_filename argv).

(* ================================================================= *)
(** ** Paths and sorting *)

Definition starts_with_sep (s : string) : bool :=
  match s with
  | String c _ => Ascii.eqb c "/"
  | EmptyString => false
  end.

Fixpoint ends_with_sep (s : string) : bool :=
  match s with
  | EmptyString => false
  | String c EmptyString => Ascii.eqb c "/"
  | String _ s' => ends_with_sep s'
  end.

(** [os.path.join(a, b)] of [posixpath]. *)
Definition os_path_join (a b : string) : string :=
  if starts_with_sep b then b
  else if String.eqb a "" || ends_with_sep a then a +s+ b
  else a +s+ "/" +s+ b.

(** [l.sort()] on a list of [str].  The order is total and two strings that
    compare equal are the same string, so the sorted list does not depend on
    the algorithm; a stable insertion sort is used here. *)
Fixpoint insert (x : string) (l : list string) : list string :=
  match l with
  | [] => [x]
  | y :: l' => if String.leb x y then x :: l else y :: insert x l'
  end.

Fixpoint list_sort (l : list string) : list string :=
  match l with
  | [] => []
  | x :: l' => insert x (list_sort l')
  end.

(* ================================================================= *)
(** ** [postprocess] *)

Definition expected_results (batch_size : pyint) (n : Z) : exn :=
  mk_exn Exception
    ("expected " +s+ py_format batch_size +s+ " results, got " +s+ str_of_Z n).

(** [len(output_array)]; [as_numpy] may have answered [None]. *)
Definition np_len (a : option ndarray) : outcome Z :=
  match a with
  | Some a => Return (len (rows a))
  | None => Throw (builtin_error TypeError)
  end.

(** The two ways [cls] is computed from one item.  Under a bytes dtype the
    item is iterated and [chr] applied to what comes out, which works for a
    [bytes] object; otherwise [split] is called on the item itself, which
    works for a [str]. *)
Definition class_fields (is_bytes : bool) (item : elem) : outcome (list string) :=
  if is_bytes then
    match item with
    | ElBytes b => Return (split ":" (join_chr b))
    | ElStr EmptyString => Return (split ":" "")
    | _ => Throw (builtin_error TypeError)
    end
  else
    match item with
    | ElStr s => Return (split ":" s)
    | ElBytes _ => Throw (builtin_error TypeError)
    | ElOther => Throw (builtin_error AttributeError)
    end.

(** ["    {} ({}) = {}".format(cls[0], cls[1], cls[2])]. *)
Definition class_line (cls : list string) : outcome string :=
  match cls with
  | c0 :: c1 :: c2 :: _ => Return ("    " +s+ c0 +s+ " (" +s+ c1 +s+ ") = " +s+ c2)
  | _ => Throw (builtin_error IndexError)
  end.

Definition print_class (is_bytes : bool) (item : elem) : M unit :=
  do cls <- lift (class_fields is_bytes item);
  do line <- lift (class_line cls);
  print line.

Definition postprocess (results : InferResult) (output_name : pyval)
    (filenames : list string) (batch_size : pyint) : M unit :=
  let output_array := as_numpy results output_name in
  do n <- lift (np_len output_array);
  if negb (n =? int_of batch_size) then raise (expected_results batch_size n)
  else
    match output_array with
    | None => raise (builtin_error TypeError)
    | Some a =>
        for_each (rows a) (fun results =>
          for_each results (fun item => print_class (dtype_is_bytes a) item))
    end.

(* ================================================================= *)
(** ** The script *)

Definition model_name : string := "preprocess_resnet50_ensemble".

Definition truncation_warning (batch_size : pyint) : string :=
  "The number of images exceeds maximum batch size," +s+
  "only the first " +s+ py_format batch_size +s+
  " images, sorted by name alphabetically," +s+
  " will be processed".

(** [l[idx]]. *)
Definition list_getitem {A} (l : list A) (idx : nat) : outcome A :=
  match nth_error l idx with
  | Some x => Return x
  | None => Throw (builtin_error IndexError)
  end.

(** [range(n)]. *)
Definition range (n : pyint) : list nat := seq 0 (Z.to_nat (int_of n)).

(** Lines 147-158: the client of the chosen module. *)
Definition create_client (w : World) (FLAGS : Flags.t) (protocol : string) : M Client :=
  try_except
    (if String.eqb protocol "grpc" then
       call (CreateClient GRPC (Flags.url FLAGS) (Flags.verbose FLAGS))
            (outcome_map GrpcC
               (tritongrpcclient_InferenceServerClient w (Flags.url FLAGS)
                                                       (Flags.verbose FLAGS)))
     else
       call (CreateClient HTTP (Flags.url FLAGS) (Flags.verbose FLAGS))
            (outcome_map HttpC
               (tritonhttpclient_InferenceServerClient w (Flags.url FLAGS)
                                                       (Flags.verbose FLAGS))))
    (fun _ => true)
    (fun e => print ("client creation failed: " +s+ exn_str e) ;; sys_exit 1).

(** Lines 164-174: the two fetches. *)
Definition fetch_metadata (triton_client : Client) : M Metadata :=
  try_except
    (call (GetModelMetadata model_name) (get_model_metadata triton_client model_name))
    is_InferenceServerException
    (fun e => print ("failed to retrieve the metadata: " +s+ exn_str e) ;; sys_exit 1).

Definition fetch_config (triton_client : Client) : M Config :=
  try_except
    (call (GetModelConfig model_name) (get_model_config triton_client model_name))
    is_InferenceServerException
    (fun e => print ("failed to retrieve the config: " +s+ exn_str e) ;; sys_exit 1).

(** Lines 176-181.  The client and its answers come from the module the same
    test chose at line 148, so the mixed cases are never reached; there
    Python fails on the first attribute or item it looks up. *)
Definition parse_model (FLAGS : Flags.t) (model_metadata : Metadata)
    (model_config : Config) : outcome (pyval * pyval * pyval) :=
  if String.eqb (lower (Flags.protocol FLAGS)) "grpc" then
    match model_metadata, model_config with
    | MetaMsg md, ConfigMsg cr =>
        let? (input_name, output_name, batch_size) :=
          parse_model_grpc md (ModelConfigResponse.config cr) in
        Return (PyStr input_name, PyStr output_name, PyInt batch_size)
    | _, _ => Throw (builtin_error AttributeError)
    end
  else
    match model_metadata, model_config with
    | MetaDict md, ConfigDict cfg => parse_model_http md cfg
    | _, _ => Throw (builtin_error TypeError)
    end.

(** Lines 183-195: the sorted list of candidate paths.  [os.path.isdir(None)]
    is a [TypeError]. *)
Definition list_filenames (w : World) (image_filename : option string)
  : outcome (list string) :=
  match image_filename with
  | None => Throw (builtin_error TypeError)
  | Some path =>
      let? filenames :=
        if os_path_isdir w path then
          let? names := os_listdir w path in
          Return (map (os_path_join path)
                (filter (fun f => os_path_isfile w (os_path_join path f)) names))
        else Return [path] in
      Return (list_sort filenames)
  end.

(** Lines 197-203: the smaller of the number of images and the maximum batch
    size. *)
Definition choose_batch_size (filenames : list string) (batch_size : pyval) : M pyint :=
  do max_batch_size <- lift (py_index batch_size);
  if len filenames <=? int_of max_batch_size then ret (PInt (len filenames))
  else print (truncation_warning max_batch_size) ;; ret max_batch_size.

(** Lines 207-210: one array per image read. *)
Fixpoint read_images (w : World) (filenames : list string) (idxs : list nat)
    (image_data : list (list elem)) : M (list (list elem)) :=
  match idxs with
  | [] => ret image_data
  | idx :: idxs' =>
      do f <- lift (list_getitem filenames idx);
      do content <- call (Open f) (read_file w f);
      read_images w filenames idxs' (image_data ++ [np_array [content]])
  end.

(** Lines 213-217. *)
Fixpoint repeat_images (filenames : list string) (image_data : list (list elem))
    (idxs : list nat) (input_filenames : list string)
    (repeated_image_data : list (list elem))
  : outcome (list string * list (list elem)) :=
  match idxs with
  | [] => Return (input_filenames, repeated_image_data)
  | idx :: idxs' =>
      let? f := list_getitem filenames idx in
      let? a := list_getitem image_data idx in
      repeat_images filenames image_data idxs'
                    (input_filenames ++ [f]) (repeated_image_data ++ [a])
  end.

(** Lines 222-232: the input of the request. *)
Definition make_inputs (FLAGS : Flags.t) (input_name : pyval)
    (batched_image_data : ndarray) : list InferInput :=
  if String.eqb (lower (Flags.protocol FLAGS)) "grpc" then
    [set_data_from_numpy
       (mk_InferInput GRPC input_name (shape batched_image_data) "BYTES" None None)
       batched_image_data None]
  else
    [set_data_from_numpy
       (mk_InferInput HTTP input_name (shape batched_image_data) "BYTES" None None)
       batched_image_data (Some true)].

(** Lines 234-243: the requested output.  Under gRPC the constructor raises
    when [--classes] is outside the range of the field. *)
Definition make_outputs (FLAGS : Flags.t) (output_name : pyval)
  : outcome (list InferRequestedOutput) :=
  if String.eqb (lower (Flags.protocol FLAGS)) "grpc" then
    let? output :=
      tritongrpcclient_InferRequestedOutput output_name (Flags.classes FLAGS) in
    Return [output]
  else
    Return [tritonhttpclient_InferRequestedOutput output_name true
              (Flags.classes FLAGS)].

(** Lines 183-250: from the image path to [PASS]. *)
Definition classify (w : World) (FLAGS : Flags.t) (triton_client : Client)
    (input_name output_name batch_size : pyval) : M unit :=
  do filenames <- lift (list_filenames w (Flags.image_filename FLAGS));
  do batch_size <- choose_batch_size filenames batch_size;
  do image_data <- read_images w filenames (range batch_size) [];
  do (input_filenames, repeated_image_data) <-
    lift (repeat_images filenames image_data (range batch_size) [] []);
  do batched_image_data <- lift (np_stack repeated_image_data);
  let inputs := make_inputs FLAGS input_name batched_image_data in
  do outputs <- lift (make_outputs FLAGS output_name);
  do result <- call (Infer model_name inputs outputs)
                    (infer triton_client model_name inputs outputs);
  postprocess result output_name input_filenames batch_size ;;
  print "PASS".

(** Lines 145-250. *)
Definition main (w : World) (FLAGS : Flags.t) : M unit :=
  let protocol := lower (Flags.protocol FLAGS) in
  do triton_client <- create_client w FLAGS protocol;
  do model_metadata <- fetch_metadata triton_client;
  do model_config <- fetch_config triton_client;
  do (input_name, output_name, batch_size) <-
    lift (parse_model FLAGS model_metadata model_config);
  classify w FLAGS triton_client input_name output_name batch_size.

(** The script from the command line on. *)
Definition script (w : World) (argv : CommandLine) : M unit :=
  main w (parse_args argv).

(* ================================================================= *)
(** ** Vocabulary of the properties *)

(** The order of [str]. *)
Definition le_str (a b : string) : Prop := String.leb a b = true.

(** The prefix [os.path.join] puts before a name that is not absolute. *)
Definition dir_prefix (path : string) : string :=
  if String.eqb path "" || ends_with_sep path then path else path +s+ "/".

(** Reading a list of files in order, up to the first that cannot be read. *)
Fixpoint read_list (w : World) (fs : list string) : M (list (list elem)) :=
  match fs with
  | [] => ret []
  | f :: fs' =>
      do content <- call (Open f) (read_file w f);
      do rest <- read_list w fs';
      ret (np_array [content] :: rest)
  end.

Definition readable (w : World) (f : string) (content : bytes) : Prop :=
  read_file w f = Return content.

(** What a gRPC validation outcome looks like in the variables of the
    script. *)
Definition as_values (triple : string * string * Z) : pyval * pyval * pyval :=
  let '(input_name, output_name, max_batch_size) := triple in
  (PyStr input_name, PyStr output_name, PyInt max_batch_size).

(** The dictionary that carries the same values as a message: one key per
    field, a list per repeated field. *)
Definition tensor_metadata_to_dict (t : TensorMetadata.t) : pyval :=
  PyDict [("name", PyStr (TensorMetadata.name t));
          ("datatype", PyStr (TensorMetadata.datatype t));
          ("shape", PyList (map PyInt (TensorMetadata.shape t)))].

Definition metadata_to_dict (m : ModelMetadataResponse.t) : pyval :=
  PyDict [("name", PyStr (ModelMetadataResponse.name m));
          ("versions", PyList (map PyStr (ModelMetadataResponse.versions m)));
          ("platform", PyStr (ModelMetadataResponse.platform m));
          ("inputs",
           PyList (map tensor_metadata_to_dict (ModelMetadataResponse.inputs m)));
          ("outputs",
           PyList (map tensor_metadata_to_dict (ModelMetadataResponse.outputs m)))].

Definition model_tensor_to_dict (t : ModelTensor.t) : pyval :=
  PyDict [("name", PyStr (ModelTensor.name t));
          ("data_type", PyStr (ModelTensor.data_type t));
          ("dims", PyList (map PyInt (ModelTensor.dims t)))].

Definition config_to_dict (c : ModelConfig.t) : pyval :=
  PyDict [("name", PyStr (ModelConfig.name c));
          ("platform", PyStr (ModelConfig.platform c));
          ("max_batch_size", PyInt (ModelConfig.max_batch_size c));
          ("input", PyList (map model_tensor_to_dict (ModelConfig.input c)));
          ("output", PyList (map model_tensor_to_dict (ModelConfig.output c)))].

(** A configuration message with another list of outputs. *)
Definition with_output (c : ModelConfig.t) (output : list ModelTensor.t)
  : ModelConfig.t :=
  ModelConfig.mk (ModelConfig.name c) (ModelConfig.platform c)
                 (ModelConfig.max_batch_size c) (ModelConfig.input c) output.

(** A dictionary with key [k] set to [v], and with key [k] deleted. *)
Fixpoint dict_set (kvs : list (string * pyval)) (k : string) (v : pyval)
  : list (string * pyval) :=
  match kvs with
  | [] => [(k, v)]
  | (k', v') :: kvs' =>
      if String.eqb k' k then (k, v) :: kvs' else (k', v') :: dict_set kvs' k v
  end.

Fixpoint dict_del (kvs : list (string * pyval)) (k : string)
  : list (string * pyval) :=
  match kvs with
  | [] => []
  | (k', v') :: kvs' =>
      if String.eqb k' k then dict_del kvs' k else (k', v') :: dict_del kvs' k
  end.

(** The batch size the script settles on (lines 198-203), and the files it
    then reads: the first ones of the sorted list. *)
Definition chosen_batch_size (filenames : list string) (max_batch_size : pyint) : pyint :=
  if len filenames <=? int_of max_batch_size then PInt (len filenames)
  else max_batch_size.

Definition chosen_files (filenames : list string) (max_batch_size : pyint) : list string :=
  firstn (Z.to_nat (int_of (chosen_batch_size filenames max_batch_size))) filenames.

(** Lines 219-250, for the arrays of the images read. *)
Definition send (FLAGS : Flags.t) (triton_client : Client)
    (input_name output_name : pyval) (input_filenames : list string)
    (batch_size : pyint) (image_data : list (list elem)) : M unit :=
  do batched_image_data <- lift (np_stack image_data);
  let inputs := make_inputs FLAGS input_name batched_image_data in
  do outputs <- lift (make_outputs FLAGS output_name);
  do result <- call (Infer model_name inputs outputs)
                    (infer triton_client model_name inputs outputs);
  postprocess result output_name input_filenames batch_size ;;
  print "PASS".

(** [classify] with the two index loops replaced by what they compute. *)
Definition classify_chosen (w : World) (FLAGS : Flags.t) (triton_client : Client)
    (input_name output_name batch_size : pyval) : M unit :=
  do filenames <- lift (list_filenames w (Flags.image_filename FLAGS));
  do max_batch_size <- lift (py_index batch_size);
  (if len filenames <=? int_of max_batch_size then ret tt
   else print (truncation_warning max_batch_size)) ;;
  do image_data <- read_list w (chosen_files filenames max_batch_size);
  send FLAGS triton_client input_name output_name
       (chosen_files filenames max_batch_size)
       (chosen_batch_size filenames max_batch_size) image_data.

(** The transport the flag selects, and the constructor of its module. *)
Definition transport_of (FLAGS : Flags.t) : Transport :=
  if String.eqb (lower (Flags.protocol FLAGS)) "grpc" then GRPC else HTTP.

Definition InferenceServerClient (w : World) (t : Transport) (url : string)
    (verbose : bool) : outcome Client :=
  match t with
  | GRPC => outcome_map GrpcC (tritongrpcclient_InferenceServerClient w url verbose)
  | HTTP => outcome_map HttpC (tritonhttpclient_InferenceServerClient w url verbose)
  end.

(** The three calls every run that gets to the validation has made. *)
Definition prologue (FLAGS : Flags.t) : list event :=
  [CreateClient (transport_of FLAGS) (Flags.url FLAGS) (Flags.verbose FLAGS);
   GetModelMetadata model_name;
   GetModelConfig model_name].

(** [main], stage by stage. *)
Definition main_by_cases (w : World) (FLAGS : Flags.t) : M unit :=
  let created :=
    CreateClient (transport_of FLAGS) (Flags.url FLAGS) (Flags.verbose FLAGS) in
  match InferenceServerClient w (transport_of FLAGS) (Flags.url FLAGS)
                              (Flags.verbose FLAGS) with
  | Throw e =>
      (SysExit 1, [created; Print ("client creation failed: " +s+ exn_str e)])
  | Return c =>
      match get_model_metadata c model_name with
      | Throw e =>
          if is_InferenceServerException e then
            (SysExit 1,
             [created; GetModelMetadata model_name;
              Print ("failed to retrieve the metadata: " +s+ exn_str e)])
          else (Raise e, [created; GetModelMetadata model_name])
      | Return md =>
          match get_model_config c model_name with
          | Throw e =>
              if is_InferenceServerException e then
                (SysExit 1,
                 prologue FLAGS ++
                 [Print ("failed to retrieve the config: " +s+ exn_str e)])
              else (Raise e, prologue FLAGS)
          | Return cfg =>
              match parse_model FLAGS md cfg with
              | Throw e => (Raise e, prologue FLAGS)
              | Return (i, o, bs) =>
                  (fst (classify_chosen w FLAGS c i o bs),
                   prologue FLAGS ++ snd (classify_chosen w FLAGS c i o bs))
              end
          end
      end
  end.

(** The images of a request: the rows of the arrays its inputs hold. *)
Definition batch_of (inputs : list InferInput) : list (list elem) :=
  flat_map (fun i => match in_data i with
                     | Some a => rows a
                     | None => []
                     end) inputs.

(** The row of one image, and the array of a batch, as the script builds
    them. *)
Definition image_row (content : bytes) : list elem := np_array [content].

Definition batch_array (contents : list bytes) : ndarray :=
  mk_ndarray true (map image_row contents).

(** The bytes of a file without the zero bytes it ends with: the leading
    zero bytes of the reversed content are dropped. *)
Fixpoint drop_zeros (b : bytes) : bytes :=
  match b with
  | x :: b' => if Byte.eqb x Byte.x00 then drop_zeros b' else b
  | [] => []
  end.

Definition without_trailing_zeros (content : bytes) : bytes :=
  rev (drop_zeros (rev content)).

(** The content does not end with a zero byte. *)
Definition no_trailing_zero (content : bytes) : Prop :=
  last content Byte.x01 <> Byte.x00.

(** [binary_data] as the classes of each module are given it: the classes of
    the gRPC module take none. *)
Definition binary_data_of (t : Transport) : option bool :=
  match t with
  | GRPC => None
  | HTTP => Some true
  end.

(** The request for the images with these contents, written out: one input
    of type [BYTES] and shape [[N, 1]] that holds one row per image, the row
    being the one item made of the bytes of the file up to its trailing zero
    bytes; and one requested output with the class count of [--classes]. *)
Definition request_inputs (FLAGS : Flags.t) (input_name : pyval)
    (contents : list bytes) : list InferInput :=
  [mk_InferInput (transport_of FLAGS) input_name [len contents; 1] "BYTES"
     (Some (mk_ndarray true
              (map (fun content => [ElBytes (without_trailing_zeros content)])
                   contents)))
     (binary_data_of (transport_of FLAGS))].

Definition request_outputs (FLAGS : Flags.t) (output_name : pyval)
  : list InferRequestedOutput :=
  [mk_InferRequestedOutput (transport_of FLAGS) output_name
     (binary_data_of (transport_of FLAGS)) (Flags.classes FLAGS)].

(** The class count is one the request of the selected transport can hold:
    any integer under HTTP, a signed 64-bit integer under gRPC. *)
Definition class_count_accepted (FLAGS : Flags.t) : Prop :=
  transport_of FLAGS = HTTP \/
  - 2 ^ 63 <= Flags.classes FLAGS < 2 ^ 63.

(** The files a run opened, in order. *)
Definition opened (t : list event) : list string :=
  flat_map (fun ev => match ev with Open p => [p] | _ => [] end) t.

Definition is_print (ev : event) : Prop :=
  match ev with
  | Print _ => True
  | _ => False
  end.

Definition warning_events (filenames : list string) (max_batch_size : pyint)
  : list event :=
  if len filenames <=? int_of max_batch_size then []
  else [Print (truncation_warning max_batch_size)].

(** What follows the inference call. *)
Definition after_infer (r : outcome InferResult) (output_name : pyval)
    (input_filenames : list string) (batch_size : pyint) : M unit :=
  match r with
  | Return result =>
      postprocess result output_name input_filenames batch_size ;; print "PASS"
  | Throw e => (Raise e, [])
  end.

(** The maximum batch size a configuration declares, as the script reads
    it. *)
Definition declared_max_batch_size (cfg : Config) : option pyval :=
  match cfg with
  | ConfigMsg cr => Some (PyInt (ModelConfig.max_batch_size (ModelConfigResponse.config cr)))
  | ConfigDict d =>
      match py_getitem d "max_batch_size" with
      | Return v => Some v
      | Throw _ => None
      end
  end.

(** A run ends without [sys.exit]. *)
Definition no_exit {A} (m : M A) : Prop := forall code, fst m <> SysExit code.

(** The run gets past the model validation, with this client and this
    triple. *)
Definition validated (w : World) (FLAGS : Flags.t) (c : Client)
    (cfg : Config) (i o bs : pyval) : Prop :=
  InferenceServerClient w (transport_of FLAGS) (Flags.url FLAGS)
                        (Flags.verbose FLAGS) = Return c /\
  get_model_config c model_name = Return cfg /\
  exists md, get_model_metadata c model_name = Return md /\
             parse_model FLAGS md cfg = Return (i, o, bs).

(** The regular files of a directory, by name, as [os.listdir] gave them. *)
Definition regular_files (w : World) (path : string) (names : list string)
  : list string :=
  filter (fun f => os_path_isfile w (os_path_join path f)) names.

(** The image path is a directory with these entries.  No name that
    [os.listdir] returns holds a separator. *)
Definition is_directory (w : World) (FLAGS : Flags.t) (path : string)
    (names : list string) : Prop :=
  Flags.image_filename FLAGS = Some path /\
  os_path_isdir w path = true /\
  os_listdir w path = Return names /\
  Forall (fun f => starts_with_sep f = false) names.

(** The sorted paths of the regular files of the directory. *)
Definition sorted_paths (w : World) (path : string) (names : list string)
  : list string :=
  map (os_path_join path) (list_sort (regular_files w path names)).

(* ================================================================= *)
(** ** A concrete world: the directory of the specification's example *)

Module Example.

Definition content (s : string) : bytes := list_byte_of_string s.

Definition input_tensor : TensorMetadata.t := TensorMetadata.mk "INPUT" "BYTES" [-1].
Definition output_tensor : TensorMetadata.t := TensorMetadata.mk "OUTPUT" "BYTES" [-1].

Definition metadata : ModelMetadataResponse.t :=
  ModelMetadataResponse.mk model_name ["1"] "ensemble" [input_tensor] [output_tensor].

Definition config (max_batch_size : Z) : ModelConfigResponse.t :=
  ModelConfigResponse.mk
    (ModelConfig.mk model_name "ensemble" max_batch_size
       [ModelTensor.mk "INPUT" "TYPE_STRING" [-1]]
       [ModelTensor.mk "OUTPUT" "TYPE_STRING" [-1]]).

(** The server answers one class per image. *)
Definition answer (inputs : list InferInput) : InferResult :=
  mk_InferResult (fun name =>
    match name with
    | PyStr "OUTPUT" =>
        Some (mk_ndarray true
                (map (fun _ => [ElBytes (content "0.93:281:TABBY")]) (batch_of inputs)))
    | _ => None
    end).

Definition grpc_client (max_batch_size : Z) : GrpcClient :=
  mk_GrpcClient (fun _ => Return metadata)
                (fun _ => Return (config max_batch_size))
                (fun _ inputs _ => Return (answer inputs)).

Definition http_client (max_batch_size : Z) : HttpClient :=
  mk_HttpClient
    (fun _ => Return (metadata_to_dict metadata))
    (fun _ => Return (config_to_dict (ModelConfigResponse.config (config max_batch_size))))
    (fun _ inputs _ => Return (answer inputs)).

(** The directory [images] holds two images and a sub-directory. *)
Definition world (max_batch_size : Z) : World :=
  mk_World (fun _ _ => Return (grpc_client max_batch_size))
           (fun _ _ => Return (http_client max_batch_size))
           (fun p => String.eqb p "images")
           (fun _ => Return ["dog.jpg"; "raw"; "cat.jpg"])
           (fun p => negb (String.eqb p "images/raw"))
           (fun p => Return (content p)).

(** A configuration that declares no input, and one that declares two. *)
Definition config_no_input : ModelConfig.t :=
  ModelConfig.mk model_name "ensemble" 8 [] [ModelTensor.mk "OUTPUT" "TYPE_STRING" [-1]].

Definition config_two_inputs : ModelConfig.t :=
  ModelConfig.mk model_name "ensemble" 8
    [ModelTensor.mk "INPUT" "TYPE_STRING" [-1]; ModelTensor.mk "MASK" "TYPE_STRING" [-1]]
    [ModelTensor.mk "OUTPUT" "TYPE_STRING" [-1]].

(** A server that cannot be reached: the HTTP client is created, and its
    first request fails in the socket layer. *)
Definition connection_refused : exn := mk_exn OSError "[Errno 111] Connection refused".

Definition unreachable_http_client : HttpClient :=
  mk_HttpClient (fun _ => Throw connection_refused)
                (fun _ => Throw connection_refused)
                (fun _ _ _ => Throw connection_refused).

Definition unreachable_world : World :=
  mk_World (fun _ _ => Throw connection_refused)
           (fun _ _ => Return unreachable_http_client)
           (fun p => String.eqb p "images")
           (fun _ => Return ["dog.jpg"; "raw"; "cat.jpg"])
           (fun p => negb (String.eqb p "images/raw"))
           (fun p => Return (content p)).

Definition flags (protocol : string) : Flags.t :=
  parse_args (mk_CommandLine false None None (Some protocol) (Some "images")).

(** The same flags with [--classes] given. *)
Definition flags_with_classes (protocol : string) (classes : Z) : Flags.t :=
  parse_args (mk_CommandLine false (Some classes) None (Some protocol)
                             (Some "images")).

(** The same directory when every file ends with two zero bytes. *)
Definition zero_padded_world (max_batch_size : Z) : World :=
  mk_World (fun _ _ => Return (grpc_client max_batch_size))
           (fun _ _ => Return (http_client max_batch_size))
           (fun p => String.eqb p "images")
           (fun _ => Return ["dog.jpg"; "raw"; "cat.jpg"])
           (fun p => negb (String.eqb p "images/raw"))
           (fun p => Return (content p ++ [Byte.x00; Byte.x00])).

End Example.

(** The input and output counts the metadata reports. *)
Definition metadata_counts (md : Metadata) : option (Z * Z) :=
  match md with
  | MetaMsg m =>
      Some (len (ModelMetadataResponse.inputs m),
            len (ModelMetadataResponse.outputs m))
  | MetaDict d =>
      match py_getitem d "inputs", py_getitem d "outputs" with
      | Return (PyList ins), Return (PyList outs) => Some (len ins, len outs)
      | _, _ => None
      end
  end.

Definition no_infer (t : list event) : Prop :=
  forall mn ins outs, ~ In (Infer mn ins outs) t.

(** ** Class results *)

Fixpoint has_char (c : ascii) (s : string) : bool :=
  match s with
  | EmptyString => false
  | String x s' => Ascii.eqb x c || has_char c s'
  end.

(** One class result: its identifier, its score and its label. *)
Record class_result := mk_class_result {
  class_id : string;
  class_score : string;
  class_label : string
}.

(** The string ["id:score:label"] of a class result. *)
Definition class_string (r : class_result) : string :=
  class_id r +s+ ":" +s+ class_score r +s+ ":" +s+ class_label r.

(** The line printed for it. *)
Definition class_output (r : class_result) : string :=
  "    " +s+ class_id r +s+ " (" +s+ class_score r +s+ ") = " +s+ class_label r.

(** An item of a bytes array that holds a class result in that form; none
    of the three parts holds the delimiter. *)
Definition encodes (item : elem) (r : class_result) : Prop :=
  has_char ":" (class_id r) = false /\
  has_char ":" (class_score r) = false /\
  has_char ":" (class_label r) = false /\
  exists b, item = ElBytes b /\ join_chr b = class_string r.

(** ** Protocol selection *)

(** The four letters of [grpc], each in either case. *)
Definition is_grpc_ignoring_case (p : string) : Prop :=
  match p with
  | String a (String b (String c (String d EmptyString))) =>
      (a = "g" \/ a = "G")%char /\ (b = "r" \/ b = "R")%char /\
      (c = "p" \/ c = "P")%char /\ (d = "c" \/ d = "C")%char
  | _ => False
  end.

(** ** How a run ends *)

(** Every stage of the script succeeds: the client is created, metadata and
    configuration are fetched, the model passes the validation, the image
    path is listed, the batch size is chosen, the chosen files are read, the
    arrays are stacked, the request is built, the server answers, and the
    answer is printed. *)
Definition all_stages_succeed (w : World) (FLAGS : Flags.t) : Prop :=
  exists c cfg i o bs fs n cs batched outs r,
    validated w FLAGS c cfg i o bs /\
    list_filenames w (Flags.image_filename FLAGS) = Return fs /\
    py_index bs = Return n /\
    Forall2 (readable w) (chosen_files fs n) cs /\
    np_stack (map image_row cs) = Return batched /\
    make_outputs FLAGS o = Return outs /\
    infer c model_name (make_inputs FLAGS i batched) outs = Return r /\
    fst (postprocess r o (chosen_files fs n) (chosen_batch_size fs n)) = Ok tt.

(** The last line on standard output. *)
Definition last_line (t : list event) : option string :=
  List.last (map Some (stdout t)) None.

(** One of the three guarded stages raises ([fails]), or raises an exception
    its handler catches ([caught_failure], with the diagnostic the handler
    prints). *)
Definition stage_fails (w : World) (FLAGS : Flags.t) : Prop :=
  (exists e,
      InferenceServerClient w (transport_of FLAGS) (Flags.url FLAGS)
                            (Flags.verbose FLAGS) = Throw e) \/
  (exists c e,
      InferenceServerClient w (transport_of FLAGS) (Flags.url FLAGS)
                            (Flags.verbose FLAGS) = Return c /\
      get_model_metadata c model_name = Throw e) \/
  (exists c md e,
      InferenceServerClient w (transport_of FLAGS) (Flags.url FLAGS)
                            (Flags.verbose FLAGS) = Return c /\
      get_model_metadata c model_name = Return md /\
      get_model_config c model_name = Throw e).

Definition caught_failure (w : World) (FLAGS : Flags.t) (diagnostic : string) : Prop :=
  (exists e,
      InferenceServerClient w (transport_of FLAGS) (Flags.url FLAGS)
                            (Flags.verbose FLAGS) = Throw e /\
      diagnostic = "client creation failed: " +s+ exn_str e) \/
  (exists c e,
      InferenceServerClient w (transport_of FLAGS) (Flags.url FLAGS)
                            (Flags.verbose FLAGS) = Return c /\
      get_model_metadata c model_name = Throw e /\
      is_InferenceServerException e = true /\
      diagnostic = "failed to retrieve the metadata: " +s+ exn_str e) \/
  (exists c md e,
      InferenceServerClient w (transport_of FLAGS) (Flags.url FLAGS)
                            (Flags.verbose FLAGS) = Return c /\
      get_model_metadata c model_name = Return md /\
      get_model_config c model_name = Throw e /\
      is_InferenceServerException e = true /\
      diagnostic = "failed to retrieve the config: " +s+ exn_str e).

(** ** The two transports side by side *)

(** Two requests that differ in the module of their classes and in the wire
    encoding ([binary_data]) only. *)
Definition same_inputs (a b : list InferInput) : Prop :=
  map (fun x => (in_name x, in_shape x, in_datatype x, in_data x)) a
  = map (fun x => (in_name x, in_shape x, in_datatype x, in_data x)) b.

Definition same_outputs (a b : list InferRequestedOutput) : Prop :=
  map (fun x => (out_name x, out_class_count x)) a
  = map (fun x => (out_name x, out_class_count x)) b.

(** Two answers with the same arrays, or the same error. *)
Definition same_answer (x y : outcome InferResult) : Prop :=
  match x, y with
  | Return r, Return r' => forall name, as_numpy r name = as_numpy r' name
  | Throw e, Throw e' => e = e'
  | _, _ => False
  end.

(** A gRPC client and an HTTP client of servers that answer alike: the
    dictionaries carry the values of the messages, and the same request has
    the same answer. *)
Definition equivalent_servers (g : GrpcClient) (h : HttpClient) : Prop :=
  (forall name,
      http_get_model_metadata h name
      = outcome_map metadata_to_dict (grpc_get_model_metadata g name)) /\
  (forall name,
      http_get_model_config h name
      = outcome_map (fun cr => config_to_dict (ModelConfigResponse.config cr))
                    (grpc_get_model_config g name)) /\
  (forall name ig og ih oh,
      same_inputs ig ih -> same_outputs og oh ->
      same_answer (grpc_infer g name ig og) (http_infer h name ih oh)).

(** Two flag sets, one for each transport, with the same image path and the
    same class count; each run has the address of its own server. *)
Definition same_but_protocol (Fg Fh : Flags.t) : Prop :=
  transport_of Fg = GRPC /\ transport_of Fh = HTTP /\
  Flags.classes Fg = Flags.classes Fh /\
  Flags.image_filename Fg = Flags.image_filename Fh.

(** Two runs that end alike and print the same. *)
Definition same_output {A} (m1 m2 : M A) : Prop :=
  fst m1 = fst m2 /\ stdout (snd m1) = stdout (snd m2).

(* ================================================================= *)
(** ** Vocabulary of the further properties *)

(** The inference calls of a run, in order. *)
Definition requests (t : list event)
  : list (string * list InferInput * list InferRequestedOutput) :=
  flat_map (fun ev => match ev with
                      | Infer mn ins outs => [(mn, ins, outs)]
                      | _ => []
                      end) t.

(** [sep.join(pieces)]. *)
Fixpoint str_join (sep : string) (pieces : list string) : string :=
  match pieces with
  | [] => EmptyString
  | [p] => p
  | p :: rest => p +s+ sep +s+ str_join sep rest
  end.

(** The number of occurrences of a character. *)
Fixpoint count_char (c : ascii) (s : string) : nat :=
  match s with
  | EmptyString => 0
  | String x s' => (if Ascii.eqb x c then 1 else 0) + count_char c s'
  end.

(** An event that prints a line beginning with a space, as the class lines
    do. *)
Definition is_class_print (ev : event) : Prop :=
  match ev with
  | Print (String " " _) => True
  | _ => False
  end.

(** The calls a run made to the client library, in order. *)
Definition remote_calls (t : list event) : list event :=
  filter (fun ev => match ev with
                    | Print _ | Open _ => false
                    | _ => true
                    end) t.

(** More worlds around the directory of the example. *)
Module Scenario.

(** [dog.jpg] cannot be read. *)
Definition permission_denied : exn := mk_exn OSError "[Errno 13] Permission denied".

Definition unreadable_dog (max_batch_size : Z) : World :=
  mk_World (fun _ _ => Return (Example.grpc_client max_batch_size))
           (fun _ _ => Return (Example.http_client max_batch_size))
           (fun p => String.eqb p "images")
           (fun _ => Return ["dog.jpg"; "raw"; "cat.jpg"])
           (fun p => negb (String.eqb p "images/raw"))
           (fun p => if String.eqb p "images/dog.jpg" then Throw permission_denied
                     else Return (Example.content p)).

(** The same directory, listed in another order. *)
Definition other_order (max_batch_size : Z) : World :=
  mk_World (fun _ _ => Return (Example.grpc_client max_batch_size))
           (fun _ _ => Return (Example.http_client max_batch_size))
           (fun p => String.eqb p "images")
           (fun _ => Return ["cat.jpg"; "dog.jpg"; "raw"])
           (fun p => negb (String.eqb p "images/raw"))
           (fun p => Return (Example.content p)).

(** A server whose inference call fails. *)
Definition model_unavailable : exn :=
  mk_exn InferenceServerException "model is not ready".

Definition failing_infer : World :=
  mk_World (fun _ _ => Return (mk_GrpcClient
                                 (fun _ => Return Example.metadata)
                                 (fun _ => Return (Example.config 8))
                                 (fun _ _ _ => Throw model_unavailable)))
           (fun _ _ => Throw Example.connection_refused)
           (fun p => String.eqb p "images")
           (fun _ => Return ["dog.jpg"; "raw"; "cat.jpg"])
           (fun p => negb (String.eqb p "images/raw"))
           (fun p => Return (Example.content p)).

(** An HTTP server whose configuration has no number for the maximum batch
    size. *)
Definition config_null_max : pyval :=
  PyDict [("name", PyStr model_name);
          ("max_batch_size", PyNone);
          ("input", PyList [model_tensor_to_dict (ModelTensor.mk "INPUT" "TYPE_STRING" [-1])])].

Definition null_max : World :=
  mk_World (fun _ _ => Throw Example.connection_refused)
           (fun _ _ => Return (mk_HttpClient
                                 (fun _ => Return (metadata_to_dict Example.metadata))
                                 (fun _ => Return config_null_max)
                                 (fun _ inputs _ => Return (Example.answer inputs))))
           (fun p => String.eqb p "images")
           (fun _ => Return ["dog.jpg"; "raw"; "cat.jpg"])
           (fun p => negb (String.eqb p "images/raw"))
           (fun p => Return (Example.content p)).

(** The flags for one image file. *)
Definition one_file (protocol : string) : Flags.t :=
  parse_args (mk_CommandLine false (Some 3) None (Some protocol)
                             (Some "images/cat.jpg")).

End Scenario.
(* ================================================================= *)
(** * Properties *)

(** ** The definitions at work *)

Example split_fields : split ":" "0.93:281:TABBY" = ["0.93"; "281"; "TABBY"].
Proof. reflexivity. Qed.

Example split_keeps_empty_fields : split ":" "a::b:" = ["a"; ""; "b"; ""].
Proof. reflexivity. Qed.

Example lower_mixed_case : lower "GrPc" = "grpc".
Proof. reflexivity. Qed.

Example os_path_join_adds_separator :
  os_path_join "images" "cat.jpg" = "images/cat.jpg" /\
  os_path_join "images/" "cat.jpg" = "images/cat.jpg" /\
  os_path_join "" "cat.jpg" = "cat.jpg".
Proof. repeat split. Qed.

Example list_sort_by_code_point :
  list_sort ["dog.jpg"; "cat.jpg"; "Zebra.jpg"; "cat.jpeg"]
  = ["Zebra.jpg"; "cat.jpeg"; "cat.jpg"; "dog.jpg"].
Proof. reflexivity. Qed.

Example str_of_Z_decimal : str_of_Z 12 = "12" /\ str_of_Z 0 = "0" /\ str_of_Z (-3) = "-3".
Proof. repeat split. Qed.

(** The scenario of the specification: [cat.jpg] and [dog.jpg] in the
    directory, a maximum batch size of 8, one class per image. *)
Example two_images_one_request :
  main (Example.world 8) (Example.flags "HTTP")
  = (Ok tt,
     [CreateClient HTTP "localhost:8000" false;
      GetModelMetadata model_name;
      GetModelConfig model_name;
      Open "images/cat.jpg";
      Open "images/dog.jpg";
      Infer model_name
        [mk_InferInput HTTP (PyStr "INPUT") [2; 1] "BYTES"
           (Some (mk_ndarray true
                    [[ElBytes (Example.content "images/cat.jpg")];
                     [ElBytes (Example.content "images/dog.jpg")]]))
           (Some true)]
        [mk_InferRequestedOutput HTTP (PyStr "OUTPUT") (Some true) 1];
      Print "    0.93 (281) = TABBY";
      Print "    0.93 (281) = TABBY";
      Print "PASS"]).
Proof. reflexivity. Qed.

(** A fixed-width array forgets the zero bytes an item ends with, and those
    only. *)
Example np_array_trailing_zeros :
  np_array [[Byte.x61; Byte.x00; Byte.x62; Byte.x00; Byte.x00]]
  = [ElBytes [Byte.x61; Byte.x00; Byte.x62]] /\
  np_array [[Byte.x00; Byte.x00]] = [ElBytes []] /\
  np_array [Example.content "JFIF"] = [ElBytes (Example.content "JFIF")].
Proof. repeat split. Qed.

(** The same directory when the two files end with zero bytes: the request
    holds them without these. *)
Example zero_padded_files :
  requests (snd (main (Example.zero_padded_world 8) (Example.flags "HTTP")))
  = [(model_name,
      [mk_InferInput HTTP (PyStr "INPUT") [2; 1] "BYTES"
         (Some (mk_ndarray true
                  [[ElBytes (Example.content "images/cat.jpg")];
                   [ElBytes (Example.content "images/dog.jpg")]]))
         (Some true)],
      [mk_InferRequestedOutput HTTP (PyStr "OUTPUT") (Some true) 1])].
Proof. reflexivity. Qed.

(** [--classes] beyond the range of a signed 64-bit integer: the gRPC run
    stops when it builds the requested output, after the files were read. *)
Example class_count_out_of_range :
  main (Example.world 8) (Example.flags_with_classes "grpc" (2 ^ 63))
  = (Raise (builtin_error ValueError),
     [CreateClient GRPC "localhost:8000" false;
      GetModelMetadata model_name;
      GetModelConfig model_name;
      Open "images/cat.jpg";
      Open "images/dog.jpg"]).
Proof. reflexivity. Qed.

(** A model that does not batch (maximum batch size 0): the warning, then
    the [ValueError] of [np.stack] on no array; nothing is read or sent. *)
Example no_batching_no_request :
  main (Example.world 0) (Example.flags "grpc")
  = (Raise (builtin_error ValueError),
     [CreateClient GRPC "localhost:8000" false;
      GetModelMetadata model_name;
      GetModelConfig model_name;
      Print (truncation_warning (PInt 0))]).
Proof. reflexivity. Qed.

(** ** Strings and their order *)

Lemma append_assoc (a b c : string) : (a +s+ b) +s+ c = a +s+ (b +s+ c).
Proof. induction a as [|x a IH]; simpl; [reflexivity | now rewrite IH]. Qed.

Lemma ascii_compare_refl (c : ascii) : Ascii.compare c c = Eq.
Proof. unfold Ascii.compare. apply N.compare_refl. Qed.

Lemma compare_append_l (p a b : string) :
  String.compare (p +s+ a) (p +s+ b) = String.compare a b.
Proof.
  induction p as [|c p IH]; simpl; [reflexivity|].
  now rewrite ascii_compare_refl.
Qed.

Lemma leb_append_l (p a b : string) : String.leb (p +s+ a) (p +s+ b) = String.leb a b.
Proof. unfold String.leb. now rewrite compare_append_l. Qed.

Lemma string_compare_trans_le (a b c : string) :
  String.compare a b <> Gt -> String.compare b c <> Gt -> String.compare a c <> Gt.
Proof.
  revert b c. induction a as [|x a IH]; intros [|y b] [|z c]; simpl;
    try congruence.
  unfold Ascii.compare.
  destruct (N.compare_spec (N_of_ascii x) (N_of_ascii y)) as [Hxy|Hxy|Hxy];
    destruct (N.compare_spec (N_of_ascii y) (N_of_ascii z)) as [Hyz|Hyz|Hyz];
    destruct (N.compare_spec (N_of_ascii x) (N_of_ascii z)) as [Hxz|Hxz|Hxz];
    try congruence; try lia; eauto.
Qed.

Lemma leb_trans (a b c : string) :
  String.leb a b = true -> String.leb b c = true -> String.leb a c = true.
Proof.
  unfold String.leb. intros Hab Hbc.
  pose proof (@string_compare_trans_le a b c) as H.
  destruct (String.compare a b); destruct (String.compare b c);
    destruct (String.compare a c); try reflexivity; try discriminate;
    exfalso; apply H; congruence.
Qed.


(** A list holds at most one sorted arrangement of its elements. *)
Lemma sorted_permutation_unique (l1 : list string) :
  forall l2, StronglySorted le_str l1 -> StronglySorted le_str l2 ->
             Permutation l1 l2 -> l1 = l2.
Proof.
  induction l1 as [|a l1 IH]; intros l2 S1 S2 P.
  - now apply Permutation_nil in P.
  - destruct l2 as [|b l2].
    + symmetry in P. now apply Permutation_nil in P.
    + inversion S1 as [|? ? S1' F1]; inversion S2 as [|? ? S2' F2]; subst.
      assert (a = b) as ->.
      { assert (In b (a :: l1)) as Hb
          by (eapply Permutation_in; [symmetry; exact P | now left]).
        assert (In a (b :: l2)) as Ha
          by (eapply Permutation_in; [exact P | now left]).
        destruct Hb as [Hb|Hb]; [assumption|].
        destruct Ha as [Ha|Ha]; [now symmetry|].
        rewrite Forall_forall in F1, F2.
        apply String.leb_antisym; [apply F1 | apply F2]; assumption. }
      f_equal. apply IH; try assumption.
      eapply Permutation_cons_inv; exact P.
Qed.

Lemma insert_permutation (x : string) (l : list string) :
  Permutation (x :: l) (insert x l).
Proof.
  induction l as [|y l IH]; simpl; [reflexivity|].
  destruct (String.leb x y); [reflexivity|].
  rewrite perm_swap. now constructor.
Qed.

Lemma insert_sorted (x : string) (l : list string) :
  StronglySorted le_str l -> StronglySorted le_str (insert x l).
Proof.
  induction 1 as [|y l S IH F]; simpl.
  - constructor; constructor.
  - destruct (String.leb x y) eqn:E.
    + constructor; [now constructor|].
      constructor; [exact E|].
      rewrite Forall_forall in *. intros z Hz.
      eapply leb_trans; [exact E | now apply F].
    + constructor; [exact IH|].
      rewrite Forall_forall in *. intros z Hz.
      eapply Permutation_in in Hz; [|symmetry; apply insert_permutation].
      destruct Hz as [<-|Hz]; [|now apply F].
      destruct (String.leb_total x y) as [H|H]; [congruence | exact H].
Qed.

Lemma list_sort_sorted (l : list string) : StronglySorted le_str (list_sort l).
Proof.
  induction l as [|x l IH]; simpl; [constructor | now apply insert_sorted].
Qed.

Lemma list_sort_permutation (l : list string) : Permutation l (list_sort l).
Proof.
  induction l as [|x l IH]; simpl; [reflexivity|].
  rewrite <- insert_permutation. now constructor.
Qed.

Lemma strongly_sorted_map_prefix (p : string) (l : list string) :
  StronglySorted le_str l -> StronglySorted le_str (map (String.append p) l).
Proof.
  induction 1 as [|a l S IH F]; simpl; constructor; [assumption|].
  rewrite Forall_forall in *. intros x Hx.
  apply in_map_iff in Hx as (y & <- & Hy).
  unfold le_str. rewrite leb_append_l. now apply F.
Qed.

(** Sorting paths that share a prefix is sorting what follows the prefix. *)
Lemma list_sort_map_prefix (p : string) (l : list string) :
  list_sort (map (String.append p) l) = map (String.append p) (list_sort l).
Proof.
  apply sorted_permutation_unique.
  - apply list_sort_sorted.
  - apply strongly_sorted_map_prefix, list_sort_sorted.
  - eapply Permutation_trans.
    + symmetry. apply list_sort_permutation.
    + apply Permutation_map, list_sort_permutation.
Qed.


Lemma os_path_join_prefix (path f : string) :
  starts_with_sep f = false -> os_path_join path f = dir_prefix path +s+ f.
Proof.
  intros H. unfold os_path_join, dir_prefix. rewrite H.
  destruct (String.eqb path "" || ends_with_sep path); [reflexivity|].
  now rewrite append_assoc.
Qed.

Lemma map_os_path_join (path : string) (names : list string) :
  Forall (fun f => starts_with_sep f = false) names ->
  map (os_path_join path) names = map (String.append (dir_prefix path)) names.
Proof.
  induction 1 as [|f names Hf _ IH]; simpl; [reflexivity|].
  now rewrite IH, os_path_join_prefix.
Qed.

Lemma sort_joined_paths (path : string) (names : list string) :
  Forall (fun f => starts_with_sep f = false) names ->
  list_sort (map (os_path_join path) names)
  = map (os_path_join path) (list_sort names).
Proof.
  intros H. rewrite map_os_path_join by assumption.
  rewrite list_sort_map_prefix. symmetry. apply map_os_path_join.
  rewrite Forall_forall in *. intros x Hx. apply H.
  eapply Permutation_in; [symmetry; apply list_sort_permutation | exact Hx].
Qed.

(* ================================================================= *)
(** ** Runs *)

Lemma bind_Ok {A B} (m : M A) (k : A -> M B) (a : A) :
  fst m = Ok a -> bind m k = (fst (k a), snd m ++ snd (k a)).
Proof. intros H. unfold bind. now rewrite H. Qed.

Lemma bind_Raise {A B} (m : M A) (k : A -> M B) (e : exn) :
  fst m = Raise e -> bind m k = (Raise e, snd m).
Proof. intros H. unfold bind. now rewrite H. Qed.

Lemma bind_SysExit {A B} (m : M A) (k : A -> M B) (c : Z) :
  fst m = SysExit c -> bind m k = (SysExit c, snd m).
Proof. intros H. unfold bind. now rewrite H. Qed.

Lemma bind_lift_Ok {A B} (a : A) (k : A -> M B) : bind (lift (Return a)) k = k a.
Proof. unfold bind, lift. simpl. now destruct (k a). Qed.

Lemma bind_pair_Ok {A B} (a : A) (t : list event) (k : A -> M B) :
  bind (Ok a, t) k = (fst (k a), t ++ snd (k a)).
Proof. reflexivity. Qed.

Lemma bind_ret {A B} (a : A) (k : A -> M B) : bind (ret a) k = k a.
Proof. apply bind_lift_Ok. Qed.

Lemma bind_lift_Raise {A B} (e : exn) (k : A -> M B) :
  bind (lift (Throw e)) k = (Raise e, []).
Proof. reflexivity. Qed.

Lemma bind_emit {B} (ev : event) (k : unit -> M B) :
  bind (emit ev) k = (fst (k tt), ev :: snd (k tt)).
Proof. reflexivity. Qed.

Lemma call_Return {A} (ev : event) (a : A) : call ev (Return a) = (Ok a, [ev]).
Proof. reflexivity. Qed.

Lemma call_Throw {A} (ev : event) (e : exn) : @call A ev (Throw e) = (Raise e, [ev]).
Proof. reflexivity. Qed.

(** An event of [bind m k] is one of [m], or one of [k] after [m] returned. *)
Lemma in_bind {A B} (m : M A) (k : A -> M B) (ev : event) :
  In ev (snd (bind m k)) ->
  In ev (snd m) \/ exists a, fst m = Ok a /\ In ev (snd (k a)).
Proof.
  unfold bind. destruct (fst m) as [a|e|c] eqn:E; simpl; auto.
  intros H. apply in_app_or in H as [H|H]; eauto.
Qed.

Lemma fst_bind_Ok {A B} (m : M A) (k : A -> M B) (b : B) :
  fst (bind m k) = Ok b -> exists a, fst m = Ok a /\ fst (k a) = Ok b.
Proof.
  unfold bind. destruct (fst m) as [a|e|c] eqn:E; simpl; try discriminate.
  eauto.
Qed.

(** ** The two loops over [range(batch_size)] *)


Lemma read_list_readable (w : World) (fs : list string) (cs : list bytes) :
  Forall2 (readable w) fs cs ->
  read_list w fs = (Ok (map (fun c => np_array [c]) cs), map Open fs).
Proof.
  induction 1 as [|f c fs cs Hf _ IH]; [reflexivity|].
  simpl. rewrite Hf, call_Return. unfold bind at 1. simpl.
  rewrite IH. simpl. now rewrite app_nil_r.
Qed.

Lemma read_list_Ok (w : World) (fs : list string) (data : list (list elem)) :
  fst (read_list w fs) = Ok data ->
  exists cs, Forall2 (readable w) fs cs /\ data = map (fun c => np_array [c]) cs.
Proof.
  revert data. induction fs as [|f fs IH]; intros data H.
  - simpl in H. injection H as <-. exists []. split; constructor.
  - simpl in H. destruct (read_file w f) as [c|e] eqn:Hf; [|discriminate].
    rewrite call_Return in H. unfold bind at 1 in H. simpl in H.
    apply fst_bind_Ok in H as (rest & Hrest & H). simpl in H. injection H as <-.
    destruct (IH _ Hrest) as (cs & Hcs & ->).
    exists (c :: cs). split; [constructor; assumption | reflexivity].
Qed.

(** Whatever happens, the files opened are the first ones of the list. *)
Lemma read_list_opens (w : World) (fs : list string) :
  exists k, snd (read_list w fs) = map Open (firstn k fs).
Proof.
  induction fs as [|f fs (k & IH)].
  - exists 0%nat. reflexivity.
  - simpl. destruct (read_file w f) as [c|e].
    + exists (S k). rewrite call_Return. unfold bind at 1. simpl.
      unfold bind. destruct (fst (read_list w fs)); simpl;
        rewrite ?app_nil_r; now rewrite IH.
    + exists 1%nat. reflexivity.
Qed.

Lemma list_getitem_skipn {A} (l : list A) (s : nat) (x : A) (rest : list A) :
  skipn s l = x :: rest -> list_getitem l s = Return x /\ skipn (S s) l = rest.
Proof.
  revert s. induction l as [|y l IH]; intros [|s] H; simpl in *; try discriminate.
  - injection H as -> ->. split; reflexivity.
  - unfold list_getitem in *. simpl. apply IH. exact H.
Qed.

Lemma skipn_nonempty {A} (l : list A) (s : nat) :
  (s < List.length l)%nat -> exists x rest, skipn s l = x :: rest.
Proof.
  revert s. induction l as [|y l IH]; intros s H; simpl in H; [lia|].
  destruct s as [|s]; simpl; eauto. apply IH. lia.
Qed.

Lemma read_images_seq (w : World) (fs : list string) (n : nat) :
  forall s acc, (s + n <= List.length fs)%nat ->
  read_images w fs (seq s n) acc
  = do r <- read_list w (firstn n (skipn s fs)); ret (acc ++ r).
Proof.
  induction n as [|n IH]; intros s acc H.
  - simpl. rewrite bind_ret. now rewrite app_nil_r.
  - destruct (@skipn_nonempty _ fs s) as (f & rest & Hs); [lia|].
    destruct (list_getitem_skipn _ _ Hs) as (Hget & Hrest).
    cbn [seq read_images]. rewrite Hget, bind_lift_Ok, Hs.
    cbn [firstn read_list].
    destruct (read_file w f) as [c|e]; [|reflexivity].
    rewrite call_Return. unfold bind at 1 3. cbn [fst snd].
    rewrite IH by lia. rewrite Hrest.
    unfold bind. destruct (fst (read_list w (firstn n rest))); cbn;
      rewrite ?app_nil_r; try reflexivity.
    now rewrite <- app_assoc.
Qed.

Lemma repeat_images_seq (fs : list string) (data : list (list elem)) (n : nat) :
  forall s accf accd,
    (s + n <= List.length fs)%nat -> (s + n <= List.length data)%nat ->
    repeat_images fs data (seq s n) accf accd
    = Return (accf ++ firstn n (skipn s fs), accd ++ firstn n (skipn s data)).
Proof.
  induction n as [|n IH]; intros s accf accd Hf Hd.
  - simpl. now rewrite !app_nil_r.
  - destruct (@skipn_nonempty _ fs s) as (f & rest & Hs); [lia|].
    destruct (list_getitem_skipn _ _ Hs) as (Hget & Hrest).
    destruct (@skipn_nonempty _ data s) as (d & rest' & Hs'); [lia|].
    destruct (list_getitem_skipn _ _ Hs') as (Hget' & Hrest').
    cbn [seq repeat_images]. rewrite Hget, Hget'. cbn [rbind].
    rewrite IH by lia. rewrite Hs, Hs', Hrest, Hrest'. cbn [firstn].
    now rewrite <- !app_assoc.
Qed.

(* ================================================================= *)
(** ** Model validation *)

Lemma len_1 {A} (l : list A) : len l = 1 -> exists x, l = [x].
Proof.
  unfold len. destruct l as [|x [|y l]]; simpl; intros H; try lia. eauto.
Qed.

Lemma len_map {A B} (f : A -> B) (l : list A) : len (map f l) = len l.
Proof. unfold len. now rewrite length_map. Qed.

Lemma parse_model_grpc_input_count (md : ModelMetadataResponse.t) (cfg : ModelConfig.t) :
  len (ModelMetadataResponse.inputs md) <> 1 ->
  parse_model_grpc md cfg
  = Throw (expecting_input (len (ModelMetadataResponse.inputs md))).
Proof.
  intros H. unfold parse_model_grpc.
  apply Z.eqb_neq in H. now rewrite H.
Qed.

Lemma parse_model_grpc_output_count (md : ModelMetadataResponse.t) (cfg : ModelConfig.t) :
  len (ModelMetadataResponse.inputs md) = 1 ->
  len (ModelMetadataResponse.outputs md) <> 1 ->
  parse_model_grpc md cfg
  = Throw (expecting_output (len (ModelMetadataResponse.outputs md))).
Proof.
  intros H1 H. unfold parse_model_grpc.
  apply Z.eqb_neq in H. apply Z.eqb_eq in H1. now rewrite H1, H.
Qed.

Lemma parse_model_grpc_config_count (md : ModelMetadataResponse.t) (cfg : ModelConfig.t) :
  len (ModelMetadataResponse.inputs md) = 1 ->
  len (ModelMetadataResponse.outputs md) = 1 ->
  len (ModelConfig.input cfg) <> 1 ->
  parse_model_grpc md cfg
  = Throw (expecting_config_input (len (ModelConfig.input cfg))).
Proof.
  intros H1 H2 H. unfold parse_model_grpc.
  apply Z.eqb_neq in H. apply Z.eqb_eq in H1, H2. now rewrite H1, H2, H.
Qed.

Lemma parse_model_grpc_triple (md : ModelMetadataResponse.t) (cfg : ModelConfig.t) :
  len (ModelMetadataResponse.inputs md) = 1 ->
  len (ModelMetadataResponse.outputs md) = 1 ->
  len (ModelConfig.input cfg) = 1 ->
  exists i o,
    ModelMetadataResponse.inputs md = [i] /\
    ModelMetadataResponse.outputs md = [o] /\
    parse_model_grpc md cfg
    = Return (TensorMetadata.name i, TensorMetadata.name o,
          ModelConfig.max_batch_size cfg).
Proof.
  intros H1 H2 H3. unfold parse_model_grpc.
  rewrite H1, H2, H3. simpl.
  apply len_1 in H1 as (i & Hi). apply len_1 in H2 as (o & Ho).
  exists i, o. now rewrite Hi, Ho.
Qed.

Lemma parse_model_http_input_count (md cfg ins : pyval) (n : Z) :
  py_getitem md "inputs" = Return ins -> py_len ins = Return n -> n <> 1 ->
  parse_model_http md cfg = Throw (expecting_input n).
Proof.
  intros H1 H2 H. unfold parse_model_http. rewrite H1. simpl. rewrite H2. simpl.
  apply Z.eqb_neq in H. now rewrite H.
Qed.

Lemma parse_model_http_output_count (md cfg ins outs : pyval) (n : Z) :
  py_getitem md "inputs" = Return ins -> py_len ins = Return 1 ->
  py_getitem md "outputs" = Return outs -> py_len outs = Return n -> n <> 1 ->
  parse_model_http md cfg = Throw (expecting_output n).
Proof.
  intros H1 H2 H3 H4 H. unfold parse_model_http.
  rewrite H1. simpl. rewrite H2. simpl. rewrite H3. simpl. rewrite H4. simpl.
  apply Z.eqb_neq in H. now rewrite H.
Qed.

Lemma parse_model_http_config_count (md cfg ins outs cins : pyval) (n : Z) :
  py_getitem md "inputs" = Return ins -> py_len ins = Return 1 ->
  py_getitem md "outputs" = Return outs -> py_len outs = Return 1 ->
  py_getitem cfg "input" = Return cins -> py_len cins = Return n -> n <> 1 ->
  parse_model_http md cfg = Throw (expecting_config_input n).
Proof.
  intros H1 H2 H3 H4 H5 H6 H. unfold parse_model_http.
  rewrite H1. simpl. rewrite H2. simpl. rewrite H3. simpl. rewrite H4. simpl.
  rewrite H5. simpl. rewrite H6. simpl.
  apply Z.eqb_neq in H. now rewrite H.
Qed.

Lemma parse_model_http_triple (md cfg i o ci input_name output_name b : pyval) :
  py_getitem md "inputs" = Return (PyList [i]) ->
  py_getitem md "outputs" = Return (PyList [o]) ->
  py_getitem cfg "input" = Return (PyList [ci]) ->
  py_getitem i "name" = Return input_name ->
  py_getitem o "name" = Return output_name ->
  py_getitem cfg "max_batch_size" = Return b ->
  parse_model_http md cfg = Return (input_name, output_name, b).
Proof.
  intros H1 H2 H3 H4 H5 H6. unfold parse_model_http.
  rewrite H1, H2, H3. simpl. rewrite H4, H5, H6. reflexivity.
Qed.

(** The two validators agree on a message and on the dictionary that
    carries its values: the same triple, or the same exception. *)
Lemma parse_model_http_grpc (md : ModelMetadataResponse.t) (cfg : ModelConfig.t) :
  parse_model_http (metadata_to_dict md) (config_to_dict cfg)
  = outcome_map as_values (parse_model_grpc md cfg).
Proof.
  unfold parse_model_http, parse_model_grpc.
  change (py_getitem (metadata_to_dict md) "inputs")
    with (Return (PyList (map tensor_metadata_to_dict (ModelMetadataResponse.inputs md)))).
  change (py_getitem (metadata_to_dict md) "outputs")
    with (Return (PyList (map tensor_metadata_to_dict (ModelMetadataResponse.outputs md)))).
  change (py_getitem (config_to_dict cfg) "input")
    with (Return (PyList (map model_tensor_to_dict (ModelConfig.input cfg)))).
  change (py_getitem (config_to_dict cfg) "max_batch_size")
    with (@Return pyval (PyInt (ModelConfig.max_batch_size cfg))).
  cbn [rbind py_len].
  fold (len (map tensor_metadata_to_dict (ModelMetadataResponse.inputs md))).
  fold (len (map tensor_metadata_to_dict (ModelMetadataResponse.outputs md))).
  fold (len (map model_tensor_to_dict (ModelConfig.input cfg))).
  rewrite !len_map.
  destruct (len (ModelMetadataResponse.inputs md) =? 1) eqn:E1; [|reflexivity].
  destruct (len (ModelMetadataResponse.outputs md) =? 1) eqn:E2; [|reflexivity].
  destruct (len (ModelConfig.input cfg) =? 1) eqn:E3; [|reflexivity].
  cbn [negb].
  apply Z.eqb_eq, len_1 in E1 as (i & ->).
  apply Z.eqb_eq, len_1 in E2 as (o & ->).
  reflexivity.
Qed.

Lemma dict_get_set_other (kvs : list (string * pyval)) (k k' : string) (v : pyval) :
  k <> k' -> dict_get (dict_set kvs k v) k' = dict_get kvs k'.
Proof.
  intros H. induction kvs as [|[k0 v0] kvs IH]; simpl.
  - apply String.eqb_neq in H. now rewrite H.
  - destruct (String.eqb k0 k) eqn:E; simpl.
    + apply String.eqb_eq in E as ->. apply String.eqb_neq in H. now rewrite H.
    + now rewrite IH.
Qed.

Lemma dict_get_del_other (kvs : list (string * pyval)) (k k' : string) :
  k <> k' -> dict_get (dict_del kvs k) k' = dict_get kvs k'.
Proof.
  intros H. induction kvs as [|[k0 v0] kvs IH]; simpl; [reflexivity|].
  destruct (String.eqb k0 k) eqn:E; simpl.
  - apply String.eqb_eq in E as ->. apply String.eqb_neq in H. now rewrite H.
  - now rewrite IH.
Qed.

(** [parse_model_http] reads two keys of the configuration, and [output] is
    not one of them. *)
Lemma parse_model_http_config_keys (md : pyval) (kvs kvs' : list (string * pyval)) :
  dict_get kvs' "input" = dict_get kvs "input" ->
  dict_get kvs' "max_batch_size" = dict_get kvs "max_batch_size" ->
  parse_model_http md (PyDict kvs') = parse_model_http md (PyDict kvs).
Proof.
  intros H1 H2.
  assert (forall k, k = "input" \/ k = "max_batch_size" ->
                    py_getitem (PyDict kvs') k = py_getitem (PyDict kvs) k) as H.
  { intros k [-> | ->]; unfold py_getitem; now rewrite ?H1, ?H2. }
  unfold parse_model_http. now rewrite !H by auto.
Qed.

(* ================================================================= *)
(** ** The batch *)

Lemma chosen_batch_size_le (fs : list string) (n : pyint) :
  (Z.to_nat (int_of (chosen_batch_size fs n)) <= List.length fs)%nat.
Proof.
  unfold chosen_batch_size, len.
  destruct (Z.of_nat (List.length fs) <=? int_of n) eqn:E; simpl.
  - lia.
  - apply Z.leb_gt in E. lia.
Qed.

Lemma length_chosen_files (fs : list string) (n : pyint) :
  List.length (chosen_files fs n) = Z.to_nat (int_of (chosen_batch_size fs n)).
Proof.
  unfold chosen_files. rewrite length_firstn.
  pose proof (chosen_batch_size_le fs n). lia.
Qed.

Lemma Forall2_length_eq {A B} (R : A -> B -> Prop) (l : list A) (l' : list B) :
  Forall2 R l l' -> List.length l = List.length l'.
Proof. induction 1; simpl; congruence. Qed.

Lemma classify_eq (w : World) (FLAGS : Flags.t) (c : Client) (i o bs : pyval) :
  classify w FLAGS c i o bs = classify_chosen w FLAGS c i o bs.
Proof.
  unfold classify, classify_chosen.
  destruct (list_filenames w (Flags.image_filename FLAGS)) as [fs|e];
    try reflexivity.
  rewrite !bind_lift_Ok. unfold choose_batch_size.
  destruct (py_index bs) as [n|e]; try reflexivity.
  rewrite !bind_lift_Ok.
  assert (forall k : pyint,
    k = chosen_batch_size fs n ->
    (do image_data <- read_images w fs (range k) [];
     do (input_filenames, repeated_image_data) <-
       lift (repeat_images fs image_data (range k) [] []);
     do batched_image_data <- lift (np_stack repeated_image_data);
     do outputs <- lift (make_outputs FLAGS o);
     do result <- call (Infer model_name (make_inputs FLAGS i batched_image_data)
                              outputs)
                       (infer c model_name (make_inputs FLAGS i batched_image_data)
                              outputs);
     postprocess result o input_filenames k ;; print "PASS")
    = (do image_data <- read_list w (chosen_files fs n);
       send FLAGS c i o (chosen_files fs n) (chosen_batch_size fs n) image_data))
    as Hloops.
  { intros k ->. unfold range.
    pose proof (chosen_batch_size_le fs n) as Hle.
    rewrite read_images_seq by (simpl; exact Hle).
    change (skipn 0 fs) with fs. fold (chosen_files fs n).
    destruct (read_list w (chosen_files fs n)) as [[data|e|x] t] eqn:Hread;
      try reflexivity.
    assert (fst (read_list w (chosen_files fs n)) = Ok data) as Hd
      by now rewrite Hread.
    apply read_list_Ok in Hd as (cs & Hcs & ->).
    apply Forall2_length_eq in Hcs. rewrite length_chosen_files in Hcs.
    unfold bind at 2. cbn [fst snd ret app]. unfold bind at 1. cbn [fst snd].
    unfold bind at 3. cbn [fst snd].
    rewrite repeat_images_seq
      by (simpl; rewrite ?length_map; lia).
    cbn [app skipn]. fold (chosen_files fs n).
    rewrite firstn_all2 by (rewrite length_map; lia).
    rewrite bind_lift_Ok. unfold send. rewrite !app_nil_r. reflexivity. }
  unfold chosen_batch_size in Hloops at 1.
  destruct (len fs <=? int_of n) eqn:E.
  - rewrite !bind_ret. now apply Hloops.
  - rewrite (@bind_Ok _ _ (print (truncation_warning n) ;; ret n) _ n)
      by reflexivity.
    rewrite (Hloops n eq_refl). reflexivity.
Qed.

(* ================================================================= *)
(** ** The script, stage by stage *)

Lemma create_client_eq (w : World) (FLAGS : Flags.t) :
  create_client w FLAGS (lower (Flags.protocol FLAGS))
  = match InferenceServerClient w (transport_of FLAGS) (Flags.url FLAGS)
                                (Flags.verbose FLAGS) with
    | Return c =>
        (Ok c, [CreateClient (transport_of FLAGS) (Flags.url FLAGS)
                             (Flags.verbose FLAGS)])
    | Throw e =>
        (SysExit 1,
         [CreateClient (transport_of FLAGS) (Flags.url FLAGS) (Flags.verbose FLAGS);
          Print ("client creation failed: " +s+ exn_str e)])
    end.
Proof.
  unfold create_client, transport_of, InferenceServerClient.
  destruct (String.eqb (lower (Flags.protocol FLAGS)) "grpc").
  - destruct (tritongrpcclient_InferenceServerClient w _ _); reflexivity.
  - destruct (tritonhttpclient_InferenceServerClient w _ _); reflexivity.
Qed.

Lemma fetch_metadata_eq (c : Client) :
  fetch_metadata c
  = match get_model_metadata c model_name with
    | Return md => (Ok md, [GetModelMetadata model_name])
    | Throw e =>
        if is_InferenceServerException e then
          (SysExit 1, [GetModelMetadata model_name;
                       Print ("failed to retrieve the metadata: " +s+ exn_str e)])
        else (Raise e, [GetModelMetadata model_name])
    end.
Proof.
  unfold fetch_metadata.
  destruct (get_model_metadata c model_name) as [md|e]; [reflexivity|].
  unfold try_except. cbn [call fst snd bind emit lift].
  destruct (is_InferenceServerException e); reflexivity.
Qed.

Lemma fetch_config_eq (c : Client) :
  fetch_config c
  = match get_model_config c model_name with
    | Return cfg => (Ok cfg, [GetModelConfig model_name])
    | Throw e =>
        if is_InferenceServerException e then
          (SysExit 1, [GetModelConfig model_name;
                       Print ("failed to retrieve the config: " +s+ exn_str e)])
        else (Raise e, [GetModelConfig model_name])
    end.
Proof.
  unfold fetch_config.
  destruct (get_model_config c model_name) as [cfg|e]; [reflexivity|].
  unfold try_except. cbn [call fst snd bind emit lift].
  destruct (is_InferenceServerException e); reflexivity.
Qed.

Theorem main_eq (w : World) (FLAGS : Flags.t) :
  main w FLAGS = main_by_cases w FLAGS.
Proof.
  unfold main, main_by_cases. cbv zeta.
  rewrite create_client_eq.
  destruct (InferenceServerClient w _ _ _) as [c|e]; [|reflexivity].
  rewrite bind_pair_Ok, fetch_metadata_eq.
  destruct (get_model_metadata c model_name) as [md|e].
  2: { destruct (is_InferenceServerException e); reflexivity. }
  rewrite !bind_pair_Ok, fetch_config_eq. cbn [fst snd].
  destruct (get_model_config c model_name) as [cfg|e].
  2: { destruct (is_InferenceServerException e); reflexivity. }
  rewrite !bind_pair_Ok. cbn [fst snd].
  destruct (parse_model FLAGS md cfg) as [[[i o] bs]|e]; [|reflexivity].
  rewrite bind_lift_Ok, classify_eq. reflexivity.
Qed.

(* ================================================================= *)
(** ** Traces *)

Create HintDb trace.

Lemma prints_bind {A B} (m : M A) (k : A -> M B) :
  Forall is_print (snd m) -> (forall a, Forall is_print (snd (k a))) ->
  Forall is_print (snd (bind m k)).
Proof.
  intros Hm Hk. unfold bind. destruct (fst m); simpl; try assumption.
  apply Forall_app. split; [assumption | apply Hk].
Qed.

Lemma prints_lift {A} (r : outcome A) : Forall is_print (snd (lift r)).
Proof. constructor. Qed.

Lemma prints_raise {A} (e : exn) : Forall is_print (snd (@raise A e)).
Proof. constructor. Qed.

Lemma prints_print (line : string) : Forall is_print (snd (print line)).
Proof. repeat constructor. Qed.

Lemma prints_for_each {A} (l : list A) (body : A -> M unit) :
  (forall x, Forall is_print (snd (body x))) ->
  Forall is_print (snd (for_each l body)).
Proof.
  intros H. induction l as [|x l IH]; simpl; [constructor|].
  apply prints_bind; auto.
Qed.

#[local] Hint Resolve prints_bind prints_lift prints_raise prints_print
  prints_for_each : trace.

Lemma prints_print_class (is_bytes : bool) (item : elem) :
  Forall is_print (snd (print_class is_bytes item)).
Proof. unfold print_class. auto with trace. Qed.

#[local] Hint Resolve prints_print_class : trace.

Lemma prints_postprocess (r : InferResult) (o : pyval) (fs : list string) (k : pyint) :
  Forall is_print (snd (postprocess r o fs k)).
Proof.
  unfold postprocess. apply prints_bind; [auto with trace|].
  intros n. destruct (negb (n =? int_of k)); [auto with trace|].
  destruct (as_numpy r o); auto with trace.
Qed.

#[local] Hint Resolve prints_postprocess : trace.

Lemma prints_after_infer (r : outcome InferResult) (o : pyval) (fs : list string)
    (k : pyint) :
  Forall is_print (snd (after_infer r o fs k)).
Proof. destruct r; simpl; auto with trace. Qed.

Lemma no_exit_bind {A B} (m : M A) (k : A -> M B) :
  no_exit m -> (forall a, no_exit (k a)) -> no_exit (bind m k).
Proof.
  intros Hm Hk code. unfold bind.
  destruct (fst m) as [a|e|c] eqn:E; simpl.
  - apply Hk.
  - discriminate.
  - exfalso. exact (Hm c E).
Qed.

Lemma no_exit_lift {A} (r : outcome A) : no_exit (lift r).
Proof. intros code. destruct r; discriminate. Qed.

Lemma no_exit_raise {A} (e : exn) : no_exit (@raise A e).
Proof. intros code. discriminate. Qed.

Lemma no_exit_print (line : string) : no_exit (print line).
Proof. intros code. discriminate. Qed.

Lemma no_exit_ret {A} (a : A) : no_exit (ret a).
Proof. intros code. discriminate. Qed.

Lemma no_exit_call {A} (ev : event) (r : outcome A) : no_exit (call ev r).
Proof. intros code. destruct r; discriminate. Qed.

Lemma no_exit_for_each {A} (l : list A) (body : A -> M unit) :
  (forall x, no_exit (body x)) -> no_exit (for_each l body).
Proof.
  intros H. induction l as [|x l IH]; simpl.
  - apply no_exit_ret.
  - apply no_exit_bind; auto.
Qed.

#[local] Hint Resolve no_exit_bind no_exit_lift no_exit_raise no_exit_print
  no_exit_ret no_exit_call no_exit_for_each : trace.

Lemma no_exit_postprocess (r : InferResult) (o : pyval) (fs : list string) (k : pyint) :
  no_exit (postprocess r o fs k).
Proof.
  unfold postprocess. apply no_exit_bind; [auto with trace|].
  intros n. destruct (negb (n =? int_of k)); [auto with trace|].
  destruct (as_numpy r o); [|auto with trace].
  apply no_exit_for_each. intros row. apply no_exit_for_each. intros item.
  unfold print_class. auto with trace.
Qed.

#[local] Hint Resolve no_exit_postprocess : trace.

Lemma no_exit_read_list (w : World) (fs : list string) : no_exit (read_list w fs).
Proof. induction fs as [|f fs IH]; simpl; auto 6 with trace. Qed.

#[local] Hint Resolve no_exit_read_list : trace.

Lemma no_exit_classify_chosen (w : World) (FLAGS : Flags.t) (c : Client)
    (i o bs : pyval) :
  no_exit (classify_chosen w FLAGS c i o bs).
Proof.
  unfold classify_chosen, send.
  apply no_exit_bind; [auto with trace|]. intros fs.
  apply no_exit_bind; [auto with trace|]. intros n.
  apply no_exit_bind.
  { destruct (len fs <=? int_of n); auto with trace. }
  intros _. auto 8 with trace.
Qed.

Lemma opened_app (t1 t2 : list event) : opened (t1 ++ t2) = opened t1 ++ opened t2.
Proof. unfold opened. apply flat_map_app. Qed.

Lemma opened_map_Open (l : list string) : opened (map Open l) = l.
Proof. induction l as [|x l IH]; simpl; congruence. Qed.

Lemma opened_prints (t : list event) : Forall is_print t -> opened t = [].
Proof.
  induction 1 as [|ev t H _ IH]; [reflexivity|].
  destruct ev; simpl in *; try contradiction. exact IH.
Qed.

Lemma stdout_app (t1 t2 : list event) : stdout (t1 ++ t2) = stdout t1 ++ stdout t2.
Proof. unfold stdout. apply flat_map_app. Qed.

Lemma stdout_map_Open (l : list string) : stdout (map Open l) = [].
Proof. induction l as [|x l IH]; simpl; congruence. Qed.

Lemma prints_not_infer (t : list event) (mn : string) (ins : list InferInput)
    (outs : list InferRequestedOutput) :
  Forall is_print t -> ~ In (Infer mn ins outs) t.
Proof.
  intros H Hin. rewrite Forall_forall in H. apply (H _ Hin).
Qed.

(* ================================================================= *)
(** ** From the image path to the request *)

Lemma np_stack_batch (cs : list bytes) :
  cs <> [] -> np_stack (map image_row cs) = Return (batch_array cs).
Proof.
  destruct cs as [|c cs]; [congruence|]. intros _.
  unfold np_stack. cbn [map].
  assert (forallb (fun b : list elem =>
                     Nat.eqb (List.length b) (List.length (image_row c)))
                  (map image_row cs) = true) as ->; [|reflexivity].
  apply forallb_forall. intros x Hx.
  apply in_map_iff in Hx as (y & <- & _). reflexivity.
Qed.


Lemma batch_of_make_inputs (FLAGS : Flags.t) (i : pyval) (a : ndarray) :
  batch_of (make_inputs FLAGS i a) = rows a.
Proof.
  unfold make_inputs, batch_of.
  destruct (String.eqb (lower (Flags.protocol FLAGS)) "grpc"); simpl;
    apply app_nil_r.
Qed.

(** ** What the request holds *)

Lemma is_nul_eqb (x : Byte.byte) : is_nul x = Byte.eqb x Byte.x00.
Proof. destruct x; reflexivity. Qed.

Lemma rstrip_nul_app_zero (b : bytes) :
  rstrip_nul (b ++ [Byte.x00]) = rstrip_nul b.
Proof.
  induction b as [|y b IH]; [reflexivity|].
  cbn [app rstrip_nul]. now rewrite IH.
Qed.

Lemma rstrip_nul_app_nonzero (b : bytes) (x : Byte.byte) :
  is_nul x = false -> rstrip_nul (b ++ [x]) = b ++ [x].
Proof.
  intros Hx. induction b as [|y b IH].
  - simpl. now rewrite Hx.
  - cbn [app rstrip_nul]. rewrite IH.
    destruct (b ++ [x]) eqn:E; [|reflexivity].
    now apply app_eq_nil in E as (_ & E).
Qed.

(** The item numpy gives back is the content without its trailing zero
    bytes. *)
Lemma rstrip_nul_without_trailing_zeros (b : bytes) :
  rstrip_nul b = without_trailing_zeros b.
Proof.
  unfold without_trailing_zeros.
  induction b as [|x b IH] using rev_ind; [reflexivity|].
  rewrite rev_app_distr. cbn [rev app drop_zeros].
  rewrite <- is_nul_eqb. destruct (is_nul x) eqn:Hx.
  - assert (x = Byte.x00) as ->
      by (apply Byte.byte_dec_bl; now rewrite <- is_nul_eqb).
    now rewrite rstrip_nul_app_zero.
  - rewrite rstrip_nul_app_nonzero by assumption.
    cbn [rev]. now rewrite rev_involutive.
Qed.

Lemma without_trailing_zeros_id (content : bytes) :
  no_trailing_zero content -> without_trailing_zeros content = content.
Proof.
  unfold no_trailing_zero, without_trailing_zeros.
  destruct content as [|x b] using rev_ind; [reflexivity|].
  rewrite last_last, rev_app_distr. cbn [rev app drop_zeros]. intros H.
  destruct (Byte.eqb x Byte.x00) eqn:E.
  - apply Byte.byte_dec_bl in E. contradiction.
  - cbn [rev]. now rewrite rev_involutive.
Qed.

Lemma image_row_eq (content : bytes) :
  image_row content = [ElBytes (without_trailing_zeros content)].
Proof.
  unfold image_row, np_array. cbn [map].
  now rewrite rstrip_nul_without_trailing_zeros.
Qed.

Lemma map_image_row (cs : list bytes) :
  map image_row cs
  = map (fun content => [ElBytes (without_trailing_zeros content)]) cs.
Proof. apply map_ext, image_row_eq. Qed.

Lemma make_inputs_request (FLAGS : Flags.t) (i : pyval) (cs : list bytes) :
  cs <> [] -> make_inputs FLAGS i (batch_array cs) = request_inputs FLAGS i cs.
Proof.
  intros H. unfold make_inputs, request_inputs, transport_of, batch_array.
  rewrite map_image_row.
  destruct cs as [|c0 cs]; [congruence|].
  destruct (String.eqb (lower (Flags.protocol FLAGS)) "grpc");
    unfold set_data_from_numpy, shape, len;
    cbn [in_module in_name in_shape in_datatype rows map List.length
         binary_data_of];
    rewrite ?length_map; reflexivity.
Qed.

Lemma fits_int64_iff (z : Z) : fits_int64 z = true <-> - 2 ^ 63 <= z < 2 ^ 63.
Proof.
  unfold fits_int64. rewrite andb_true_iff, Z.leb_le, Z.ltb_lt. reflexivity.
Qed.

(** The requested output is built exactly for an accepted class count. *)
Lemma make_outputs_accepted (FLAGS : Flags.t) (o : pyval) :
  class_count_accepted FLAGS ->
  make_outputs FLAGS o = Return (request_outputs FLAGS o).
Proof.
  unfold class_count_accepted, make_outputs, request_outputs, transport_of,
    tritongrpcclient_InferRequestedOutput.
  destruct (String.eqb (lower (Flags.protocol FLAGS)) "grpc"); [|reflexivity].
  intros [H|H]; [discriminate|].
  apply fits_int64_iff in H. now rewrite H.
Qed.

Lemma make_outputs_rejected (FLAGS : Flags.t) (o : pyval) :
  ~ class_count_accepted FLAGS ->
  make_outputs FLAGS o = Throw (builtin_error ValueError).
Proof.
  unfold class_count_accepted, make_outputs, transport_of,
    tritongrpcclient_InferRequestedOutput.
  destruct (String.eqb (lower (Flags.protocol FLAGS)) "grpc").
  - intros H. destruct (fits_int64 (Flags.classes FLAGS)) eqn:E; [|reflexivity].
    apply fits_int64_iff in E. tauto.
  - intros H. exfalso. apply H. now left.
Qed.

Lemma make_outputs_Return (FLAGS : Flags.t) (o : pyval)
    (outs : list InferRequestedOutput) :
  make_outputs FLAGS o = Return outs ->
  class_count_accepted FLAGS /\ outs = request_outputs FLAGS o.
Proof.
  intros H.
  assert (class_count_accepted FLAGS) as Ha.
  { unfold class_count_accepted, make_outputs, transport_of,
      tritongrpcclient_InferRequestedOutput in *.
    destruct (String.eqb (lower (Flags.protocol FLAGS)) "grpc"); [|now left].
    destruct (fits_int64 (Flags.classes FLAGS)) eqn:E; [|discriminate].
    right. now apply fits_int64_iff. }
  split; [exact Ha|].
  rewrite (make_outputs_accepted o Ha) in H. now injection H as <-.
Qed.

Lemma make_outputs_Throw (FLAGS : Flags.t) (o : pyval) (e : exn) :
  make_outputs FLAGS o = Throw e ->
  ~ class_count_accepted FLAGS /\ e = builtin_error ValueError.
Proof.
  intros H. split.
  - intros Ha. rewrite (make_outputs_accepted o Ha) in H. discriminate.
  - unfold make_outputs, tritongrpcclient_InferRequestedOutput in H.
    destruct (String.eqb (lower (Flags.protocol FLAGS)) "grpc");
      [|discriminate].
    destruct (fits_int64 (Flags.classes FLAGS)); [discriminate|].
    now injection H as <-.
Qed.


Lemma send_batch (FLAGS : Flags.t) (c : Client) (i o : pyval) (chosen : list string)
    (k : pyint) (cs : list bytes) (outs : list InferRequestedOutput) :
  cs <> [] ->
  make_outputs FLAGS o = Return outs ->
  send FLAGS c i o chosen k (map image_row cs)
  = (fst (after_infer (infer c model_name (make_inputs FLAGS i (batch_array cs))
                             outs) o chosen k),
     Infer model_name (make_inputs FLAGS i (batch_array cs)) outs
     :: snd (after_infer (infer c model_name (make_inputs FLAGS i (batch_array cs))
                                outs) o chosen k)).
Proof.
  intros H Ho. unfold send. rewrite (np_stack_batch H), bind_lift_Ok. cbv zeta.
  rewrite Ho, bind_lift_Ok.
  destruct (infer c model_name _ _) as [r|e]; reflexivity.
Qed.

(** The requested output cannot be built: nothing is sent. *)
Lemma send_outputs_fail (FLAGS : Flags.t) (c : Client) (i o : pyval)
    (chosen : list string) (k : pyint) (data : list (list elem)) (e : exn) :
  make_outputs FLAGS o = Throw e ->
  send FLAGS c i o chosen k data
  = (Raise match np_stack data with Return _ => e | Throw e' => e' end, []).
Proof.
  intros Ho. unfold send.
  destruct (np_stack data) as [batched|e']; [|reflexivity].
  rewrite bind_lift_Ok. cbv zeta. now rewrite Ho.
Qed.

Lemma classify_chosen_readable (w : World) (FLAGS : Flags.t) (c : Client)
    (i o bs : pyval) (fs : list string) (n : pyint) (cs : list bytes) :
  list_filenames w (Flags.image_filename FLAGS) = Return fs ->
  py_index bs = Return n ->
  Forall2 (readable w) (chosen_files fs n) cs ->
  classify_chosen w FLAGS c i o bs
  = (fst (send FLAGS c i o (chosen_files fs n) (chosen_batch_size fs n)
               (map image_row cs)),
     warning_events fs n ++ map Open (chosen_files fs n) ++
     snd (send FLAGS c i o (chosen_files fs n) (chosen_batch_size fs n)
               (map image_row cs))).
Proof.
  intros Hfs Hn Hcs. unfold classify_chosen, warning_events.
  rewrite Hfs, Hn, !bind_lift_Ok, (read_list_readable Hcs).
  destruct (len fs <=? int_of n).
  - rewrite bind_ret. reflexivity.
  - reflexivity.
Qed.

(** A request in the trace: everything before it succeeded. *)
Lemma classify_chosen_infer (w : World) (FLAGS : Flags.t) (c : Client)
    (i o bs : pyval) (mn : string) (ins : list InferInput)
    (outs : list InferRequestedOutput) :
  In (Infer mn ins outs) (snd (classify_chosen w FLAGS c i o bs)) ->
  exists fs n cs,
    list_filenames w (Flags.image_filename FLAGS) = Return fs /\
    py_index bs = Return n /\
    Forall2 (readable w) (chosen_files fs n) cs /\
    cs <> [] /\
    mn = model_name /\
    ins = make_inputs FLAGS i (batch_array cs) /\
    make_outputs FLAGS o = Return outs.
Proof.
  intros H. unfold classify_chosen in H.
  destruct (list_filenames w (Flags.image_filename FLAGS)) as [fs|e] eqn:Hfs;
    [|contradiction].
  destruct (py_index bs) as [n|e] eqn:Hn; [|contradiction].
  rewrite !bind_lift_Ok in H.
  apply in_bind in H as [H | (_ & _ & H)].
  { destruct (len fs <=? int_of n); simpl in H; [contradiction|].
    destruct H as [H|[]]; discriminate. }
  apply in_bind in H as [H | (data & Hdata & H)].
  { destruct (read_list_opens w (chosen_files fs n)) as (k & Hk).
    rewrite Hk in H. apply in_map_iff in H as (x & Hx & _). discriminate. }
  apply read_list_Ok in Hdata as (cs & Hcs & ->).
  exists fs, n, cs.
  destruct cs as [|c0 cs]; [contradiction|].
  fold (image_row) in H.
  change (map (fun c1 : bytes => np_array [c1]) (c0 :: cs))
    with (map image_row (c0 :: cs)) in H.
  destruct (make_outputs FLAGS o) as [outs'|e] eqn:Ho.
  2: { rewrite send_outputs_fail with (e := e) in H by assumption.
       contradiction. }
  rewrite send_batch with (outs := outs') in H by (congruence || assumption).
  cbn [snd] in H.
  destruct H as [H|H].
  - injection H as <- <- <-. repeat split; try assumption; congruence.
  - exfalso. eapply prints_not_infer; [apply prints_after_infer | exact H].
Qed.

Lemma main_validated (w : World) (FLAGS : Flags.t) (c : Client) (cfg : Config)
    (i o bs : pyval) :
  validated w FLAGS c cfg i o bs ->
  main w FLAGS = (fst (classify_chosen w FLAGS c i o bs),
                  prologue FLAGS ++ snd (classify_chosen w FLAGS c i o bs)).
Proof.
  intros (Hc & Hcfg & md & Hmd & Hp).
  rewrite main_eq. unfold main_by_cases. now rewrite Hc, Hmd, Hcfg, Hp.
Qed.

Lemma parse_model_http_max_batch_size (md cfg i o bs : pyval) :
  parse_model_http md cfg = Return (i, o, bs) ->
  py_getitem cfg "max_batch_size" = Return bs.
Proof.
  unfold parse_model_http, rbind.
  repeat match goal with
  | |- context [match ?x with _ => _ end] =>
      destruct x eqn:?; try discriminate
  end.
  intros H. injection H as <- <- <-. reflexivity.
Qed.

Lemma parse_model_grpc_max_batch_size (md : ModelMetadataResponse.t)
    (cfg : ModelConfig.t) (i o : string) (b : Z) :
  parse_model_grpc md cfg = Return (i, o, b) ->
  b = ModelConfig.max_batch_size cfg.
Proof.
  unfold parse_model_grpc.
  destruct (negb (len (ModelMetadataResponse.inputs md) =? 1)); [discriminate|].
  destruct (negb (len (ModelMetadataResponse.outputs md) =? 1)); [discriminate|].
  destruct (negb (len (ModelConfig.input cfg) =? 1)); [discriminate|].
  destruct (ModelMetadataResponse.inputs md); [discriminate|].
  destruct (ModelMetadataResponse.outputs md); [discriminate|].
  intros H. now injection H as _ _ <-.
Qed.

Lemma parse_model_declared (FLAGS : Flags.t) (md : Metadata) (cfg : Config)
    (i o bs : pyval) :
  parse_model FLAGS md cfg = Return (i, o, bs) ->
  declared_max_batch_size cfg = Some bs.
Proof.
  unfold parse_model.
  destruct (String.eqb (lower (Flags.protocol FLAGS)) "grpc").
  - destruct md as [md|md], cfg as [cr|cfg]; try discriminate.
    destruct (parse_model_grpc md (ModelConfigResponse.config cr))
      as [[[i' o'] b]|e] eqn:E; [|discriminate].
    apply parse_model_grpc_max_batch_size in E as ->.
    simpl. intros H. now injection H as _ _ <-.
  - destruct md as [md|md], cfg as [cr|cfg]; try discriminate.
    intros H. apply parse_model_http_max_batch_size in H.
    simpl. now rewrite H.
Qed.

(** A request in the trace of [main]. *)
Lemma main_infer (w : World) (FLAGS : Flags.t) (mn : string)
    (ins : list InferInput) (outs : list InferRequestedOutput) :
  In (Infer mn ins outs) (snd (main w FLAGS)) ->
  exists c cfg i o bs fs n cs,
    validated w FLAGS c cfg i o bs /\
    list_filenames w (Flags.image_filename FLAGS) = Return fs /\
    py_index bs = Return n /\
    Forall2 (readable w) (chosen_files fs n) cs /\
    cs <> [] /\
    mn = model_name /\
    ins = make_inputs FLAGS i (batch_array cs) /\
    make_outputs FLAGS o = Return outs.
Proof.
  rewrite main_eq. unfold main_by_cases. cbv zeta. intros H.
  destruct (InferenceServerClient w _ _ _) as [c|e] eqn:Hc.
  2: { simpl in H. intuition discriminate. }
  destruct (get_model_metadata c model_name) as [md|e] eqn:Hmd.
  2: { destruct (is_InferenceServerException e); simpl in H;
       intuition discriminate. }
  destruct (get_model_config c model_name) as [cfg|e] eqn:Hcfg.
  2: { destruct (is_InferenceServerException e); simpl in H;
       intuition discriminate. }
  destruct (parse_model FLAGS md cfg) as [[[i o] bs]|e] eqn:Hp.
  2: { simpl in H. intuition discriminate. }
  cbn [snd] in H. apply in_app_or in H as [H|H].
  { simpl in H. intuition discriminate. }
  apply classify_chosen_infer in H as (fs & n & cs & H).
  exists c, cfg, i, o, bs, fs, n, cs.
  split; [|exact H]. unfold validated. eauto 6.
Qed.

Lemma list_filenames_directory (w : World) (FLAGS : Flags.t) (path : string)
    (names : list string) :
  is_directory w FLAGS path names ->
  list_filenames w (Flags.image_filename FLAGS) = Return (sorted_paths w path names).
Proof.
  intros (Hf & Hd & Hl & Hn). unfold list_filenames, sorted_paths.
  rewrite Hf, Hd, Hl. cbn [rbind]. f_equal.
  apply sort_joined_paths.
  rewrite Forall_forall in *. intros f Hin. apply Hn.
  unfold regular_files in Hin. now apply filter_In in Hin.
Qed.

Lemma len_sorted_paths (w : World) (path : string) (names : list string) :
  len (sorted_paths w path names) = len (regular_files w path names).
Proof.
  unfold sorted_paths, len. rewrite length_map.
  now rewrite <- (Permutation_length (list_sort_permutation _)).
Qed.

Lemma chosen_files_all (fs : list string) (n : pyint) :
  len fs <= int_of n -> chosen_files fs n = fs.
Proof.
  intros H. unfold chosen_files, chosen_batch_size.
  apply Z.leb_le in H. rewrite H. simpl. unfold len.
  rewrite Nat2Z.id. apply firstn_all.
Qed.


Lemma warning_events_truncated (fs : list string) (n : pyint) :
  int_of n < len fs -> warning_events fs n = [Print (truncation_warning n)].
Proof.
  intros H. unfold warning_events. apply Z.leb_gt in H. now rewrite H.
Qed.

(** The number of images of a request is at most the maximum. *)
Lemma chosen_files_within (fs : list string) (n : pyint) (cs : list bytes) :
  List.length cs = List.length (chosen_files fs n) -> cs <> [] ->
  len cs <= int_of n.
Proof.
  intros Hlen Hne. rewrite length_chosen_files in Hlen.
  assert (0 < List.length cs)%nat as Hpos
    by (destruct cs; [congruence | simpl; lia]).
  unfold len. rewrite Hlen. unfold chosen_batch_size in *.
  destruct (len fs <=? int_of n) eqn:E.
  - apply Z.leb_le in E. simpl in *. unfold len in *. lia.
  - lia.
Qed.

(** The run of a validated model whose chosen files can all be read. *)
Lemma main_readable (w : World) (FLAGS : Flags.t) (c : Client) (cfg : Config)
    (i o bs : pyval) (fs : list string) (n : pyint) (cs : list bytes) :
  validated w FLAGS c cfg i o bs ->
  list_filenames w (Flags.image_filename FLAGS) = Return fs ->
  py_index bs = Return n ->
  Forall2 (readable w) (chosen_files fs n) cs ->
  main w FLAGS
  = (fst (send FLAGS c i o (chosen_files fs n) (chosen_batch_size fs n)
               (map image_row cs)),
     prologue FLAGS ++ warning_events fs n ++ map Open (chosen_files fs n) ++
     snd (send FLAGS c i o (chosen_files fs n) (chosen_batch_size fs n)
               (map image_row cs))).
Proof.
  intros Hv Hfs Hn Hcs.
  rewrite (main_validated Hv), (classify_chosen_readable _ _ _ _ _ Hfs Hn Hcs).
  reflexivity.
Qed.

Lemma send_prints_after (FLAGS : Flags.t) (c : Client) (i o : pyval)
    (chosen : list string) (k : pyint) (cs : list bytes) :
  opened (snd (send FLAGS c i o chosen k (map image_row cs))) = [].
Proof.
  destruct cs as [|c0 cs]; [reflexivity|].
  destruct (make_outputs FLAGS o) as [outs|e] eqn:Ho.
  - rewrite send_batch with (outs := outs) by (congruence || assumption).
    cbn [snd opened flat_map app].
    apply opened_prints, prints_after_infer.
  - now rewrite send_outputs_fail with (e := e).
Qed.

(** The client, the metadata and the configuration come from the module the
    flag selected: the validator that runs is the one of that module. *)
Lemma parse_model_matches (w : World) (FLAGS : Flags.t) (c : Client)
    (md : Metadata) (cfg : Config) :
  InferenceServerClient w (transport_of FLAGS) (Flags.url FLAGS)
                        (Flags.verbose FLAGS) = Return c ->
  get_model_metadata c model_name = Return md ->
  get_model_config c model_name = Return cfg ->
  (exists m cr, md = MetaMsg m /\ cfg = ConfigMsg cr /\
                parse_model FLAGS md cfg
                = outcome_map as_values
                    (parse_model_grpc m (ModelConfigResponse.config cr))) \/
  (exists dm dc, md = MetaDict dm /\ cfg = ConfigDict dc /\
                 parse_model FLAGS md cfg = parse_model_http dm dc).
Proof.
  unfold InferenceServerClient, transport_of, parse_model.
  destruct (String.eqb (lower (Flags.protocol FLAGS)) "grpc").
  - destruct (tritongrpcclient_InferenceServerClient w _ _) as [g|e];
      [|discriminate].
    intros H. injection H as <-. simpl.
    destruct (grpc_get_model_metadata g model_name) as [m|e]; [|discriminate].
    destruct (grpc_get_model_config g model_name) as [cr|e]; [|discriminate].
    intros H1 H2. injection H1 as <-. injection H2 as <-.
    left. exists m, cr. repeat split.
    destruct (parse_model_grpc m (ModelConfigResponse.config cr))
      as [[[i o] b]|e]; reflexivity.
  - destruct (tritonhttpclient_InferenceServerClient w _ _) as [h|e];
      [|discriminate].
    intros H. injection H as <-. simpl.
    destruct (http_get_model_metadata h model_name) as [m|e]; [|discriminate].
    destruct (http_get_model_config h model_name) as [cr|e]; [|discriminate].
    intros H1 H2. injection H1 as <-. injection H2 as <-.
    right. exists m, cr. repeat split.
Qed.

Lemma no_infer_prologue (FLAGS : Flags.t) : no_infer (prologue FLAGS).
Proof. intros mn ins outs H. simpl in H. intuition discriminate. Qed.

(** A model that fails the validation: the exception is not caught, and
    nothing was asked of the server but the metadata and the
    configuration. *)
Lemma main_validation_fails (w : World) (FLAGS : Flags.t) (c : Client)
    (md : Metadata) (cfg : Config) (e : exn) :
  InferenceServerClient w (transport_of FLAGS) (Flags.url FLAGS)
                        (Flags.verbose FLAGS) = Return c ->
  get_model_metadata c model_name = Return md ->
  get_model_config c model_name = Return cfg ->
  parse_model FLAGS md cfg = Throw e ->
  main w FLAGS = (Raise e, prologue FLAGS).
Proof.
  intros Hc Hmd Hcfg Hp. rewrite main_eq. unfold main_by_cases.
  now rewrite Hc, Hmd, Hcfg, Hp.
Qed.

Lemma metadata_counts_fail (w : World) (FLAGS : Flags.t) (c : Client)
    (md : Metadata) (cfg : Config) (n_in n_out : Z) :
  InferenceServerClient w (transport_of FLAGS) (Flags.url FLAGS)
                        (Flags.verbose FLAGS) = Return c ->
  get_model_metadata c model_name = Return md ->
  get_model_config c model_name = Return cfg ->
  metadata_counts md = Some (n_in, n_out) ->
  n_in <> 1 \/ n_out <> 1 ->
  exists e, exn_type e = Exception /\ parse_model FLAGS md cfg = Throw e.
Proof.
  intros Hc Hmd Hcfg Hcount Hne.
  destruct (parse_model_matches _ _ Hc Hmd Hcfg)
    as [(m & cr & -> & -> & ->) | (dm & dc & -> & -> & ->)].
  - simpl in Hcount. injection Hcount as <- <-.
    destruct (Z.eq_dec (len (ModelMetadataResponse.inputs m)) 1) as [E|E].
    + destruct Hne as [Hne|Hne]; [contradiction|].
      rewrite parse_model_grpc_output_count by assumption.
      eexists. split; [|reflexivity]. reflexivity.
    + rewrite parse_model_grpc_input_count by assumption.
      eexists. split; [|reflexivity]. reflexivity.
  - simpl in Hcount.
    destruct (py_getitem dm "inputs") as [[| | | |ins|]|] eqn:Hi;
      try discriminate.
    destruct (py_getitem dm "outputs") as [[| | | |outs|]|] eqn:Ho;
      try discriminate.
    injection Hcount as <- <-.
    destruct (Z.eq_dec (len ins) 1) as [E|E].
    + destruct Hne as [Hne|Hne]; [contradiction|].
      rewrite (@parse_model_http_output_count dm dc (PyList ins) (PyList outs)
                 (len outs)); try assumption; try reflexivity.
      * eexists. split; [|reflexivity]. reflexivity.
      * simpl. unfold len in E. now rewrite E.
    + rewrite (@parse_model_http_input_count dm dc (PyList ins) (len ins));
        try assumption; try reflexivity.
      eexists. split; [|reflexivity]. reflexivity.
Qed.

(* ================================================================= *)
(** ** Post-processing *)

Lemma split_no_sep (sep : ascii) (s : string) :
  has_char sep s = false -> split sep s = [s].
Proof.
  induction s as [|c s IH]; simpl; [reflexivity|].
  intros H. apply orb_false_iff in H as (Hc & Hs).
  rewrite Hc, (IH Hs). reflexivity.
Qed.

Lemma split_field (sep : ascii) (a rest : string) :
  has_char sep a = false ->
  split sep (a +s+ String sep rest) = a :: split sep rest.
Proof.
  induction a as [|c a IH]; simpl.
  - intros _. now rewrite Ascii.eqb_refl.
  - intros H. apply orb_false_iff in H as (Hc & Ha).
    rewrite Hc, (IH Ha). reflexivity.
Qed.

Lemma split_class_string (r : class_result) :
  has_char ":" (class_id r) = false ->
  has_char ":" (class_score r) = false ->
  has_char ":" (class_label r) = false ->
  split ":" (class_string r) = [class_id r; class_score r; class_label r].
Proof.
  intros H1 H2 H3. unfold class_string.
  change (":" +s+ class_score r +s+ ":" +s+ class_label r)
    with (String ":" (class_score r +s+ String ":" (class_label r))).
  rewrite split_field by assumption.
  rewrite split_field by assumption.
  now rewrite split_no_sep.
Qed.

Lemma print_class_encoded (item : elem) (r : class_result) :
  encodes item r ->
  class_fields true item = Return [class_id r; class_score r; class_label r] /\
  print_class true item = (Ok tt, [Print (class_output r)]).
Proof.
  intros (H1 & H2 & H3 & b & -> & Hb).
  assert (class_fields true (ElBytes b)
          = Return [class_id r; class_score r; class_label r]) as Hf.
  { simpl. rewrite Hb. f_equal. now apply split_class_string. }
  split; [exact Hf|].
  unfold print_class. rewrite Hf, bind_lift_Ok. simpl class_line.
  rewrite bind_lift_Ok. reflexivity.
Qed.

Lemma for_each_Forall2 {A B} (R : A -> B -> Prop) (body : A -> M unit)
    (t : B -> list event) (l : list A) (l' : list B) :
  (forall x y, R x y -> body x = (Ok tt, t y)) ->
  Forall2 R l l' ->
  for_each l body = (Ok tt, flat_map t l').
Proof.
  intros Hb. induction 1 as [|x y l l' Hxy _ IH]; [reflexivity|].
  simpl. rewrite (Hb _ _ Hxy), bind_pair_Ok, IH. reflexivity.
Qed.

Lemma flat_map_singleton {A B} (f : A -> B) (l : list A) :
  flat_map (fun x => [f x]) l = map f l.
Proof. induction l as [|x l IH]; simpl; congruence. Qed.

Lemma flat_map_map_concat {A B} (f : A -> B) (ll : list (list A)) :
  flat_map (fun l => map f l) ll = map f (List.concat ll).
Proof.
  induction ll as [|l ll IH]; simpl; [reflexivity|].
  now rewrite IH, map_app.
Qed.

Lemma fst_bind_Raise {A B} (m : M A) (k : A -> M B) (e : exn) :
  fst (bind m k) = Raise e ->
  fst m = Raise e \/ exists a, fst m = Ok a /\ fst (k a) = Raise e.
Proof.
  unfold bind. destruct (fst m) as [a|e'|c] eqn:E; simpl; intros H.
  - right. exists a. split; [reflexivity | exact H].
  - left. now injection H as ->.
  - discriminate.
Qed.

Lemma for_each_Raise {A} (l : list A) (body : A -> M unit) (e : exn) :
  fst (for_each l body) = Raise e -> exists x, In x l /\ fst (body x) = Raise e.
Proof.
  induction l as [|x l IH]; simpl; [discriminate|].
  intros H. apply fst_bind_Raise in H as [H | (_ & _ & H)].
  - exists x. auto.
  - destruct (IH H) as (y & Hy & Hr). exists y. auto.
Qed.

(** What [print_class] raises is an error of the interpreter, never the
    [Exception] of the count check. *)
Lemma print_class_Raise (is_bytes : bool) (item : elem) (e : exn) :
  fst (print_class is_bytes item) = Raise e -> exn_type e <> Exception.
Proof.
  unfold print_class. intros H.
  apply fst_bind_Raise in H as [H | (cls & Hc & H)].
  - destruct is_bytes, item as [b|[|x s]|]; simpl in H; try discriminate;
      injection H as <-; discriminate.
  - apply fst_bind_Raise in H as [H | (line & _ & H)]; [|discriminate].
    destruct cls as [|c0 [|c1 [|c2 cls]]]; simpl in H; try discriminate;
      injection H as <-; discriminate.
Qed.

Lemma postprocess_mismatch (results : InferResult) (output_name : pyval)
    (filenames : list string) (batch_size : pyint) (a : ndarray) :
  as_numpy results output_name = Some a ->
  len (rows a) <> int_of batch_size ->
  postprocess results output_name filenames batch_size
  = (Raise (expected_results batch_size (len (rows a))), []).
Proof.
  intros Ha Hne. unfold postprocess. rewrite Ha. simpl np_len.
  rewrite bind_lift_Ok. apply Z.eqb_neq in Hne. now rewrite Hne.
Qed.

Lemma postprocess_match (results : InferResult) (output_name : pyval)
    (filenames : list string) (batch_size : pyint) (a : ndarray) :
  as_numpy results output_name = Some a ->
  len (rows a) = int_of batch_size ->
  postprocess results output_name filenames batch_size
  = for_each (rows a) (fun results =>
      for_each results (fun item => print_class (dtype_is_bytes a) item)).
Proof.
  intros Ha He. unfold postprocess. rewrite Ha. simpl np_len.
  rewrite bind_lift_Ok. apply Z.eqb_eq in He. now rewrite He.
Qed.

(* ================================================================= *)
(** ** Protocol selection *)

Ltac lower_char_cases c :=
  destruct c as [[] [] [] [] [] [] [] []]; vm_compute;
  split; intros H;
  first [ discriminate H
        | left; reflexivity
        | right; reflexivity
        | reflexivity
        | destruct H as [H|H]; discriminate H ].

Lemma lower_char_g (c : ascii) :
  lower_char c = "g"%char <-> (c = "g" \/ c = "G")%char.
Proof. lower_char_cases c. Qed.

Lemma lower_char_r (c : ascii) :
  lower_char c = "r"%char <-> (c = "r" \/ c = "R")%char.
Proof. lower_char_cases c. Qed.

Lemma lower_char_p (c : ascii) :
  lower_char c = "p"%char <-> (c = "p" \/ c = "P")%char.
Proof. lower_char_cases c. Qed.

Lemma lower_char_c (c : ascii) :
  lower_char c = "c"%char <-> (c = "c" \/ c = "C")%char.
Proof. lower_char_cases c. Qed.

Lemma lower_grpc (p : string) : lower p = "grpc" <-> is_grpc_ignoring_case p.
Proof.
  destruct p as [|a [|b [|c [|d [|x p]]]]]; simpl;
    try (split; [discriminate | tauto]).
  rewrite <- lower_char_g, <- lower_char_r, <- lower_char_p, <- lower_char_c.
  split.
  - intros H. injection H as -> -> -> ->. tauto.
  - intros (-> & -> & -> & ->). reflexivity.
Qed.

Lemma transport_of_grpc (FLAGS : Flags.t) :
  transport_of FLAGS = GRPC <-> is_grpc_ignoring_case (Flags.protocol FLAGS).
Proof.
  rewrite <- lower_grpc. unfold transport_of.
  destruct (String.eqb_spec (lower (Flags.protocol FLAGS)) "grpc") as [E|E].
  - tauto.
  - split; [discriminate | contradiction].
Qed.

Lemma main_creates_client (w : World) (FLAGS : Flags.t) :
  exists rest,
    snd (main w FLAGS)
    = CreateClient (transport_of FLAGS) (Flags.url FLAGS) (Flags.verbose FLAGS)
      :: rest.
Proof.
  rewrite main_eq. unfold main_by_cases. cbv zeta.
  destruct (InferenceServerClient w _ _ _) as [c|e]; [|eexists; reflexivity].
  destruct (get_model_metadata c model_name) as [md|e].
  2: { destruct (is_InferenceServerException e); eexists; reflexivity. }
  destruct (get_model_config c model_name) as [cfg|e].
  2: { destruct (is_InferenceServerException e); eexists; reflexivity. }
  destruct (parse_model FLAGS md cfg) as [[[i o] bs]|e]; eexists; reflexivity.
Qed.

Lemma make_inputs_module (FLAGS : Flags.t) (i : pyval) (a : ndarray) :
  Forall (fun x => in_module x = transport_of FLAGS) (make_inputs FLAGS i a).
Proof.
  unfold make_inputs, transport_of.
  destruct (String.eqb (lower (Flags.protocol FLAGS)) "grpc");
    repeat constructor.
Qed.

Lemma make_outputs_module (FLAGS : Flags.t) (o : pyval)
    (outs : list InferRequestedOutput) :
  make_outputs FLAGS o = Return outs ->
  Forall (fun x => out_module x = transport_of FLAGS) outs.
Proof.
  intros H. apply make_outputs_Return in H as (_ & ->).
  repeat constructor.
Qed.

(* ================================================================= *)
(** ** How a run ends *)

Lemma classify_chosen_Ok (w : World) (FLAGS : Flags.t) (c : Client) (i o bs : pyval) :
  fst (classify_chosen w FLAGS c i o bs) = Ok tt ->
  exists fs n cs batched outs r,
    list_filenames w (Flags.image_filename FLAGS) = Return fs /\
    py_index bs = Return n /\
    Forall2 (readable w) (chosen_files fs n) cs /\
    np_stack (map image_row cs) = Return batched /\
    make_outputs FLAGS o = Return outs /\
    infer c model_name (make_inputs FLAGS i batched) outs = Return r /\
    fst (postprocess r o (chosen_files fs n) (chosen_batch_size fs n)) = Ok tt.
Proof.
  unfold classify_chosen. intros H.
  destruct (list_filenames w (Flags.image_filename FLAGS)) as [fs|e] eqn:Hfs;
    [|discriminate].
  destruct (py_index bs) as [n|e] eqn:Hn; [|discriminate].
  rewrite !bind_lift_Ok in H.
  apply fst_bind_Ok in H as (_ & _ & H).
  apply fst_bind_Ok in H as (data & Hdata & H).
  apply read_list_Ok in Hdata as (cs & Hcs & ->).
  unfold send in H.
  change (map (fun c0 : bytes => np_array [c0]) cs) with (map image_row cs) in H.
  destruct (np_stack (map image_row cs)) as [batched|e] eqn:Hst; [|discriminate].
  rewrite bind_lift_Ok in H. cbv zeta in H.
  destruct (make_outputs FLAGS o) as [outs|e] eqn:Ho; [|discriminate].
  rewrite bind_lift_Ok in H.
  apply fst_bind_Ok in H as (r & Hr & H).
  destruct (infer c model_name _ _) as [r'|e] eqn:Hinf; [|discriminate].
  rewrite call_Return in Hr. injection Hr as ->.
  apply fst_bind_Ok in H as ([] & Hp & _).
  exists fs, n, cs, batched, outs, r. repeat split; assumption.
Qed.

Lemma last_line_PASS (t : list event) : last_line (t ++ [Print "PASS"]) = Some "PASS".
Proof.
  unfold last_line. rewrite stdout_app, map_app. simpl. apply last_last.
Qed.

(** The run in which every stage succeeds. *)
Lemma main_success (w : World) (FLAGS : Flags.t) :
  all_stages_succeed w FLAGS ->
  exists t, main w FLAGS = (Ok tt, t ++ [Print "PASS"]).
Proof.
  intros (c & cfg & i & o & bs & fs & n & cs & batched & outs & r
          & Hv & Hfs & Hn & Hcs & Hst & Ho & Hinf & Hp).
  rewrite (main_readable Hv Hfs Hn Hcs). unfold send.
  rewrite Hst, bind_lift_Ok. cbv zeta. rewrite Ho, bind_lift_Ok.
  rewrite Hinf, call_Return, bind_pair_Ok.
  rewrite (@bind_Ok _ _ (postprocess r o (chosen_files fs n)
                                     (chosen_batch_size fs n)) _ tt Hp).
  cbn [fst snd print emit].
  eexists. f_equal. rewrite !app_assoc. reflexivity.
Qed.

Lemma main_SysExit (w : World) (FLAGS : Flags.t) (code : Z) :
  fst (main w FLAGS) = SysExit code ->
  code = 1 /\ exists d, caught_failure w FLAGS d.
Proof.
  rewrite main_eq. unfold main_by_cases, caught_failure. cbv zeta.
  destruct (InferenceServerClient w _ _ _) as [c|e] eqn:Hc.
  2: { intros H. injection H as <-. split; [reflexivity|].
       eexists. left. eauto. }
  destruct (get_model_metadata c model_name) as [md|e] eqn:Hmd.
  2: { destruct (is_InferenceServerException e) eqn:He; [|discriminate].
       intros H. injection H as <-. split; [reflexivity|].
       eexists. right. left. exists c, e. eauto. }
  destruct (get_model_config c model_name) as [cfg|e] eqn:Hcfg.
  2: { destruct (is_InferenceServerException e) eqn:He; [|discriminate].
       intros H. injection H as <-. split; [reflexivity|].
       eexists. right. right. exists c, md, e. eauto 6. }
  destruct (parse_model FLAGS md cfg) as [[[i o] bs]|e]; [|discriminate].
  cbn [fst]. intros H. exfalso.
  exact (no_exit_classify_chosen w FLAGS c i o bs H).
Qed.

Lemma main_caught_failure (w : World) (FLAGS : Flags.t) (d : string) :
  caught_failure w FLAGS d ->
  fst (main w FLAGS) = SysExit 1 /\ stdout (snd (main w FLAGS)) = [d].
Proof.
  rewrite main_eq. unfold main_by_cases. cbv zeta.
  intros [(e & Hc & ->) | [(c & e & Hc & Hmd & He & ->)
                          | (c & md & e & Hc & Hmd & Hcfg & He & ->)]].
  - rewrite Hc. split; reflexivity.
  - rewrite Hc, Hmd, He. split; reflexivity.
  - rewrite Hc, Hmd, Hcfg, He. split; reflexivity.
Qed.

(* ================================================================= *)
(** ** The two transports side by side *)

Lemma same_output_refl {A} (m : M A) : same_output m m.
Proof. split; reflexivity. Qed.

Lemma same_output_bind {A B} (m : M A) (k1 k2 : A -> M B) :
  (forall a, same_output (k1 a) (k2 a)) -> same_output (bind m k1) (bind m k2).
Proof.
  intros H. unfold same_output, bind.
  destruct (fst m) as [a|e|c]; cbn [fst snd]; try (split; reflexivity).
  destruct (H a) as (H1 & H2). rewrite !stdout_app, H1, H2. split; reflexivity.
Qed.

Lemma same_output_prefix {A} (m1 m2 : M A) (t1 t2 : list event) :
  stdout t1 = stdout t2 -> same_output m1 m2 ->
  same_output (fst m1, t1 ++ snd m1) (fst m2, t2 ++ snd m2).
Proof.
  intros Ht (H1 & H2). unfold same_output. cbn [fst snd].
  rewrite !stdout_app, Ht, H1, H2. split; reflexivity.
Qed.

Lemma postprocess_ext (r r' : InferResult) (o : pyval) (fs : list string) (k : pyint) :
  (forall name, as_numpy r name = as_numpy r' name) ->
  postprocess r o fs k = postprocess r' o fs k.
Proof. intros H. unfold postprocess. now rewrite H. Qed.

Lemma make_inputs_same (Fg Fh : Flags.t) (i : pyval) (a : ndarray) :
  same_inputs (make_inputs Fg i a) (make_inputs Fh i a).
Proof.
  unfold make_inputs, same_inputs.
  destruct (String.eqb (lower (Flags.protocol Fg)) "grpc"),
           (String.eqb (lower (Flags.protocol Fh)) "grpc"); reflexivity.
Qed.

Lemma make_outputs_same (Fg Fh : Flags.t) (o : pyval) :
  same_but_protocol Fg Fh ->
  - 2 ^ 63 <= Flags.classes Fg < 2 ^ 63 ->
  same_outputs (request_outputs Fg o) (request_outputs Fh o) /\
  make_outputs Fg o = Return (request_outputs Fg o) /\
  make_outputs Fh o = Return (request_outputs Fh o).
Proof.
  intros (_ & Hh & Hcl & _) H. split; [|split].
  - unfold same_outputs, request_outputs. cbn. now rewrite Hcl.
  - apply make_outputs_accepted. now right.
  - apply make_outputs_accepted. now left.
Qed.

Lemma send_same_output (Fg Fh : Flags.t) (g : GrpcClient) (h : HttpClient)
    (i o : pyval) (chosen : list string) (k : pyint) (data : list (list elem)) :
  same_but_protocol Fg Fh ->
  - 2 ^ 63 <= Flags.classes Fg < 2 ^ 63 ->
  equivalent_servers g h ->
  same_output (send Fg (GrpcC g) i o chosen k data)
              (send Fh (HttpC h) i o chosen k data).
Proof.
  intros HF Hcl (_ & _ & Hinf). unfold send.
  destruct (np_stack data) as [batched|e]; [|apply same_output_refl].
  rewrite !bind_lift_Ok. cbv zeta.
  destruct (make_outputs_same o HF Hcl) as (Hso & -> & ->).
  rewrite !bind_lift_Ok. cbn [infer].
  specialize (Hinf model_name (make_inputs Fg i batched) (request_outputs Fg o)
                   (make_inputs Fh i batched) (request_outputs Fh o)
                   (make_inputs_same Fg Fh i batched) Hso).
  destruct (grpc_infer g model_name _ _) as [r|e],
           (http_infer h model_name _ _) as [r'|e']; try contradiction.
  - rewrite !call_Return, !bind_pair_Ok.
    rewrite (@postprocess_ext r r' o chosen k Hinf).
    split; reflexivity.
  - simpl in Hinf. subst e'. split; reflexivity.
Qed.

Lemma classify_chosen_same_output (w : World) (Fg Fh : Flags.t) (g : GrpcClient)
    (h : HttpClient) (i o bs : pyval) :
  same_but_protocol Fg Fh ->
  - 2 ^ 63 <= Flags.classes Fg < 2 ^ 63 ->
  equivalent_servers g h ->
  same_output (classify_chosen w Fg (GrpcC g) i o bs)
              (classify_chosen w Fh (HttpC h) i o bs).
Proof.
  intros HF Hcl Hs. unfold classify_chosen.
  pose proof HF as (_ & _ & _ & Himg). rewrite Himg.
  apply same_output_bind. intros fs.
  apply same_output_bind. intros n.
  apply same_output_bind. intros _.
  apply same_output_bind. intros data.
  now apply send_same_output.
Qed.

(** The two clients of the example answer alike. *)
Lemma example_equivalent_servers (m : Z) :
  equivalent_servers (Example.grpc_client m) (Example.http_client m).
Proof.
  split; [|split].
  - reflexivity.
  - reflexivity.
  - intros name ig og ih oh Hi Ho. simpl. intros n.
    unfold same_inputs in Hi.
    assert (batch_of ig = batch_of ih) as ->; [|reflexivity].
    unfold batch_of. rewrite !flat_map_concat_map. f_equal.
    apply (f_equal (map (fun t : pyval * list Z * string * option ndarray =>
                           match snd t with
                           | Some a => rows a
                           | None => []
                           end))) in Hi.
    rewrite !map_map in Hi. exact Hi.
Qed.

(* ================================================================= *)
(** * The properties of the specification *)

(** C1.  Whenever the script issues the inference request, the number of
    images in it is at most the maximum batch size the fetched configuration
    declares; and if the image path is a directory whose [N] regular files
    are no more than that maximum, the request holds one row for each of
    exactly those files, in the lexicographic order of their names; the row
    of a file is the one item made of its bytes up to its trailing zero
    bytes, so all of its bytes when the file does not end with a zero byte.
    The request is indeed issued, with the input written out in
    [request_inputs], when the model passed the validation, [N] is at least
    1, every file can be read and the request can hold the class count.  The
    last part says that [list_sort] is the sorted arrangement of its
    argument. *)
Theorem C1_batch_within_declared_maximum (w : World) (FLAGS : Flags.t) :
  (forall mn ins outs,
      In (Infer mn ins outs) (snd (main w FLAGS)) ->
      exists c cfg bs m,
        InferenceServerClient w (transport_of FLAGS) (Flags.url FLAGS)
                              (Flags.verbose FLAGS) = Return c /\
        get_model_config c model_name = Return cfg /\
        declared_max_batch_size cfg = Some bs /\
        py_index bs = Return m /\
        len (batch_of ins) <= int_of m /\
        forall path names,
          is_directory w FLAGS path names ->
          len (regular_files w path names) <= int_of m ->
          exists contents,
            Forall2 (readable w) (sorted_paths w path names) contents /\
            batch_of ins
            = map (fun content => [ElBytes (without_trailing_zeros content)])
                  contents) /\
  (forall c cfg i o bs m path names contents,
      validated w FLAGS c cfg i o bs ->
      py_index bs = Return m ->
      is_directory w FLAGS path names ->
      1 <= len (regular_files w path names) <= int_of m ->
      Forall2 (readable w) (sorted_paths w path names) contents ->
      class_count_accepted FLAGS ->
      In (Infer model_name (request_inputs FLAGS i contents)
                (request_outputs FLAGS o))
         (snd (main w FLAGS))) /\
  (forall content,
      no_trailing_zero content -> np_array [content] = [ElBytes content]) /\
  (forall l, StronglySorted le_str (list_sort l) /\ Permutation l (list_sort l)).
Proof.
  split; [|split; [|split]].
  - intros mn ins outs H.
    apply main_infer in H
      as (c & cfg & i & o & bs & fs & n & cs & Hv & Hfs & Hn & Hcs & Hne & _ & -> & _).
    pose proof Hv as (Hc & Hcfg & md & Hmd & Hp).
    exists c, cfg, bs, n.
    rewrite batch_of_make_inputs. cbn [batch_array rows].
    repeat split; try assumption.
    + eapply parse_model_declared; exact Hp.
    + rewrite len_map.
      apply chosen_files_within with (fs := fs); [|assumption].
      symmetry. eapply Forall2_length_eq; exact Hcs.
    + intros path names Hdir Hle.
      rewrite (list_filenames_directory Hdir) in Hfs. injection Hfs as <-.
      rewrite chosen_files_all in Hcs by now rewrite len_sorted_paths.
      exists cs. split; [assumption | apply map_image_row].
  - intros c cfg i o bs m path names contents Hv Hm Hdir [Hlo Hhi] Hcs Hcl.
    pose proof (list_filenames_directory Hdir) as Hfs.
    assert (chosen_files (sorted_paths w path names) m = sorted_paths w path names)
      as Hall by (apply chosen_files_all; now rewrite len_sorted_paths).
    rewrite <- Hall in Hcs.
    rewrite (main_readable Hv Hfs Hm Hcs). cbn [snd].
    assert (contents <> []) as Hne.
    { intros ->. apply Forall2_length_eq in Hcs. rewrite Hall in Hcs.
      pose proof (len_sorted_paths w path names) as Hl. unfold len in *.
      simpl in Hcs. lia. }
    rewrite send_batch with (outs := request_outputs FLAGS o)
      by (assumption || now apply make_outputs_accepted).
    rewrite make_inputs_request by assumption. cbn [snd].
    apply in_or_app. right. apply in_or_app. right. apply in_or_app. right.
    now left.
  - intros content H. unfold np_array. cbn [map].
    now rewrite rstrip_nul_without_trailing_zeros, without_trailing_zeros_id.
  - intros l. split; [apply list_sort_sorted | apply list_sort_permutation].
Qed.

(** C1 at the example of the specification: the directory holds [cat.jpg]
    and [dog.jpg], the model declares a maximum of 8, and the request holds
    the two images, [cat.jpg] first. *)
Lemma C1_witness :
  In (Infer model_name
        [mk_InferInput HTTP (PyStr "INPUT") [2; 1] "BYTES"
           (Some (mk_ndarray true
                    [[ElBytes (Example.content "images/cat.jpg")];
                     [ElBytes (Example.content "images/dog.jpg")]]))
           (Some true)]
        [mk_InferRequestedOutput HTTP (PyStr "OUTPUT") (Some true) 1])
     (snd (main (Example.world 8) (Example.flags "HTTP"))).
Proof.
  apply (proj1 (proj2 (C1_batch_within_declared_maximum
                         (Example.world 8) (Example.flags "HTTP")))
           (HttpC (Example.http_client 8))
           (ConfigDict (config_to_dict
                          (ModelConfigResponse.config (Example.config 8))))
           (PyStr "INPUT") (PyStr "OUTPUT") (PyInt 8) (PInt 8)
           "images" ["dog.jpg"; "raw"; "cat.jpg"]
           [Example.content "images/cat.jpg"; Example.content "images/dog.jpg"]).
  - repeat split. exists (MetaDict (metadata_to_dict Example.metadata)).
    split; reflexivity.
  - reflexivity.
  - repeat split. repeat constructor.
  - vm_compute. split; discriminate.
  - repeat constructor.
  - left. reflexivity.
Defined.




(** C3, as the code has it.  A model whose metadata reports an input count
    or an output count other than 1 makes the validator of either protocol
    raise an [Exception], and the run ends with it uncaught after the two
    fetches, no inference call issued.  When both counts are 1 and the
    configuration declares exactly one input as well, the validator returns
    the triple of the input name, the output name and the maximum batch
    size. *)
Theorem C3_validation_of_counts :
  (forall md cfg,
      (len (ModelMetadataResponse.inputs md) <> 1 \/
       len (ModelMetadataResponse.outputs md) <> 1 ->
       exists e, exn_type e = Exception /\ parse_model_grpc md cfg = Throw e) /\
      (len (ModelMetadataResponse.inputs md) = 1 ->
       len (ModelMetadataResponse.outputs md) = 1 ->
       len (ModelConfig.input cfg) = 1 ->
       exists i o,
         ModelMetadataResponse.inputs md = [i] /\
         ModelMetadataResponse.outputs md = [o] /\
         parse_model_grpc md cfg
         = Return (TensorMetadata.name i, TensorMetadata.name o,
                   ModelConfig.max_batch_size cfg))) /\
  (forall md cfg ins outs,
      py_getitem md "inputs" = Return (PyList ins) ->
      py_getitem md "outputs" = Return (PyList outs) ->
      (len ins <> 1 \/ len outs <> 1 ->
       exists e, exn_type e = Exception /\ parse_model_http md cfg = Throw e) /\
      (forall i o ci input_name output_name b,
          ins = [i] -> outs = [o] ->
          py_getitem cfg "input" = Return (PyList [ci]) ->
          py_getitem i "name" = Return input_name ->
          py_getitem o "name" = Return output_name ->
          py_getitem cfg "max_batch_size" = Return b ->
          parse_model_http md cfg = Return (input_name, output_name, b))) /\
  (forall w FLAGS c md cfg n_in n_out,
      InferenceServerClient w (transport_of FLAGS) (Flags.url FLAGS)
                            (Flags.verbose FLAGS) = Return c ->
      get_model_metadata c model_name = Return md ->
      get_model_config c model_name = Return cfg ->
      metadata_counts md = Some (n_in, n_out) ->
      n_in <> 1 \/ n_out <> 1 ->
      exists e, exn_type e = Exception /\
                main w FLAGS = (Raise e, prologue FLAGS) /\
                no_infer (snd (main w FLAGS))).
Proof.
  split; [|split].
  - intros md cfg. split.
    + intros Hne.
      destruct (Z.eq_dec (len (ModelMetadataResponse.inputs md)) 1) as [E|E].
      * destruct Hne as [Hne|Hne]; [contradiction|].
        rewrite parse_model_grpc_output_count by assumption.
        eexists. split; [|reflexivity]. reflexivity.
      * rewrite parse_model_grpc_input_count by assumption.
        eexists. split; [|reflexivity]. reflexivity.
    + apply parse_model_grpc_triple.
  - intros md cfg ins outs Hi Ho. split.
    + intros Hne.
      destruct (Z.eq_dec (len ins) 1) as [E|E].
      * destruct Hne as [Hne|Hne]; [contradiction|].
        rewrite (@parse_model_http_output_count md cfg (PyList ins) (PyList outs)
                   (len outs)); try assumption; try reflexivity.
        -- eexists. split; [|reflexivity]. reflexivity.
        -- simpl. unfold len in E. now rewrite E.
      * rewrite (@parse_model_http_input_count md cfg (PyList ins) (len ins));
          try assumption; try reflexivity.
        eexists. split; [|reflexivity]. reflexivity.
    + intros i o ci input_name output_name b -> -> Hc Hni Hno Hb.
      now apply parse_model_http_triple with (i := i) (o := o) (ci := ci).
  - intros w FLAGS c md cfg n_in n_out Hc Hmd Hcfg Hcount Hne.
    destruct (metadata_counts_fail _ _ Hc Hmd Hcfg Hcount Hne) as (e & He & Hp).
    exists e. rewrite (main_validation_fails _ _ Hc Hmd Hcfg Hp).
    repeat split; [assumption | apply no_infer_prologue].
Qed.

(** C3 at the model of the example: one input, one output and one input in
    the configuration give the triple. *)
Lemma C3_witness :
  exists i o,
    ModelMetadataResponse.inputs Example.metadata = [i] /\
    ModelMetadataResponse.outputs Example.metadata = [o] /\
    parse_model_grpc Example.metadata (ModelConfigResponse.config (Example.config 8))
    = Return (TensorMetadata.name i, TensorMetadata.name o, 8).
Proof.
  apply (proj2 (proj1 C3_validation_of_counts Example.metadata
                      (ModelConfigResponse.config (Example.config 8))));
    reflexivity.
Defined.

(** C3 as the specification states it fails: one input and one output in the
    metadata do not make the validator return the triple when the
    configuration declares no input, under either protocol. *)
Lemma C3_counterexample :
  len (ModelMetadataResponse.inputs Example.metadata) = 1 /\
  len (ModelMetadataResponse.outputs Example.metadata) = 1 /\
  parse_model_grpc Example.metadata Example.config_no_input
  = Throw (expecting_config_input 0) /\
  metadata_counts (MetaDict (metadata_to_dict Example.metadata)) = Some (1, 1) /\
  parse_model_http (metadata_to_dict Example.metadata)
                   (config_to_dict Example.config_no_input)
  = Throw (expecting_config_input 0).
Proof. repeat split. Qed.

(** C9.  With one input and one output in the metadata, a configuration
    whose input count is not 1 still makes the validator of either protocol
    raise; and the outputs of the configuration are never looked at: the
    validator returns the same whatever they are, or whether the dictionary
    has the key at all. *)
Theorem C9_configuration_input_count :
  (forall md cfg,
      len (ModelMetadataResponse.inputs md) = 1 ->
      len (ModelMetadataResponse.outputs md) = 1 ->
      len (ModelConfig.input cfg) <> 1 ->
      parse_model_grpc md cfg
      = Throw (expecting_config_input (len (ModelConfig.input cfg)))) /\
  (forall md cfg output,
      parse_model_grpc md (with_output cfg output) = parse_model_grpc md cfg) /\
  (forall md cfg i o cins n,
      py_getitem md "inputs" = Return (PyList [i]) ->
      py_getitem md "outputs" = Return (PyList [o]) ->
      py_getitem cfg "input" = Return cins ->
      py_len cins = Return n ->
      n <> 1 ->
      parse_model_http md cfg = Throw (expecting_config_input n)) /\
  (forall md kvs v,
      parse_model_http md (PyDict (dict_set kvs "output" v))
      = parse_model_http md (PyDict kvs) /\
      parse_model_http md (PyDict (dict_del kvs "output"))
      = parse_model_http md (PyDict kvs)).
Proof.
  split; [|split; [|split]].
  - apply parse_model_grpc_config_count.
  - reflexivity.
  - intros md cfg i o cins n Hi Ho Hc Hn Hne.
    now apply parse_model_http_config_count
      with (ins := PyList [i]) (outs := PyList [o]) (cins := cins).
  - intros md kvs v. split; apply parse_model_http_config_keys;
      first [apply dict_get_set_other | apply dict_get_del_other]; discriminate.
Qed.

(** C9 at the model of the example with a configuration of two inputs. *)
Lemma C9_witness :
  parse_model_grpc Example.metadata Example.config_two_inputs
  = Throw (expecting_config_input 2) /\
  parse_model_http (metadata_to_dict Example.metadata)
                   (config_to_dict Example.config_two_inputs)
  = Throw (expecting_config_input 2).
Proof.
  split.
  - apply (proj1 C9_configuration_input_count Example.metadata
                 Example.config_two_inputs); [reflexivity | reflexivity | discriminate].
  - apply (proj1 (proj2 (proj2 C9_configuration_input_count))
                 (metadata_to_dict Example.metadata)
                 (config_to_dict Example.config_two_inputs)
                 (tensor_metadata_to_dict Example.input_tensor)
                 (tensor_metadata_to_dict Example.output_tensor)
                 (PyList (map model_tensor_to_dict
                            (ModelConfig.input Example.config_two_inputs))));
      [reflexivity | reflexivity | reflexivity | reflexivity | discriminate].
Defined.

(** C4.  When the output array does not have as many rows as the batch
    size, [postprocess] raises the exception of the count check and prints
    nothing; when it has, what [postprocess] may still raise is never that
    exception.  [postprocess] takes no protocol; and in a run of [main] under
    either protocol, an answer to the request sent whose array does not have
    one row per image sent ends the run with that exception uncaught, nothing
    printed for the answer. *)
Theorem C4_result_count_mismatch :
  (forall results output_name filenames batch_size a,
      as_numpy results output_name = Some a ->
      (len (rows a) <> int_of batch_size ->
       postprocess results output_name filenames batch_size
       = (Raise (expected_results batch_size (len (rows a))), [])) /\
      (len (rows a) = int_of batch_size ->
       forall e,
         fst (postprocess results output_name filenames batch_size) = Raise e ->
         exn_type e <> Exception)) /\
  (forall w FLAGS c cfg i o bs fs n cs outs r a,
      validated w FLAGS c cfg i o bs ->
      list_filenames w (Flags.image_filename FLAGS) = Return fs ->
      py_index bs = Return n ->
      Forall2 (readable w) (chosen_files fs n) cs ->
      cs <> [] ->
      make_outputs FLAGS o = Return outs ->
      infer c model_name (make_inputs FLAGS i (batch_array cs)) outs
      = Return r ->
      as_numpy r o = Some a ->
      len (rows a) <> len (batch_of (make_inputs FLAGS i (batch_array cs))) ->
      int_of (chosen_batch_size fs n) = len cs /\
      fst (main w FLAGS)
      = Raise (expected_results (chosen_batch_size fs n) (len (rows a))) /\
      stdout (snd (main w FLAGS)) = stdout (warning_events fs n)).
Proof.
  split.
  - intros results output_name filenames batch_size a Ha. split.
    + now apply postprocess_mismatch.
    + intros He e H. rewrite postprocess_match with (a := a) in H by assumption.
      apply for_each_Raise in H as (row & _ & H).
      apply for_each_Raise in H as (item & _ & H).
      eapply print_class_Raise; exact H.
  - intros w FLAGS c cfg i o bs fs n cs outs r a Hv Hfs Hn Hcs Hne Ho Hr Ha Hlen.
    rewrite batch_of_make_inputs in Hlen. cbn [batch_array rows] in Hlen.
    rewrite len_map in Hlen.
    assert (int_of (chosen_batch_size fs n) = len cs) as Hk.
    { pose proof (Forall2_length_eq Hcs) as Hl.
      rewrite length_chosen_files in Hl.
      assert (0 < List.length cs)%nat
        by (destruct cs; [congruence | simpl; lia]).
      unfold len. lia. }
    split; [exact Hk|].
    rewrite (main_readable Hv Hfs Hn Hcs), send_batch with (outs := outs)
      by assumption.
    rewrite Hr. cbn [after_infer fst snd].
    rewrite postprocess_mismatch with (a := a) by (rewrite ?Hk; assumption).
    split; [reflexivity|].
    rewrite !stdout_app, stdout_map_Open. cbn.
    now rewrite app_nil_r.
Qed.

(** C4 at an answer of one row for a batch of two. *)
Lemma C4_witness :
  postprocess
    (mk_InferResult (fun _ => Some (mk_ndarray true
                                      [[ElBytes (Example.content "0.9:1:CAT")]])))
    (PyStr "OUTPUT") ["a.jpg"; "b.jpg"] (PInt 2)
  = (Raise (expected_results (PInt 2) 1), []).
Proof.
  apply (proj1 (proj1 C4_result_count_mismatch
           (mk_InferResult (fun _ => Some (mk_ndarray true
                                      [[ElBytes (Example.content "0.9:1:CAT")]])))
           (PyStr "OUTPUT") ["a.jpg"; "b.jpg"] (PInt 2)
           (mk_ndarray true [[ElBytes (Example.content "0.9:1:CAT")]])
           eq_refl)).
  discriminate.
Defined.

(** C5.  In an answer whose array is of bytes, has one row per image and
    whose items hold class results in the form ["id:score:label"], every
    item is decoded and split on the colon into its three fields, and
    [postprocess] prints, image after image and class after class, one line
    made of four spaces and [id (score) = label], and nothing else. *)
Theorem C5_class_lines (results : InferResult) (output_name : pyval)
    (filenames : list string) (batch_size : pyint) (a : ndarray)
    (classes : list (list class_result)) :
  as_numpy results output_name = Some a ->
  dtype_is_bytes a = true ->
  len (rows a) = int_of batch_size ->
  Forall2 (Forall2 encodes) (rows a) classes ->
  postprocess results output_name filenames batch_size
  = (Ok tt, map Print (map class_output (List.concat classes))) /\
  (forall item r,
      encodes item r ->
      class_fields true item = Return [class_id r; class_score r; class_label r] /\
      class_line [class_id r; class_score r; class_label r]
      = Return (class_output r)).
Proof.
  intros Ha Hb He Hrows. split.
  - rewrite postprocess_match with (a := a) by assumption. rewrite Hb.
    rewrite (@for_each_Forall2 _ _ (Forall2 encodes) _
               (fun row => map (fun r => Print (class_output r)) row)
               (rows a) classes); [|intros row rs Hrow|exact Hrows].
    + now rewrite flat_map_map_concat, map_map.
    + rewrite (@for_each_Forall2 _ _ encodes _
                 (fun r => [Print (class_output r)]) row rs);
        [|intros item r Hitem|exact Hrow].
      * now rewrite flat_map_singleton.
      * now apply print_class_encoded.
  - intros item r H. split; [now apply print_class_encoded | reflexivity].
Qed.

(** C5 at the example of the specification: two images, one class each. *)
Lemma C5_witness :
  postprocess
    (mk_InferResult (fun _ => Some (mk_ndarray true
       [[ElBytes (Example.content "0.93:281:TABBY")];
        [ElBytes (Example.content "0.87:207:GOLDEN RETRIEVER")]])))
    (PyStr "OUTPUT") ["images/cat.jpg"; "images/dog.jpg"] (PInt 2)
  = (Ok tt, [Print "    0.93 (281) = TABBY";
             Print "    0.87 (207) = GOLDEN RETRIEVER"]).
Proof.
  apply (proj1 (@C5_class_lines
           (mk_InferResult (fun _ => Some (mk_ndarray true
              [[ElBytes (Example.content "0.93:281:TABBY")];
               [ElBytes (Example.content "0.87:207:GOLDEN RETRIEVER")]])))
           (PyStr "OUTPUT") ["images/cat.jpg"; "images/dog.jpg"] (PInt 2)
           (mk_ndarray true
              [[ElBytes (Example.content "0.93:281:TABBY")];
               [ElBytes (Example.content "0.87:207:GOLDEN RETRIEVER")]])
           [[mk_class_result "0.93" "281" "TABBY"];
            [mk_class_result "0.87" "207" "GOLDEN RETRIEVER"]]
           eq_refl eq_refl eq_refl
           ltac:(repeat constructor; eexists; split; reflexivity))).
Defined.

(** C8.  The transport is gRPC exactly when the value of [--protocol] is
    [grpc] in some letter case, and HTTP for every other value, [foo] among
    them: the parser takes any string, and whatever the value, the run
    starts by creating the client of the selected module and builds the
    request with the classes of that module. *)
Theorem C8_protocol_selection :
  (forall p, String.eqb (lower p) "grpc" = true <-> is_grpc_ignoring_case p) /\
  (forall argv p,
      given_protocol argv = Some p -> Flags.protocol (parse_args argv) = p) /\
  (forall FLAGS,
      (transport_of FLAGS = GRPC <-> is_grpc_ignoring_case (Flags.protocol FLAGS)) /\
      (transport_of FLAGS = HTTP <-> ~ is_grpc_ignoring_case (Flags.protocol FLAGS))) /\
  (forall w FLAGS,
      exists rest,
        snd (main w FLAGS)
        = CreateClient (transport_of FLAGS) (Flags.url FLAGS) (Flags.verbose FLAGS)
          :: rest) /\
  (forall w FLAGS mn ins outs,
      In (Infer mn ins outs) (snd (main w FLAGS)) ->
      Forall (fun x => in_module x = transport_of FLAGS) ins /\
      Forall (fun x => out_module x = transport_of FLAGS) outs) /\
  transport_of (Example.flags "foo") = HTTP.
Proof.
  split; [|split; [|split; [|split; [|split]]]].
  - intros p. rewrite String.eqb_eq. apply lower_grpc.
  - intros argv p H. unfold parse_args. simpl. now rewrite H.
  - intros FLAGS. split; [apply transport_of_grpc|].
    rewrite <- transport_of_grpc.
    destruct (transport_of FLAGS); split; congruence.
  - apply main_creates_client.
  - intros w FLAGS mn ins outs H.
    apply main_infer in H
      as (c & cfg & i & o & bs & fs & n & cs & _ & _ & _ & _ & _ & _ & -> & Ho).
    split; [apply make_inputs_module | exact (make_outputs_module _ _ Ho)].
  - reflexivity.
Qed.

(** C8 at the value [GrPc], which selects gRPC. *)
Lemma C8_witness : transport_of (Example.flags "GrPc") = GRPC.
Proof.
  apply (proj2 (proj1 (proj1 (proj2 (proj2 C8_protocol_selection))
                         (Example.flags "GrPc")))).
  simpl. repeat split; auto.
Defined.

(** C10.  The parser accepts a command line without the image path and
    stores [None] for it.  The run then creates the client and fetches the
    metadata and the configuration as usual; once the model passed the
    validation, the directory test on [None] raises a [TypeError] nothing
    catches.  In no world does such a run end with status 0, open a file or
    issue an inference call. *)
Theorem C10_image_filename_omitted :
  (forall argv,
      given_image_filename argv = None ->
      Flags.image_filename (parse_args argv) = None) /\
  (forall w argv c cfg i o bs,
      given_image_filename argv = None ->
      validated w (parse_args argv) c cfg i o bs ->
      script w argv = (Raise (builtin_error TypeError), prologue (parse_args argv))) /\
  (forall w FLAGS,
      Flags.image_filename FLAGS = None ->
      exit_status (fst (main w FLAGS)) = 1 /\
      opened (snd (main w FLAGS)) = [] /\
      no_infer (snd (main w FLAGS))).
Proof.
  split; [|split].
  - intros argv H. unfold parse_args. simpl. now rewrite H.
  - intros w argv c cfg i o bs H Hv. unfold script.
    rewrite (main_validated Hv). unfold classify_chosen.
    assert (Flags.image_filename (parse_args argv) = None) as ->
      by (unfold parse_args; simpl; now rewrite H).
    simpl. reflexivity.
  - intros w FLAGS H. rewrite main_eq. unfold main_by_cases. cbv zeta.
    assert (forall c i o bs,
               classify_chosen w FLAGS c i o bs
               = (Raise (builtin_error TypeError), [])) as Hc.
    { intros c i o bs. unfold classify_chosen. now rewrite H. }
    destruct (InferenceServerClient w _ _ _) as [c|e].
    2: { repeat split. intros mn ins outs Hin. simpl in Hin.
         intuition discriminate. }
    destruct (get_model_metadata c model_name) as [md|e].
    2: { destruct (is_InferenceServerException e); repeat split;
         intros mn ins outs Hin; simpl in Hin; intuition discriminate. }
    destruct (get_model_config c model_name) as [cfg|e].
    2: { destruct (is_InferenceServerException e); repeat split;
         intros mn ins outs Hin; simpl in Hin; intuition discriminate. }
    destruct (parse_model FLAGS md cfg) as [[[i o] bs]|e].
    2: { repeat split. apply no_infer_prologue. }
    rewrite Hc. cbn [fst snd]. rewrite app_nil_r.
    repeat split. apply no_infer_prologue.
Qed.

(** C10 at the example world, the image path left out. *)
Lemma C10_witness :
  script (Example.world 8) (mk_CommandLine false None None None None)
  = (Raise (builtin_error TypeError),
     [CreateClient HTTP "localhost:8000" false;
      GetModelMetadata model_name; GetModelConfig model_name]).
Proof.
  apply (proj1 (proj2 C10_image_filename_omitted)
               (Example.world 8) (mk_CommandLine false None None None None)
               (HttpC (Example.http_client 8))
               (ConfigDict (config_to_dict
                              (ModelConfigResponse.config (Example.config 8))))
               (PyStr "INPUT") (PyStr "OUTPUT") (PyInt 8) eq_refl).
  repeat split. exists (MetaDict (metadata_to_dict Example.metadata)).
  split; reflexivity.
Defined.

(** C6, as the code has it.  The process ends with status 0 and [PASS] as
    the last line of standard output if and only if every stage succeeds.
    It ends in [sys.exit(1)], with the diagnostic of the failing stage as
    the only line on standard output, exactly when the creation of the client
    raises, or the metadata fetch or the configuration fetch raises an
    [InferenceServerException]; [sys.exit] is called with no other status.
    An exception of another class out of a fetch is not caught: the run ends
    with it, nothing printed on standard output. *)
Theorem C6_exit_status (w : World) (FLAGS : Flags.t) :
  ((exit_status (fst (main w FLAGS)) = 0 /\
    last_line (snd (main w FLAGS)) = Some "PASS")
   <-> all_stages_succeed w FLAGS) /\
  ((exists d, caught_failure w FLAGS d) <-> fst (main w FLAGS) = SysExit 1) /\
  (forall d,
      caught_failure w FLAGS d ->
      exit_status (fst (main w FLAGS)) = 1 /\ stdout (snd (main w FLAGS)) = [d]) /\
  (forall code, fst (main w FLAGS) = SysExit code -> code = 1) /\
  (forall c e,
      InferenceServerClient w (transport_of FLAGS) (Flags.url FLAGS)
                            (Flags.verbose FLAGS) = Return c ->
      is_InferenceServerException e = false ->
      get_model_metadata c model_name = Throw e \/
      (exists md, get_model_metadata c model_name = Return md /\
                  get_model_config c model_name = Throw e) ->
      fst (main w FLAGS) = Raise e /\ stdout (snd (main w FLAGS)) = []).
Proof.
  split; [|split; [|split; [|split]]].
  - split.
    + intros (Hs & _).
      destruct (fst (main w FLAGS)) as [[]|e|code] eqn:Hm.
      * clear Hs. rewrite main_eq in Hm. unfold main_by_cases in Hm.
        cbv zeta in Hm.
        destruct (InferenceServerClient w _ _ _) as [c|e] eqn:Hc;
          [|discriminate].
        destruct (get_model_metadata c model_name) as [md|e] eqn:Hmd.
        2: { destruct (is_InferenceServerException e); discriminate. }
        destruct (get_model_config c model_name) as [cfg|e] eqn:Hcfg.
        2: { destruct (is_InferenceServerException e); discriminate. }
        destruct (parse_model FLAGS md cfg) as [[[i o] bs]|e] eqn:Hp;
          [|discriminate].
        cbn [fst] in Hm.
        apply classify_chosen_Ok in Hm
          as (fs & n & cs & batched & outs & r & H).
        exists c, cfg, i, o, bs, fs, n, cs, batched, outs, r.
        split; [|exact H]. unfold validated. eauto 6.
      * discriminate.
      * apply main_SysExit in Hm as (-> & _). discriminate.
    + intros H. destruct (main_success H) as (t & ->).
      split; [reflexivity | apply last_line_PASS].
  - split.
    + intros (d & H). now apply main_caught_failure in H.
    + intros H. now apply main_SysExit in H.
  - intros d H. apply main_caught_failure in H as (H1 & H2).
    now rewrite H1.
  - intros code H. now apply main_SysExit in H.
  - intros c e Hc He H. rewrite main_eq. unfold main_by_cases. cbv zeta.
    rewrite Hc. destruct H as [Hmd | (md & Hmd & Hcfg)].
    + rewrite Hmd, He. split; reflexivity.
    + rewrite Hmd, Hcfg, He. split; reflexivity.
Qed.

(** C6 at a server that answers the metadata fetch with an
    [InferenceServerException]. *)
Lemma C6_witness :
  exit_status (fst (main (mk_World
     (fun _ _ => Throw Example.connection_refused)
     (fun _ _ => Return (mk_HttpClient
        (fun _ => Throw (mk_exn InferenceServerException "unknown model"))
        (fun _ => Throw (mk_exn InferenceServerException "unknown model"))
        (fun _ _ _ => Throw (mk_exn InferenceServerException "unknown model"))))
     (fun _ => false) (fun _ => Return []) (fun _ => false)
     (fun _ => Throw Example.connection_refused))
     (Example.flags "HTTP"))) = 1 /\
  stdout (snd (main (mk_World
     (fun _ _ => Throw Example.connection_refused)
     (fun _ _ => Return (mk_HttpClient
        (fun _ => Throw (mk_exn InferenceServerException "unknown model"))
        (fun _ => Throw (mk_exn InferenceServerException "unknown model"))
        (fun _ _ _ => Throw (mk_exn InferenceServerException "unknown model"))))
     (fun _ => false) (fun _ => Return []) (fun _ => false)
     (fun _ => Throw Example.connection_refused))
     (Example.flags "HTTP")))
  = ["failed to retrieve the metadata: unknown model"].
Proof.
  apply (proj1 (proj2 (proj2 (C6_exit_status _ (Example.flags "HTTP"))))).
  right. left. eexists. eexists. repeat split.
Defined.

(** C6 as the specification states it fails: the metadata fetch fails, with the
    error of a refused connection, and the run neither prints a diagnostic on
    standard output nor ends in [sys.exit]. *)
Lemma C6_counterexample :
  stage_fails Example.unreachable_world (Example.flags "HTTP") /\
  stdout (snd (main Example.unreachable_world (Example.flags "HTTP"))) = [] /\
  fst (main Example.unreachable_world (Example.flags "HTTP"))
  = Raise Example.connection_refused.
Proof.
  split; [|split; reflexivity].
  right. left. exists (HttpC Example.unreachable_http_client).
  exists Example.connection_refused. split; reflexivity.
Qed.

(** C7, as the code has it.  The two validators agree: on a message and on
    the dictionary that carries its values they return the same triple, or
    raise the same exception.  [postprocess] has no protocol among its
    arguments and depends on the answer through its arrays only.  Hence a
    gRPC run and an HTTP run on the same image path and with the same class
    count, each against its own server address, the two servers answering
    alike, end alike and print the same lines, provided the class count is a
    signed 64-bit integer, the only kind the gRPC request can hold. *)
Theorem C7_protocols_agree :
  (forall md cfg,
      parse_model_http (metadata_to_dict md) (config_to_dict cfg)
      = outcome_map as_values (parse_model_grpc md cfg)) /\
  (forall r r' output_name filenames batch_size,
      (forall name, as_numpy r name = as_numpy r' name) ->
      postprocess r output_name filenames batch_size
      = postprocess r' output_name filenames batch_size) /\
  (forall w Fg Fh g h,
      same_but_protocol Fg Fh ->
      - 2 ^ 63 <= Flags.classes Fg < 2 ^ 63 ->
      tritongrpcclient_InferenceServerClient w (Flags.url Fg) (Flags.verbose Fg)
      = Return g ->
      tritonhttpclient_InferenceServerClient w (Flags.url Fh) (Flags.verbose Fh)
      = Return h ->
      equivalent_servers g h ->
      fst (main w Fg) = fst (main w Fh) /\
      stdout (snd (main w Fg)) = stdout (snd (main w Fh))).
Proof.
  split; [|split].
  - apply parse_model_http_grpc.
  - intros r r' output_name filenames batch_size H. now apply postprocess_ext.
  - intros w Fg Fh g h HF Hcl Hg Hh Hs.
    pose proof HF as (Htg & Hth & _).
    pose proof Hs as (Hmd & Hcfg & _).
    rewrite !main_eq. unfold main_by_cases, prologue. cbv zeta.
    rewrite Htg, Hth. cbn [InferenceServerClient]. rewrite Hg, Hh.
    cbn [outcome_map get_model_metadata get_model_config].
    rewrite Hmd, Hcfg.
    destruct (grpc_get_model_metadata g model_name) as [md|e];
      cbn [outcome_map].
    2: { destruct (is_InferenceServerException e); split; reflexivity. }
    destruct (grpc_get_model_config g model_name) as [cr|e];
      cbn [outcome_map].
    2: { destruct (is_InferenceServerException e); split; reflexivity. }
    unfold parse_model. unfold transport_of in Htg, Hth.
    destruct (String.eqb (lower (Flags.protocol Fg)) "grpc"); [|discriminate].
    destruct (String.eqb (lower (Flags.protocol Fh)) "grpc"); [discriminate|].
    rewrite parse_model_http_grpc.
    destruct (parse_model_grpc md (ModelConfigResponse.config cr))
      as [[[i o] b]|e]; cbn [rbind outcome_map as_values].
    2: { split; reflexivity. }
    apply (@same_output_prefix _
             (classify_chosen w Fg (GrpcC g) (PyStr i) (PyStr o) (PyInt b))
             (classify_chosen w Fh (HttpC h) (PyStr i) (PyStr o) (PyInt b)));
      [reflexivity|].
    now apply classify_chosen_same_output.
Qed.

(** C7 at the example: the HTTP run and the gRPC run of the same directory
    print the same two class lines and [PASS]. *)
Lemma C7_witness :
  fst (main (Example.world 8) (Example.flags "gRPC"))
  = fst (main (Example.world 8) (Example.flags "HTTP")) /\
  stdout (snd (main (Example.world 8) (Example.flags "gRPC")))
  = stdout (snd (main (Example.world 8) (Example.flags "HTTP"))).
Proof.
  apply (proj2 (proj2 C7_protocols_agree)
               (Example.world 8) (Example.flags "gRPC") (Example.flags "HTTP")
               (Example.grpc_client 8) (Example.http_client 8)).
  - repeat split.
  - vm_compute. split; [discriminate | reflexivity].
  - reflexivity.
  - reflexivity.
  - apply example_equivalent_servers.
Defined.

(** C7 as the specification states it fails for a class count the gRPC
    request cannot hold: with [--classes] at [2 ^ 63], the same directory and
    two servers that answer alike, the HTTP run prints the class lines and
    [PASS], and the gRPC run stops with a [ValueError] when it builds the
    requested output and prints nothing. *)
Lemma C7_counterexample :
  same_but_protocol (Example.flags_with_classes "gRPC" (2 ^ 63))
                    (Example.flags_with_classes "HTTP" (2 ^ 63)) /\
  tritongrpcclient_InferenceServerClient (Example.world 8) "localhost:8000" false
  = Return (Example.grpc_client 8) /\
  tritonhttpclient_InferenceServerClient (Example.world 8) "localhost:8000" false
  = Return (Example.http_client 8) /\
  equivalent_servers (Example.grpc_client 8) (Example.http_client 8) /\
  fst (main (Example.world 8) (Example.flags_with_classes "gRPC" (2 ^ 63)))
  = Raise (builtin_error ValueError) /\
  stdout (snd (main (Example.world 8) (Example.flags_with_classes "gRPC" (2 ^ 63))))
  = [] /\
  fst (main (Example.world 8) (Example.flags_with_classes "HTTP" (2 ^ 63)))
  = Ok tt /\
  stdout (snd (main (Example.world 8) (Example.flags_with_classes "HTTP" (2 ^ 63))))
  = ["    0.93 (281) = TABBY"; "    0.93 (281) = TABBY"; "PASS"].
Proof.
  split; [repeat split|].
  split; [reflexivity|]. split; [reflexivity|].
  split; [apply example_equivalent_servers|].
  repeat split.
Qed.

(* ================================================================= *)
(** * Further properties of the script *)

(** ** Traces, again *)

Lemma requests_app (t1 t2 : list event) :
  requests (t1 ++ t2) = requests t1 ++ requests t2.
Proof. unfold requests. apply flat_map_app. Qed.

Lemma requests_map_Open (l : list string) : requests (map Open l) = [].
Proof. induction l as [|x l IH]; simpl; congruence. Qed.

Lemma requests_prints (t : list event) : Forall is_print t -> requests t = [].
Proof.
  induction 1 as [|ev t H _ IH]; [reflexivity|].
  destruct ev; simpl in *; try contradiction. exact IH.
Qed.

Lemma requests_warning_events (fs : list string) (n : pyint) :
  requests (warning_events fs n) = [].
Proof. unfold warning_events. destruct (len fs <=? int_of n); reflexivity. Qed.

Lemma opened_warning_events (fs : list string) (n : pyint) :
  opened (warning_events fs n) = [].
Proof. unfold warning_events. destruct (len fs <=? int_of n); reflexivity. Qed.

(** [classify_chosen] once the paths are listed and the maximum is a
    number: the warning, the reads, and what [send] does with the arrays. *)
Lemma classify_chosen_reads (w : World) (FLAGS : Flags.t) (c : Client)
    (i o bs : pyval) (fs : list string) (n : pyint) :
  list_filenames w (Flags.image_filename FLAGS) = Return fs ->
  py_index bs = Return n ->
  classify_chosen w FLAGS c i o bs
  = match fst (read_list w (chosen_files fs n)) with
    | Ok data =>
        (fst (send FLAGS c i o (chosen_files fs n) (chosen_batch_size fs n) data),
         warning_events fs n ++ snd (read_list w (chosen_files fs n)) ++
         snd (send FLAGS c i o (chosen_files fs n) (chosen_batch_size fs n) data))
    | Raise e =>
        (Raise e, warning_events fs n ++ snd (read_list w (chosen_files fs n)))
    | SysExit x =>
        (SysExit x, warning_events fs n ++ snd (read_list w (chosen_files fs n)))
    end.
Proof.
  intros Hfs Hn. unfold classify_chosen, warning_events.
  rewrite Hfs, Hn, !bind_lift_Ok.
  destruct (len fs <=? int_of n).
  - rewrite bind_ret. unfold bind.
    destruct (fst (read_list w (chosen_files fs n))); reflexivity.
  - unfold bind at 1. cbn [print emit fst snd]. unfold bind.
    destruct (fst (read_list w (chosen_files fs n))); reflexivity.
Qed.

(** The first file that cannot be read ends the reading. *)
Lemma read_list_fails (w : World) (pre post : list string) (f : string)
    (cs : list bytes) (e : exn) :
  Forall2 (readable w) pre cs ->
  read_file w f = Throw e ->
  read_list w (pre ++ f :: post) = (Raise e, map Open (pre ++ [f])).
Proof.
  intros Hpre Hf. induction Hpre as [|x c pre cs Hx _ IH]; simpl.
  - now rewrite Hf.
  - rewrite Hx, call_Return, bind_pair_Ok, IH. reflexivity.
Qed.

Lemma requests_send (FLAGS : Flags.t) (c : Client) (i o : pyval)
    (chosen : list string) (k : pyint) (data : list (list elem)) :
  (List.length (requests (snd (send FLAGS c i o chosen k data))) <= 1)%nat /\
  (fst (send FLAGS c i o chosen k data) = Ok tt ->
   List.length (requests (snd (send FLAGS c i o chosen k data))) = 1%nat).
Proof.
  unfold send. destruct (np_stack data) as [batched|e].
  2: { split; [simpl; lia | discriminate]. }
  rewrite bind_lift_Ok. cbv zeta.
  destruct (make_outputs FLAGS o) as [outs|e].
  2: { split; [simpl; lia | discriminate]. }
  rewrite bind_lift_Ok.
  destruct (infer c model_name _ _) as [r|e].
  - rewrite call_Return, bind_pair_Ok. cbn [fst snd app requests flat_map].
    rewrite requests_prints by auto with trace.
    split; [simpl; lia | reflexivity].
  - split; [simpl; lia | discriminate].
Qed.

Lemma requests_read_list (w : World) (fs : list string) :
  requests (snd (read_list w fs)) = [].
Proof.
  destruct (read_list_opens w fs) as (k & ->). apply requests_map_Open.
Qed.

Lemma requests_classify_chosen (w : World) (FLAGS : Flags.t) (c : Client)
    (i o bs : pyval) :
  (List.length (requests (snd (classify_chosen w FLAGS c i o bs))) <= 1)%nat /\
  (fst (classify_chosen w FLAGS c i o bs) = Ok tt ->
   List.length (requests (snd (classify_chosen w FLAGS c i o bs))) = 1%nat).
Proof.
  destruct (list_filenames w (Flags.image_filename FLAGS)) as [fs|e] eqn:Hfs.
  2: { unfold classify_chosen. rewrite Hfs.
       split; [simpl; lia | discriminate]. }
  destruct (py_index bs) as [n|e] eqn:Hn.
  2: { unfold classify_chosen. rewrite Hfs, Hn.
       split; [simpl; lia | discriminate]. }
  rewrite classify_chosen_reads with (fs := fs) (n := n) by assumption.
  destruct (fst (read_list w (chosen_files fs n))) as [data|e|x]; cbn [fst snd];
    rewrite !requests_app, requests_warning_events, requests_read_list;
    cbn [app]; try (split; [simpl; lia | discriminate]).
  apply requests_send.
Qed.

(* ================================================================= *)
(** ** Further properties *)

(** X1.  A run issues at most one inference call, and a run that ends with
    status 0 has issued exactly one. *)
Theorem X1_one_inference_call (w : World) (FLAGS : Flags.t) :
  (List.length (requests (snd (main w FLAGS))) <= 1)%nat /\
  (fst (main w FLAGS) = Ok tt ->
   List.length (requests (snd (main w FLAGS))) = 1%nat).
Proof.
  rewrite main_eq. unfold main_by_cases. cbv zeta.
  destruct (InferenceServerClient w _ _ _) as [c|e].
  2: { split; [simpl; lia | discriminate]. }
  destruct (get_model_metadata c model_name) as [md|e].
  2: { destruct (is_InferenceServerException e);
       (split; [simpl; lia | discriminate]). }
  destruct (get_model_config c model_name) as [cfg|e].
  2: { destruct (is_InferenceServerException e);
       (split; [simpl; lia | discriminate]). }
  destruct (parse_model FLAGS md cfg) as [[[i o] bs]|e].
  2: { split; [simpl; lia | discriminate]. }
  cbn [fst snd]. rewrite requests_app. cbn [prologue requests flat_map app].
  apply requests_classify_chosen.
Qed.

(** X1 at the example: the run of the two images has one request. *)
Lemma X1_witness :
  List.length (requests (snd (main (Example.world 8) (Example.flags "HTTP"))))
  = 1%nat.
Proof.
  apply (proj2 (X1_one_inference_call (Example.world 8) (Example.flags "HTTP"))).
  reflexivity.
Defined.

(** X2.  The chosen files are read in order, and the first one that cannot
    be read ends the run with its exception: the files after it are not
    opened, nothing is sent to the server, and the images already read are
    dropped. *)
Theorem X2_unreadable_file_aborts (w : World) (FLAGS : Flags.t) (c : Client)
    (cfg : Config) (i o bs : pyval) (fs : list string) (n : pyint)
    (pre post : list string) (f : string) (cs : list bytes) (e : exn) :
  validated w FLAGS c cfg i o bs ->
  list_filenames w (Flags.image_filename FLAGS) = Return fs ->
  py_index bs = Return n ->
  chosen_files fs n = pre ++ f :: post ->
  Forall2 (readable w) pre cs ->
  read_file w f = Throw e ->
  main w FLAGS
  = (Raise e, prologue FLAGS ++ warning_events fs n ++ map Open (pre ++ [f])) /\
  opened (snd (main w FLAGS)) = pre ++ [f] /\
  requests (snd (main w FLAGS)) = [].
Proof.
  intros Hv Hfs Hn Hch Hpre Hf.
  rewrite (main_validated Hv).
  rewrite classify_chosen_reads with (fs := fs) (n := n) by assumption.
  rewrite Hch, read_list_fails with (cs := cs) (e := e) by assumption.
  cbn [fst snd].
  split; [reflexivity|]. split.
  - rewrite !opened_app, opened_warning_events, opened_map_Open. reflexivity.
  - rewrite !requests_app, requests_warning_events, requests_map_Open.
    reflexivity.
Qed.

(** X2 at the example directory when [dog.jpg] cannot be read: [cat.jpg] is
    read, [dog.jpg] is tried, and the run ends there. *)
Lemma X2_witness :
  main (Scenario.unreadable_dog 8) (Example.flags "gRPC")
  = (Raise Scenario.permission_denied,
     prologue (Example.flags "gRPC") ++
     [Open "images/cat.jpg"; Open "images/dog.jpg"]).
Proof.
  apply (@X2_unreadable_file_aborts
           (Scenario.unreadable_dog 8) (Example.flags "gRPC")
           (GrpcC (Example.grpc_client 8)) (ConfigMsg (Example.config 8))
           (PyStr "INPUT") (PyStr "OUTPUT") (PyInt 8)
           ["images/cat.jpg"; "images/dog.jpg"] (PInt 8)
           ["images/cat.jpg"] [] "images/dog.jpg"
           [Example.content "images/cat.jpg"] Scenario.permission_denied).
  - repeat split. exists (MetaMsg Example.metadata). split; reflexivity.
  - reflexivity.
  - reflexivity.
  - reflexivity.
  - repeat constructor.
  - reflexivity.
Defined.

Lemma opened_send (FLAGS : Flags.t) (c : Client) (i o : pyval)
    (chosen : list string) (k : pyint) (data : list (list elem)) :
  opened (snd (send FLAGS c i o chosen k data)) = [].
Proof.
  unfold send. destruct (np_stack data) as [batched|e]; [|reflexivity].
  rewrite bind_lift_Ok. cbv zeta.
  destruct (make_outputs FLAGS o) as [outs|e]; [|reflexivity].
  rewrite bind_lift_Ok.
  destruct (infer c model_name _ _) as [r|e]; [|reflexivity].
  rewrite call_Return, bind_pair_Ok. cbn [snd app opened flat_map].
  apply opened_prints. auto with trace.
Qed.

Lemma chosen_files_bound (fs : list string) (n : pyint) :
  Z.of_nat (List.length (chosen_files fs n)) <= Z.max 0 (int_of n).
Proof.
  rewrite length_chosen_files. unfold chosen_batch_size, len.
  destruct (Z.of_nat (List.length fs) <=? int_of n) eqn:E; simpl.
  - apply Z.leb_le in E. lia.
  - lia.
Qed.

Lemma opened_classify_chosen (w : World) (FLAGS : Flags.t) (c : Client)
    (i o bs : pyval) (fs : list string) (n : pyint) :
  list_filenames w (Flags.image_filename FLAGS) = Return fs ->
  py_index bs = Return n ->
  exists k,
    opened (snd (classify_chosen w FLAGS c i o bs)) = firstn k (chosen_files fs n).
Proof.
  intros Hfs Hn.
  rewrite classify_chosen_reads with (fs := fs) (n := n) by assumption.
  destruct (read_list_opens w (chosen_files fs n)) as (k & Hk). exists k.
  destruct (fst (read_list w (chosen_files fs n))); cbn [snd];
    rewrite !opened_app, opened_warning_events, Hk, opened_map_Open,
      ?opened_send; cbn [app]; now rewrite ?app_nil_r.
Qed.

(** X3.  A file is opened only once the model has passed the validation;
    the files a run opens are always the first ones of the sorted list, in
    that order, and never more of them than the declared maximum batch size,
    however the run ends. *)
Theorem X3_files_opened (w : World) (FLAGS : Flags.t) :
  (forall p,
      In p (opened (snd (main w FLAGS))) ->
      exists c cfg i o bs, validated w FLAGS c cfg i o bs) /\
  (forall c cfg i o bs fs n,
      validated w FLAGS c cfg i o bs ->
      list_filenames w (Flags.image_filename FLAGS) = Return fs ->
      py_index bs = Return n ->
      (exists k, opened (snd (main w FLAGS)) = firstn k fs) /\
      Z.of_nat (List.length (opened (snd (main w FLAGS)))) <= Z.max 0 (int_of n)).
Proof.
  split.
  - intros p. rewrite main_eq. unfold main_by_cases. cbv zeta.
    destruct (InferenceServerClient w _ _ _) as [c|e] eqn:Hc;
      [|intros []].
    destruct (get_model_metadata c model_name) as [md|e] eqn:Hmd.
    2: { destruct (is_InferenceServerException e); intros []. }
    destruct (get_model_config c model_name) as [cfg|e] eqn:Hcfg.
    2: { destruct (is_InferenceServerException e); intros []. }
    destruct (parse_model FLAGS md cfg) as [[[i o] bs]|e] eqn:Hp;
      [|intros []].
    intros _. exists c, cfg, i, o, bs. unfold validated. eauto 6.
  - intros c cfg i o bs fs n Hv Hfs Hn.
    rewrite (main_validated Hv). cbn [snd]. rewrite opened_app.
    cbn [prologue opened flat_map app].
    destruct (@opened_classify_chosen w FLAGS c i o bs fs n Hfs Hn) as (k & ->).
    split.
    + exists (Nat.min k (Z.to_nat (int_of (chosen_batch_size fs n)))).
      unfold chosen_files. apply firstn_firstn.
    + pose proof (chosen_files_bound fs n) as Hb.
      rewrite length_firstn. lia.
Qed.

(** X3 at the example directory with a maximum batch size of 1. *)
Lemma X3_witness :
  (exists k,
      opened (snd (main (Example.world 1) (Example.flags "gRPC")))
      = firstn k ["images/cat.jpg"; "images/dog.jpg"]) /\
  Z.of_nat (List.length (opened (snd (main (Example.world 1) (Example.flags "gRPC")))))
  <= Z.max 0 1.
Proof.
  apply (proj2 (X3_files_opened (Example.world 1) (Example.flags "gRPC"))
               (GrpcC (Example.grpc_client 1)) (ConfigMsg (Example.config 1))
               (PyStr "INPUT") (PyStr "OUTPUT") (PyInt 1)
               ["images/cat.jpg"; "images/dog.jpg"] (PInt 1)).
  - repeat split. exists (MetaMsg Example.metadata). split; reflexivity.
  - reflexivity.
  - reflexivity.
Defined.

Lemma chosen_files_nil (fs : list string) (n : pyint) :
  fs = [] \/ int_of n <= 0 -> chosen_files fs n = [].
Proof.
  intros H. unfold chosen_files, chosen_batch_size, len.
  destruct (Z.of_nat (List.length fs) <=? int_of n) eqn:E; simpl.
  - apply Z.leb_le in E. destruct H as [-> | H]; [reflexivity|].
    destruct fs; [reflexivity | simpl in E; lia].
  - destruct H as [-> | H]; [apply firstn_nil|].
    replace (Z.to_nat (int_of n)) with 0%nat by lia. reflexivity.
Qed.

(** X4.  When there is nothing to send, because the directory holds no
    regular file or because the model declares a maximum batch size of 0 (a
    model that does not batch) or less, no file is read and the run ends with
    the [ValueError] of [np.stack], without any inference call; the
    truncation warning is printed first if there were files. *)
Theorem X4_empty_batch (w : World) (FLAGS : Flags.t) (c : Client)
    (cfg : Config) (i o bs : pyval) (fs : list string) (n : pyint) :
  validated w FLAGS c cfg i o bs ->
  list_filenames w (Flags.image_filename FLAGS) = Return fs ->
  py_index bs = Return n ->
  fs = [] \/ int_of n <= 0 ->
  main w FLAGS
  = (Raise (builtin_error ValueError), prologue FLAGS ++ warning_events fs n) /\
  (fs <> [] -> stdout (snd (main w FLAGS)) = [truncation_warning n]) /\
  (fs = [] -> 0 <= int_of n -> stdout (snd (main w FLAGS)) = []).
Proof.
  intros Hv Hfs Hn H.
  assert (main w FLAGS
          = (Raise (builtin_error ValueError),
             prologue FLAGS ++ warning_events fs n)) as Hm.
  { rewrite (main_validated Hv).
    rewrite classify_chosen_reads with (fs := fs) (n := n) by assumption.
    rewrite (@chosen_files_nil fs n H). cbn [read_list ret fst snd send].
    unfold send. cbn. now rewrite app_nil_r. }
  rewrite Hm. split; [reflexivity|]. cbn [snd].
  rewrite stdout_app. cbn [prologue stdout flat_map app].
  unfold warning_events, len. split.
  - intros Hne. destruct H as [-> | H]; [congruence|].
    assert ((Z.of_nat (List.length fs) <=? int_of n) = false) as ->;
      [|reflexivity].
    apply Z.leb_gt. destruct fs; [congruence | simpl; lia].
  - intros -> Hpos.
    assert ((Z.of_nat (List.length (@nil string)) <=? int_of n) = true) as ->;
      [|reflexivity].
    apply Z.leb_le. simpl. lia.
Qed.

(** X4 at the example directory and a model that does not batch. *)
Lemma X4_witness :
  main (Example.world 0) (Example.flags "HTTP")
  = (Raise (builtin_error ValueError),
     prologue (Example.flags "HTTP") ++ [Print (truncation_warning (PInt 0))]).
Proof.
  apply (@X4_empty_batch (Example.world 0) (Example.flags "HTTP")
           (HttpC (Example.http_client 0))
           (ConfigDict (config_to_dict (ModelConfigResponse.config (Example.config 0))))
           (PyStr "INPUT") (PyStr "OUTPUT") (PyInt 0)
           ["images/cat.jpg"; "images/dog.jpg"] (PInt 0)).
  - repeat split. exists (MetaDict (metadata_to_dict Example.metadata)).
    split; reflexivity.
  - reflexivity.
  - reflexivity.
  - right. simpl. lia.
Defined.

(** X5.  Between the validation and the first read two things can still go
    wrong, and neither is caught: listing the directory, and comparing the
    number of files with a maximum batch size that is not a number
    ([parse_model_http] returns whatever the configuration holds under that
    key).  The run then ends with that exception, no warning printed and no
    file opened. *)
Theorem X5_failure_before_reading (w : World) (FLAGS : Flags.t) (c : Client)
    (cfg : Config) (i o bs : pyval) :
  validated w FLAGS c cfg i o bs ->
  (forall path e,
      Flags.image_filename FLAGS = Some path ->
      os_path_isdir w path = true ->
      os_listdir w path = Throw e ->
      main w FLAGS = (Raise e, prologue FLAGS)) /\
  (forall fs,
      list_filenames w (Flags.image_filename FLAGS) = Return fs ->
      match bs with
      | PyInt _ | PyBool _ => False
      | _ => True
      end ->
      main w FLAGS = (Raise (builtin_error TypeError), prologue FLAGS)).
Proof.
  intros Hv. split.
  - intros path e Hf Hd Hl. rewrite (main_validated Hv).
    unfold classify_chosen, list_filenames. rewrite Hf, Hd, Hl. cbn.
    rewrite ?app_nil_r. reflexivity.
  - intros fs Hfs Hbs. rewrite (main_validated Hv).
    unfold classify_chosen. rewrite Hfs, bind_lift_Ok.
    destruct bs; try contradiction; cbn; rewrite ?app_nil_r; reflexivity.
Qed.

(** X5 at an HTTP server whose configuration gives [null] for the maximum
    batch size. *)
Lemma X5_witness :
  main Scenario.null_max (Example.flags "HTTP")
  = (Raise (builtin_error TypeError), prologue (Example.flags "HTTP")).
Proof.
  apply (proj2 (@X5_failure_before_reading
                  Scenario.null_max (Example.flags "HTTP")
                  (HttpC (mk_HttpClient
                            (fun _ => Return (metadata_to_dict Example.metadata))
                            (fun _ => Return Scenario.config_null_max)
                            (fun _ inputs _ => Return (Example.answer inputs))))
                  (ConfigDict Scenario.config_null_max)
                  (PyStr "INPUT") (PyStr "OUTPUT") PyNone
                  ltac:(repeat split;
                        exists (MetaDict (metadata_to_dict Example.metadata));
                        split; reflexivity))
               ["images/cat.jpg"; "images/dog.jpg"] eq_refl I).
Defined.

(** X6.  A path that is not a directory is taken as the one image, without
    asking whether it is a regular file: provided the maximum batch size is
    at least 1, the run opens exactly this path and prints no warning.  When
    the request can hold the class count, the run then sends the request
    written out in [request_inputs] and [request_outputs], a batch of one row
    that holds the bytes of the file up to its trailing zero bytes; when it
    cannot, the run ends there with a [ValueError].  If the path cannot be
    opened, the run ends with that error.  In the last two cases no inference
    call is made. *)
Theorem X6_single_file (w : World) (FLAGS : Flags.t) (c : Client)
    (cfg : Config) (i o bs : pyval) (n : pyint) (path : string) :
  validated w FLAGS c cfg i o bs ->
  py_index bs = Return n ->
  Flags.image_filename FLAGS = Some path ->
  os_path_isdir w path = false ->
  1 <= int_of n ->
  (forall content,
      read_file w path = Return content ->
      class_count_accepted FLAGS ->
      main w FLAGS
      = (fst (after_infer
                (infer c model_name (request_inputs FLAGS i [content])
                       (request_outputs FLAGS o)) o [path] (PInt 1)),
         prologue FLAGS ++
         [Open path;
          Infer model_name (request_inputs FLAGS i [content])
                (request_outputs FLAGS o)] ++
         snd (after_infer
                (infer c model_name (request_inputs FLAGS i [content])
                       (request_outputs FLAGS o)) o [path] (PInt 1)))) /\
  (forall content,
      read_file w path = Return content ->
      ~ class_count_accepted FLAGS ->
      main w FLAGS
      = (Raise (builtin_error ValueError), prologue FLAGS ++ [Open path])) /\
  (forall e,
      read_file w path = Throw e ->
      main w FLAGS = (Raise e, prologue FLAGS ++ [Open path])).
Proof.
  intros Hv Hn Hf Hd Hpos.
  assert (list_filenames w (Flags.image_filename FLAGS) = Return [path]) as Hfs.
  { unfold list_filenames. now rewrite Hf, Hd. }
  assert (chosen_files [path] n = [path]) as Hch
    by (apply chosen_files_all; unfold len; simpl; lia).
  assert (chosen_batch_size [path] n = PInt 1) as Hk.
  { unfold chosen_batch_size, len. simpl.
    assert ((1 <=? int_of n) = true) as -> by (apply Z.leb_le; lia).
    reflexivity. }
  assert (warning_events [path] n = []) as Hw.
  { unfold warning_events, len. simpl.
    assert ((1 <=? int_of n) = true) as -> by (apply Z.leb_le; lia).
    reflexivity. }
  assert (forall content,
             read_file w path = Return content ->
             main w FLAGS
             = (fst (send FLAGS c i o [path] (PInt 1) (map image_row [content])),
                prologue FLAGS ++ [Open path] ++
                snd (send FLAGS c i o [path] (PInt 1) (map image_row [content]))))
    as Hread.
  { intros content Hr.
    rewrite main_readable with (c := c) (cfg := cfg) (i := i) (o := o) (bs := bs)
                               (fs := [path]) (n := n) (cs := [content]);
      try assumption.
    2: { rewrite Hch. repeat constructor. exact Hr. }
    now rewrite Hch, Hk, Hw. }
  split; [|split].
  - intros content Hr Hcl. rewrite (Hread content Hr).
    rewrite send_batch with (outs := request_outputs FLAGS o)
      by (discriminate || now apply make_outputs_accepted).
    rewrite make_inputs_request by discriminate. reflexivity.
  - intros content Hr Hcl. rewrite (Hread content Hr).
    rewrite send_outputs_fail with (e := builtin_error ValueError)
      by now apply make_outputs_rejected.
    rewrite np_stack_batch by discriminate. reflexivity.
  - intros e Hr. rewrite (main_validated Hv).
    rewrite classify_chosen_reads with (fs := [path]) (n := n) by assumption.
    rewrite Hch, Hw. cbn [read_list]. rewrite Hr. reflexivity.
Qed.

(** X6 at the file [images/cat.jpg] of the example. *)
Lemma X6_witness :
  main (Example.world 8) (Scenario.one_file "grpc")
  = (Ok tt,
     [CreateClient GRPC "localhost:8000" false;
      GetModelMetadata model_name;
      GetModelConfig model_name;
      Open "images/cat.jpg";
      Infer model_name
        [mk_InferInput GRPC (PyStr "INPUT") [1; 1] "BYTES"
           (Some (mk_ndarray true [[ElBytes (Example.content "images/cat.jpg")]]))
           None]
        [mk_InferRequestedOutput GRPC (PyStr "OUTPUT") None 3];
      Print "    0.93 (281) = TABBY";
      Print "PASS"]).
Proof.
  apply (proj1 (@X6_single_file
                  (Example.world 8) (Scenario.one_file "grpc")
                  (GrpcC (Example.grpc_client 8)) (ConfigMsg (Example.config 8))
                  (PyStr "INPUT") (PyStr "OUTPUT") (PyInt 8) (PInt 8)
                  "images/cat.jpg"
                  ltac:(repeat split; exists (MetaMsg Example.metadata);
                        split; reflexivity)
                  eq_refl eq_refl eq_refl ltac:(simpl; lia))
               (Example.content "images/cat.jpg") eq_refl).
  right. vm_compute. split; [discriminate | reflexivity].
Defined.

Lemma Permutation_filter {A} (f : A -> bool) (l l' : list A) :
  Permutation l l' -> Permutation (filter f l) (filter f l').
Proof.
  induction 1 as [|x l l' _ IH|x y l|l l' l'' _ IH1 _ IH2]; simpl.
  - constructor.
  - destruct (f x); [now constructor | assumption].
  - destruct (f x), (f y); try reflexivity. apply perm_swap.
  - now transitivity (filter f l').
Qed.

Lemma list_sort_permuted (l l' : list string) :
  Permutation l l' -> list_sort l = list_sort l'.
Proof.
  intros H. apply sorted_permutation_unique; try apply list_sort_sorted.
  transitivity l; [symmetry; apply list_sort_permutation|].
  transitivity l'; [exact H | apply list_sort_permutation].
Qed.

(** X7.  The candidate paths do not depend on the order in which
    [os.listdir] returns the entries of the directory: two listings that are
    permutations of each other give the same sorted list. *)
Theorem X7_listing_order (w w' : World) (path : string) (names names' : list string) :
  os_path_isdir w path = true ->
  os_path_isdir w' path = true ->
  os_listdir w path = Return names ->
  os_listdir w' path = Return names' ->
  (forall p, os_path_isfile w p = os_path_isfile w' p) ->
  Permutation names names' ->
  list_filenames w (Some path) = list_filenames w' (Some path).
Proof.
  intros Hd Hd' Hl Hl' Hf Hp. unfold list_filenames.
  rewrite Hd, Hd', Hl, Hl'. cbn [rbind]. f_equal.
  apply list_sort_permuted, Permutation_map.
  rewrite (filter_ext _ (fun f => os_path_isfile w' (os_path_join path f)))
    by (intros a; apply Hf).
  now apply Permutation_filter.
Qed.

(** X7 at two listings of the example directory. *)
Lemma X7_witness :
  list_filenames (Example.world 8) (Some "images")
  = list_filenames (Scenario.other_order 8) (Some "images").
Proof.
  apply (@X7_listing_order (Example.world 8) (Scenario.other_order 8) "images"
           ["dog.jpg"; "raw"; "cat.jpg"] ["cat.jpg"; "dog.jpg"; "raw"]
           eq_refl eq_refl eq_refl eq_refl (fun _ => eq_refl)).
  apply Permutation_sym, (Permutation_cons_app ["dog.jpg"; "raw"] []).
  reflexivity.
Defined.

(** X8.  Unlike the two fetches, the inference call is not guarded: when it
    raises, even an [InferenceServerException], the run ends with that
    exception uncaught right after the call, with status 1, and prints
    neither a diagnostic nor [PASS]. *)
Theorem X8_inference_failure_uncaught (w : World) (FLAGS : Flags.t) (c : Client)
    (cfg : Config) (i o bs : pyval) (fs : list string) (n : pyint)
    (cs : list bytes) (outs : list InferRequestedOutput) (e : exn) :
  validated w FLAGS c cfg i o bs ->
  list_filenames w (Flags.image_filename FLAGS) = Return fs ->
  py_index bs = Return n ->
  Forall2 (readable w) (chosen_files fs n) cs ->
  cs <> [] ->
  make_outputs FLAGS o = Return outs ->
  infer c model_name (make_inputs FLAGS i (batch_array cs)) outs = Throw e ->
  main w FLAGS
  = (Raise e,
     prologue FLAGS ++ warning_events fs n ++ map Open (chosen_files fs n) ++
     [Infer model_name (make_inputs FLAGS i (batch_array cs)) outs]) /\
  exit_status (fst (main w FLAGS)) = 1 /\
  stdout (snd (main w FLAGS)) = stdout (warning_events fs n).
Proof.
  intros Hv Hfs Hn Hcs Hne Ho Hinf.
  rewrite (main_readable Hv Hfs Hn Hcs), send_batch with (outs := outs)
    by assumption.
  rewrite Hinf. cbn [after_infer fst snd].
  repeat split.
  rewrite !stdout_app, stdout_map_Open. cbn. now rewrite app_nil_r.
Qed.

(** X8 at a server that is not ready to serve the model. *)
Lemma X8_witness :
  fst (main Scenario.failing_infer (Example.flags "grpc"))
  = Raise Scenario.model_unavailable /\
  stdout (snd (main Scenario.failing_infer (Example.flags "grpc"))) = [].
Proof.
  destruct (@X8_inference_failure_uncaught
              Scenario.failing_infer (Example.flags "grpc")
              (GrpcC (mk_GrpcClient
                        (fun _ => Return Example.metadata)
                        (fun _ => Return (Example.config 8))
                        (fun _ _ _ => Throw Scenario.model_unavailable)))
              (ConfigMsg (Example.config 8))
              (PyStr "INPUT") (PyStr "OUTPUT") (PyInt 8)
              ["images/cat.jpg"; "images/dog.jpg"] (PInt 8)
              [Example.content "images/cat.jpg"; Example.content "images/dog.jpg"]
              [mk_InferRequestedOutput GRPC (PyStr "OUTPUT") None 1]
              Scenario.model_unavailable) as (H1 & _ & H3).
  - repeat split. exists (MetaMsg Example.metadata). split; reflexivity.
  - reflexivity.
  - reflexivity.
  - repeat constructor.
  - discriminate.
  - reflexivity.
  - reflexivity.
  - split; [now rewrite H1 | exact H3].
Defined.

(** X9.  A validator returns a triple only for a model with exactly one
    input and one output in the metadata and exactly one input in the
    configuration, and the triple is then made of the names of that input and
    of that output and of the maximum batch size of the configuration; the
    HTTP validator returns the three values as the dictionaries hold them,
    whatever their types. *)
Theorem X9_validation_success :
  (forall md cfg t,
      parse_model_grpc md cfg = Return t <->
      exists im om,
        ModelMetadataResponse.inputs md = [im] /\
        ModelMetadataResponse.outputs md = [om] /\
        len (ModelConfig.input cfg) = 1 /\
        t = (TensorMetadata.name im, TensorMetadata.name om,
             ModelConfig.max_batch_size cfg)) /\
  (forall md cfg input_name output_name max_batch_size,
      parse_model_http md cfg = Return (input_name, output_name, max_batch_size) ->
      exists ins outs cins im om,
        py_getitem md "inputs" = Return ins /\ py_len ins = Return 1 /\
        py_getitem md "outputs" = Return outs /\ py_len outs = Return 1 /\
        py_getitem cfg "input" = Return cins /\ py_len cins = Return 1 /\
        py_getitem0 ins = Return im /\ py_getitem0 outs = Return om /\
        py_getitem im "name" = Return input_name /\
        py_getitem om "name" = Return output_name /\
        py_getitem cfg "max_batch_size" = Return max_batch_size).
Proof.
  split.
  - intros md cfg t. split.
    + unfold parse_model_grpc.
      destruct (len (ModelMetadataResponse.inputs md) =? 1) eqn:E1;
        [|discriminate].
      destruct (len (ModelMetadataResponse.outputs md) =? 1) eqn:E2;
        [|discriminate].
      destruct (len (ModelConfig.input cfg) =? 1) eqn:E3; [|discriminate].
      apply Z.eqb_eq in E1, E2, E3.
      apply len_1 in E1 as (im & ->). apply len_1 in E2 as (om & ->).
      cbn. intros H. injection H as <-. exists im, om. auto.
    + intros (im & om & Hi & Ho & Hc & ->).
      unfold parse_model_grpc. rewrite Hi, Ho, Hc. reflexivity.
  - intros md cfg input_name output_name max_batch_size.
    unfold parse_model_http.
    destruct (py_getitem md "inputs") as [ins|e] eqn:H1; [|discriminate].
    cbn [rbind].
    destruct (py_len ins) as [n1|e] eqn:H2; [|discriminate]. cbn [rbind].
    destruct (n1 =? 1) eqn:E1; [|discriminate]. apply Z.eqb_eq in E1. subst n1.
    cbn [negb].
    destruct (py_getitem md "outputs") as [outs|e] eqn:H3; [|discriminate].
    cbn [rbind].
    destruct (py_len outs) as [n2|e] eqn:H4; [|discriminate]. cbn [rbind].
    destruct (n2 =? 1) eqn:E2; [|discriminate]. apply Z.eqb_eq in E2. subst n2.
    cbn [negb].
    destruct (py_getitem cfg "input") as [cins|e] eqn:H5; [|discriminate].
    cbn [rbind].
    destruct (py_len cins) as [n3|e] eqn:H6; [|discriminate]. cbn [rbind].
    destruct (n3 =? 1) eqn:E3; [|discriminate]. apply Z.eqb_eq in E3. subst n3.
    cbn [negb].
    destruct (py_getitem0 ins) as [im|e] eqn:H7; [|discriminate]. cbn [rbind].
    destruct (py_getitem0 outs) as [om|e] eqn:H8; [|discriminate]. cbn [rbind].
    destruct (py_getitem im "name") as [a|e] eqn:H9; [|discriminate].
    cbn [rbind].
    destruct (py_getitem om "name") as [b|e] eqn:H10; [|discriminate].
    cbn [rbind].
    destruct (py_getitem cfg "max_batch_size") as [m|e] eqn:H11; [|discriminate].
    cbn [rbind]. intros H. injection H as <- <- <-.
    exists ins, outs, cins, im, om. repeat split; assumption.
Qed.

(** X9 at the model of the example. *)
Lemma X9_witness :
  exists im om,
    ModelMetadataResponse.inputs Example.metadata = [im] /\
    ModelMetadataResponse.outputs Example.metadata = [om] /\
    len (ModelConfig.input (ModelConfigResponse.config (Example.config 8))) = 1 /\
    ("INPUT", "OUTPUT", 8)
    = (TensorMetadata.name im, TensorMetadata.name om,
       ModelConfig.max_batch_size (ModelConfigResponse.config (Example.config 8))).
Proof.
  apply (proj1 (proj1 X9_validation_success Example.metadata
                      (ModelConfigResponse.config (Example.config 8))
                      ("INPUT", "OUTPUT", 8))).
  reflexivity.
Defined.

(** ** What is printed *)

Lemma Forall_bind {A B} (P : event -> Prop) (m : M A) (k : A -> M B) :
  Forall P (snd m) -> (forall a, Forall P (snd (k a))) ->
  Forall P (snd (bind m k)).
Proof.
  intros Hm Hk. unfold bind. destruct (fst m); simpl; try assumption.
  apply Forall_app. split; [assumption | apply Hk].
Qed.

Lemma Forall_for_each {A} (P : event -> Prop) (l : list A) (body : A -> M unit) :
  (forall x, Forall P (snd (body x))) -> Forall P (snd (for_each l body)).
Proof.
  intros H. induction l as [|x l IH]; simpl; [constructor|].
  apply Forall_bind; auto.
Qed.

Lemma class_prints_print_class (is_bytes : bool) (item : elem) :
  Forall is_class_print (snd (print_class is_bytes item)).
Proof.
  unfold print_class.
  destruct (class_fields is_bytes item) as [cls|e]; [|constructor].
  rewrite bind_lift_Ok.
  destruct cls as [|c0 [|c1 [|c2 cls]]]; try constructor.
  - exact I.
  - constructor.
Qed.

Lemma class_prints_postprocess (r : InferResult) (o : pyval) (fs : list string)
    (k : pyint) :
  Forall is_class_print (snd (postprocess r o fs k)).
Proof.
  unfold postprocess. apply Forall_bind; [constructor|].
  intros n. destruct (negb (n =? int_of k)); [constructor|].
  destruct (as_numpy r o); [|constructor].
  apply Forall_for_each. intros row. apply Forall_for_each. intros item.
  apply class_prints_print_class.
Qed.

Lemma in_stdout (t : list event) (line : string) :
  In line (stdout t) <-> In (Print line) t.
Proof.
  unfold stdout. rewrite in_flat_map. split.
  - intros (ev & Hin & H). destruct ev; simpl in H; try contradiction.
    destruct H as [<-|[]]. exact Hin.
  - intros H. exists (Print line). split; [exact H | now left].
Qed.

(** The lines [send] prints are class lines, or [PASS] at the end of a
    successful run. *)
Lemma send_prints (FLAGS : Flags.t) (c : Client) (i o : pyval)
    (chosen : list string) (k : pyint) (data : list (list elem)) (line : string) :
  In (Print line) (snd (send FLAGS c i o chosen k data)) ->
  is_class_print (Print line) \/
  (line = "PASS" /\ fst (send FLAGS c i o chosen k data) = Ok tt).
Proof.
  unfold send. destruct (np_stack data) as [batched|e]; [|intros []].
  rewrite bind_lift_Ok. cbv zeta.
  destruct (make_outputs FLAGS o) as [outs|e]; [|intros []].
  rewrite bind_lift_Ok.
  destruct (infer c model_name _ _) as [r|e].
  2: { cbn. intuition discriminate. }
  rewrite call_Return, bind_pair_Ok. cbn [fst snd app].
  intros [H|H]; [discriminate|].
  apply in_bind in H as [H | ([] & Hp & H)].
  - left. pose proof (class_prints_postprocess r o chosen k) as Hc.
    rewrite Forall_forall in Hc. exact (Hc _ H).
  - right. destruct H as [H|[]]. injection H as <-.
    split; [reflexivity|]. unfold bind. now rewrite Hp.
Qed.

Lemma classify_chosen_prints (w : World) (FLAGS : Flags.t) (c : Client)
    (i o bs : pyval) (line : string) :
  In (Print line) (snd (classify_chosen w FLAGS c i o bs)) ->
  is_class_print (Print line) \/
  (line = "PASS" /\ fst (classify_chosen w FLAGS c i o bs) = Ok tt) \/
  (exists fs n,
      list_filenames w (Flags.image_filename FLAGS) = Return fs /\
      py_index bs = Return n /\
      int_of n < len fs /\ line = truncation_warning n).
Proof.
  destruct (list_filenames w (Flags.image_filename FLAGS)) as [fs|e] eqn:Hfs.
  2: { unfold classify_chosen. rewrite Hfs. intros []. }
  destruct (py_index bs) as [n|e] eqn:Hn.
  2: { unfold classify_chosen. rewrite Hfs, Hn. intros []. }
  rewrite classify_chosen_reads with (fs := fs) (n := n) by assumption.
  destruct (read_list_opens w (chosen_files fs n)) as (k & Hk).
  assert (forall t, In (Print line) (warning_events fs n ++
                                     snd (read_list w (chosen_files fs n)) ++ t) ->
                    In (Print line) t \/
                    (int_of n < len fs /\ line = truncation_warning n)) as Hsplit.
  { intros t H. apply in_app_or in H as [H|H].
    - right. unfold warning_events in H.
      destruct (len fs <=? int_of n) eqn:E; [contradiction|].
      apply Z.leb_gt in E. destruct H as [H|[]]. injection H as <-. auto.
    - apply in_app_or in H as [H|H]; [|now left].
      rewrite Hk in H. apply in_map_iff in H as (x & Hx & _). discriminate. }
  destruct (fst (read_list w (chosen_files fs n))) as [data|e|x]; cbn [fst snd];
    intros H.
  - apply Hsplit in H as [H | (Hlt & ->)].
    + apply send_prints in H. tauto.
    + right. right. exists fs, n. auto.
  - rewrite <- (app_nil_r (snd _)) in H.
    apply Hsplit in H as [[] | (Hlt & ->)].
    right. right. exists fs, n. auto.
  - rewrite <- (app_nil_r (snd _)) in H.
    apply Hsplit in H as [[] | (Hlt & ->)].
    right. right. exists fs, n. auto.
Qed.

Lemma main_Ok (w : World) (FLAGS : Flags.t) :
  fst (main w FLAGS) = Ok tt -> all_stages_succeed w FLAGS.
Proof.
  rewrite main_eq. unfold main_by_cases. cbv zeta.
  destruct (InferenceServerClient w _ _ _) as [c|e] eqn:Hc; [|discriminate].
  destruct (get_model_metadata c model_name) as [md|e] eqn:Hmd.
  2: { destruct (is_InferenceServerException e); discriminate. }
  destruct (get_model_config c model_name) as [cfg|e] eqn:Hcfg.
  2: { destruct (is_InferenceServerException e); discriminate. }
  destruct (parse_model FLAGS md cfg) as [[[i o] bs]|e] eqn:Hp; [|discriminate].
  cbn [fst]. intros Hm.
  apply classify_chosen_Ok in Hm as (fs & n & cs & batched & outs & r & H).
  exists c, cfg, i, o, bs, fs, n, cs, batched, outs, r.
  split; [|exact H]. unfold validated. eauto 6.
Qed.

Lemma truncation_warning_first (n : pyint) :
  exists rest, truncation_warning n = String "T" rest.
Proof. eexists. reflexivity. Qed.

(** X10.  [PASS] is printed exactly by the runs that reach the end of the
    script: a run that fails at any stage never prints it.  The status of the
    process is 0 for those runs and 1 for all the others. *)
Theorem X10_PASS_means_success (w : World) (FLAGS : Flags.t) :
  (In "PASS" (stdout (snd (main w FLAGS))) <-> fst (main w FLAGS) = Ok tt) /\
  (fst (main w FLAGS) = Ok tt <-> exit_status (fst (main w FLAGS)) = 0) /\
  (fst (main w FLAGS) <> Ok tt -> exit_status (fst (main w FLAGS)) = 1).
Proof.
  split; [|split].
  - split.
    + rewrite in_stdout, main_eq. unfold main_by_cases. cbv zeta.
      destruct (InferenceServerClient w _ _ _) as [c|e].
      2: { simpl. intuition discriminate. }
      destruct (get_model_metadata c model_name) as [md|e].
      2: { destruct (is_InferenceServerException e); simpl;
           intuition discriminate. }
      destruct (get_model_config c model_name) as [cfg|e].
      2: { destruct (is_InferenceServerException e); simpl;
           intuition discriminate. }
      destruct (parse_model FLAGS md cfg) as [[[i o] bs]|e].
      2: { simpl. intuition discriminate. }
      cbn [fst snd]. intros H. apply in_app_or in H as [H|H].
      { simpl in H. intuition discriminate. }
      apply classify_chosen_prints in H
        as [[] | [(_ & H) | (fs & n & _ & _ & _ & H)]]; [exact H|].
      destruct (truncation_warning_first n) as (rest & Hr).
      rewrite Hr in H. discriminate.
    + intros H. apply main_Ok, main_success in H as (t & ->).
      cbn [snd]. rewrite stdout_app. apply in_or_app. right. now left.
  - split.
    + intros ->. reflexivity.
    + destruct (fst (main w FLAGS)) as [[]|e|code] eqn:Hm;
        [reflexivity | discriminate|].
      apply main_SysExit in Hm as (-> & _). discriminate.
  - destruct (fst (main w FLAGS)) as [[]|e|code] eqn:Hm.
    + congruence.
    + reflexivity.
    + apply main_SysExit in Hm as (-> & _). reflexivity.
Qed.

(** X10 at the run of the example. *)
Lemma X10_witness :
  In "PASS" (stdout (snd (main (Example.world 8) (Example.flags "HTTP")))).
Proof.
  apply (proj2 (proj1 (X10_PASS_means_success (Example.world 8)
                                              (Example.flags "HTTP")))).
  reflexivity.
Defined.

(** X11.  Once the model is validated and the paths are listed, the
    truncation warning is printed exactly when there are more paths than the
    maximum batch size, and then it comes right after the two fetches, before
    any file is opened. *)
Theorem X11_warning_iff_truncation (w : World) (FLAGS : Flags.t) (c : Client)
    (cfg : Config) (i o bs : pyval) (fs : list string) (n : pyint) :
  validated w FLAGS c cfg i o bs ->
  list_filenames w (Flags.image_filename FLAGS) = Return fs ->
  py_index bs = Return n ->
  (In (truncation_warning n) (stdout (snd (main w FLAGS))) <-> int_of n < len fs) /\
  (int_of n < len fs ->
   exists rest,
     snd (main w FLAGS) = prologue FLAGS ++ Print (truncation_warning n) :: rest).
Proof.
  intros Hv Hfs Hn.
  assert (int_of n < len fs ->
          exists rest,
            snd (main w FLAGS)
            = prologue FLAGS ++ Print (truncation_warning n) :: rest) as Hfwd.
  { intros Hlt. rewrite (main_validated Hv).
    rewrite classify_chosen_reads with (fs := fs) (n := n) by assumption.
    rewrite (warning_events_truncated fs n Hlt).
    destruct (fst (read_list w (chosen_files fs n))); cbn [snd app];
      eexists; reflexivity. }
  split; [|exact Hfwd]. split.
  - rewrite in_stdout, (main_validated Hv). cbn [snd]. intros H.
    apply in_app_or in H as [H|H].
    { simpl in H. intuition discriminate. }
    destruct (truncation_warning_first n) as (rest & Hr).
    apply classify_chosen_prints in H
      as [H | [(H & _) | (fs' & n' & Hfs' & Hn' & Hlt & _)]].
    + rewrite Hr in H. contradiction.
    + rewrite Hr in H. discriminate.
    + rewrite Hfs in Hfs'. rewrite Hn in Hn'.
      injection Hfs' as <-. injection Hn' as <-. exact Hlt.
  - intros Hlt. destruct (Hfwd Hlt) as (rest & ->).
    rewrite stdout_app. apply in_or_app. right. now left.
Qed.

(** X11 at the example directory with a maximum batch size of 1. *)
Lemma X11_witness :
  In (truncation_warning (PInt 1))
     (stdout (snd (main (Example.world 1) (Example.flags "HTTP")))).
Proof.
  apply (proj2 (proj1 (@X11_warning_iff_truncation
                         (Example.world 1) (Example.flags "HTTP")
                         (HttpC (Example.http_client 1))
                         (ConfigDict (config_to_dict
                                        (ModelConfigResponse.config (Example.config 1))))
                         (PyStr "INPUT") (PyStr "OUTPUT") (PyInt 1)
                         ["images/cat.jpg"; "images/dog.jpg"] (PInt 1)
                         ltac:(repeat split;
                               exists (MetaDict (metadata_to_dict Example.metadata));
                               split; reflexivity)
                         eq_refl eq_refl))).
  vm_compute. reflexivity.
Defined.

(** ** The request *)

(** X12.  The inference call of a run always names the ensemble model and
    carries exactly one input and one requested output, both of the module
    of the selected transport.  The input has the validated input name, the
    datatype [BYTES], the shape [[N, 1]] and an array of bytes with one image
    per row, where the images are those of the [N] files the run opened, in
    that order: the row of a file is the one item made of its bytes up to its
    trailing zero bytes.  The requested output has the validated output name
    and the class count of [--classes], which is then one the request of
    that transport can hold.  The binary encoding is asked for under HTTP
    and not mentioned under gRPC. *)
Theorem X12_request (w : World) (FLAGS : Flags.t) (mn : string)
    (ins : list InferInput) (outs : list InferRequestedOutput) :
  In (Infer mn ins outs) (snd (main w FLAGS)) ->
  mn = model_name /\
  exists c cfg i o bs contents,
    validated w FLAGS c cfg i o bs /\
    Forall2 (readable w) (opened (snd (main w FLAGS))) contents /\
    contents <> [] /\
    ins = [mk_InferInput (transport_of FLAGS) i [len contents; 1] "BYTES"
             (Some (mk_ndarray true
                      (map (fun content =>
                              [ElBytes (without_trailing_zeros content)])
                           contents)))
             (match transport_of FLAGS with GRPC => None | HTTP => Some true end)] /\
    outs = [mk_InferRequestedOutput (transport_of FLAGS) o
              (match transport_of FLAGS with GRPC => None | HTTP => Some true end)
              (Flags.classes FLAGS)] /\
    (transport_of FLAGS = GRPC -> - 2 ^ 63 <= Flags.classes FLAGS < 2 ^ 63).
Proof.
  intros H.
  apply main_infer in H
    as (c & cfg & i & o & bs & fs & n & cs & Hv & Hfs & Hn & Hcs & Hne & -> & -> & Ho).
  split; [reflexivity|].
  apply make_outputs_Return in Ho as (Hcl & ->).
  exists c, cfg, i, o, bs, cs. split; [exact Hv|].
  split; [|split; [exact Hne|split; [|split]]].
  - rewrite (main_readable Hv Hfs Hn Hcs). cbn [snd].
    rewrite !opened_app, opened_warning_events, opened_map_Open,
      send_prints_after.
    cbn [prologue opened flat_map app]. now rewrite app_nil_r.
  - now apply make_inputs_request.
  - reflexivity.
  - intros Hg. destruct Hcl as [Hcl|Hcl]; [congruence | exact Hcl].
Qed.

(** X12 at the run of the example. *)
Lemma X12_witness :
  model_name = model_name /\
  exists c cfg i o bs contents,
    validated (Example.world 8) (Example.flags "HTTP") c cfg i o bs /\
    Forall2 (readable (Example.world 8))
            (opened (snd (main (Example.world 8) (Example.flags "HTTP"))))
            contents /\
    contents <> [] /\
    [mk_InferInput HTTP (PyStr "INPUT") [2; 1] "BYTES"
       (Some (mk_ndarray true
                [[ElBytes (Example.content "images/cat.jpg")];
                 [ElBytes (Example.content "images/dog.jpg")]]))
       (Some true)]
    = [mk_InferInput (transport_of (Example.flags "HTTP")) i [len contents; 1] "BYTES"
         (Some (mk_ndarray true
                  (map (fun content => [ElBytes (without_trailing_zeros content)])
                       contents)))
         (match transport_of (Example.flags "HTTP") with
          | GRPC => None
          | HTTP => Some true
          end)] /\
    [mk_InferRequestedOutput HTTP (PyStr "OUTPUT") (Some true) 1]
    = [mk_InferRequestedOutput (transport_of (Example.flags "HTTP")) o
         (match transport_of (Example.flags "HTTP") with
          | GRPC => None
          | HTTP => Some true
          end)
         (Flags.classes (Example.flags "HTTP"))] /\
    (transport_of (Example.flags "HTTP") = GRPC ->
     - 2 ^ 63 <= Flags.classes (Example.flags "HTTP") < 2 ^ 63).
Proof.
  apply (@X12_request (Example.world 8) (Example.flags "HTTP") model_name
           [mk_InferInput HTTP (PyStr "INPUT") [2; 1] "BYTES"
              (Some (mk_ndarray true
                       [[ElBytes (Example.content "images/cat.jpg")];
                        [ElBytes (Example.content "images/dog.jpg")]]))
              (Some true)]
           [mk_InferRequestedOutput HTTP (PyStr "OUTPUT") (Some true) 1]).
  simpl. auto 10.
Defined.

(** ** Post-processing, again *)

Lemma for_each_map {A B} (f : A -> B) (l : list A) (body : B -> M unit) :
  for_each (map f l) body = for_each l (fun x => body (f x)).
Proof. induction l as [|x l IH]; simpl; [reflexivity | now rewrite IH]. Qed.

Lemma for_each_ext {A} (l : list A) (body body' : A -> M unit) :
  (forall x, body x = body' x) -> for_each l body = for_each l body'.
Proof.
  intros H. induction l as [|x l IH]; simpl; [reflexivity | now rewrite H, IH].
Qed.

Lemma split_nonempty (sep : ascii) (s : string) : split sep s <> [].
Proof.
  destruct s as [|c s]; simpl; [discriminate|].
  destruct (Ascii.eqb c sep); [discriminate|].
  destruct (split sep s); discriminate.
Qed.

Lemma length_split (sep : ascii) (s : string) :
  List.length (split sep s) = S (count_char sep s).
Proof.
  induction s as [|c s IH]; simpl; [reflexivity|].
  destruct (Ascii.eqb c sep); simpl; [now rewrite IH|].
  destruct (split sep s) eqn:E; simpl in *; [discriminate | exact IH].
Qed.

Lemma str_join_split (sep : ascii) (s : string) :
  str_join (String sep EmptyString) (split sep s) = s.
Proof.
  induction s as [|c s IH]; simpl; [reflexivity|].
  destruct (Ascii.eqb_spec c sep) as [->|Hne].
  - pose proof (split_nonempty sep s) as Hn.
    destruct (split sep s) as [|w ws] eqn:E; [congruence|].
    change (str_join (String sep "") (EmptyString :: w :: ws))
      with (String sep (str_join (String sep "") (w :: ws))).
    now rewrite IH.
  - destruct (split sep s) as [|w ws] eqn:E.
    + exfalso. exact (split_nonempty sep s E).
    + destruct ws as [|w' ws]; simpl in *; now rewrite <- IH.
Qed.

Lemma split_pieces (sep : ascii) (s : string) :
  Forall (fun p => has_char sep p = false) (split sep s).
Proof.
  induction s as [|c s IH]; simpl.
  - repeat constructor.
  - destruct (Ascii.eqb c sep) eqn:E.
    + constructor; [reflexivity | exact IH].
    + destruct (split sep s) as [|w ws]; [repeat constructor; simpl; now rewrite E|].
      inversion IH as [|? ? Hw Hws]; subst.
      constructor; [|exact Hws]. simpl. now rewrite E, Hw.
Qed.

(** X13.  What [postprocess] splits is given back by joining: the fields of
    an item, put together again with colons, are the decoded item; no field
    holds a colon; and there is one field more than there are colons. *)
Theorem X13_fields_round_trip (b : bytes) :
  exists cls,
    class_fields true (ElBytes b) = Return cls /\
    str_join ":" cls = join_chr b /\
    Forall (fun field => has_char ":" field = false) cls /\
    List.length cls = S (count_char ":" (join_chr b)).
Proof.
  exists (split ":" (join_chr b)). split; [reflexivity|]. split; [|split].
  - apply str_join_split.
  - apply split_pieces.
  - apply length_split.
Qed.

Lemma print_class_fields (is_bytes : bool) (item : elem) (cls : list string) :
  class_fields is_bytes item = Return cls ->
  print_class is_bytes item
  = match cls with
    | c0 :: c1 :: c2 :: _ =>
        (Ok tt, [Print ("    " +s+ c0 +s+ " (" +s+ c1 +s+ ") = " +s+ c2)])
    | _ => (Raise (builtin_error IndexError), [])
    end.
Proof.
  intros H. unfold print_class. rewrite H, bind_lift_Ok.
  destruct cls as [|c0 [|c1 [|c2 cls]]]; reflexivity.
Qed.

Lemma print_class_short (b : bytes) :
  (count_char ":" (join_chr b) < 2)%nat ->
  print_class true (ElBytes b) = (Raise (builtin_error IndexError), []).
Proof.
  intros H. pose proof (length_split ":" (join_chr b)) as Hlen.
  rewrite print_class_fields with (cls := split ":" (join_chr b))
    by reflexivity.
  destruct (split ":" (join_chr b)) as [|c0 [|c1 [|c2 cls]]]; try reflexivity.
  simpl in Hlen. lia.
Qed.

(** X14.  An item with fewer than two colons has fewer than three fields and
    makes [postprocess] raise an [IndexError] at that item; an item with two
    colons or more prints one line made of its first three fields, and
    whatever follows the third field is ignored: a label that holds a colon is
    printed up to that colon only. *)
Theorem X14_number_of_fields (b : bytes) :
  ((count_char ":" (join_chr b) < 2)%nat ->
   print_class true (ElBytes b) = (Raise (builtin_error IndexError), [])) /\
  ((2 <= count_char ":" (join_chr b))%nat ->
   exists c0 c1 c2 more,
     split ":" (join_chr b) = c0 :: c1 :: c2 :: more /\
     print_class true (ElBytes b)
     = (Ok tt, [Print ("    " +s+ c0 +s+ " (" +s+ c1 +s+ ") = " +s+ c2)])) /\
  (forall r more,
      has_char ":" (class_id r) = false ->
      has_char ":" (class_score r) = false ->
      has_char ":" (class_label r) = false ->
      join_chr b = class_string r +s+ ":" +s+ more ->
      print_class true (ElBytes b) = (Ok tt, [Print (class_output r)])).
Proof.
  pose proof (length_split ":" (join_chr b)) as Hlen.
  assert (class_fields true (ElBytes b) = Return (split ":" (join_chr b)))
    as Hf by reflexivity.
  split; [|split].
  - apply print_class_short.
  - intros H. rewrite (print_class_fields _ _ Hf).
    destruct (split ":" (join_chr b)) as [|c0 [|c1 [|c2 cls]]];
      simpl in Hlen; try lia.
    exists c0, c1, c2, cls. split; reflexivity.
  - intros r more H1 H2 H3 Hb. rewrite (print_class_fields _ _ Hf), Hb.
    unfold class_string. rewrite !append_assoc.
    change (":" +s+ class_score r +s+ ":" +s+ class_label r +s+ ":" +s+ more)
      with (String ":" (class_score r +s+
                        String ":" (class_label r +s+ String ":" more))).
    rewrite !split_field by assumption. reflexivity.
Qed.

(** X14 at a label that holds a colon. *)
Lemma X14_witness :
  print_class true (ElBytes (Example.content "0.42:17:ratio 4:3"))
  = (Ok tt, [Print "    0.42 (17) = ratio 4"]).
Proof.
  apply (proj2 (proj2 (X14_number_of_fields
                         (Example.content "0.42:17:ratio 4:3")))
               (mk_class_result "0.42" "17" "ratio 4") "3");
    reflexivity.
Defined.

Lemma for_each_app_Ok {A} (l1 l2 : list A) (body : A -> M unit) (t1 : list event) :
  for_each l1 body = (Ok tt, t1) ->
  for_each (l1 ++ l2) body
  = (fst (for_each l2 body), t1 ++ snd (for_each l2 body)).
Proof.
  revert t1. induction l1 as [|x l1 IH]; intros t1 H.
  - simpl in H. injection H as <-. simpl. now destruct (for_each l2 body).
  - simpl in *. destruct (body x) as [[[]|e|code] t] eqn:Hx;
      unfold bind in *; simpl in *; try discriminate.
    destruct (for_each l1 body) as [r t'] eqn:Hl. simpl in H.
    injection H as -> <-.
    rewrite (IH t' eq_refl). simpl. now rewrite app_assoc.
Qed.

Lemma for_each_cons_Raise {A} (x : A) (l : list A) (body : A -> M unit)
    (e : exn) (t : list event) :
  body x = (Raise e, t) -> for_each (x :: l) body = (Raise e, t).
Proof. intros H. simpl. now rewrite H. Qed.

Lemma for_each_encoded (row : list elem) (rs : list class_result) :
  Forall2 encodes row rs ->
  for_each row (fun item => print_class true item)
  = (Ok tt, map Print (map class_output rs)).
Proof.
  intros H.
  rewrite (@for_each_Forall2 _ _ encodes _ (fun r => [Print (class_output r)])
             row rs); [|intros item r Hitem|exact H].
  - now rewrite flat_map_singleton, map_map.
  - now apply print_class_encoded.
Qed.

Lemma for_each_rows_encoded (rows : list (list elem))
    (classes : list (list class_result)) :
  Forall2 (Forall2 encodes) rows classes ->
  for_each rows (fun row => for_each row (fun item => print_class true item))
  = (Ok tt, map Print (map class_output (List.concat classes))).
Proof.
  intros H.
  rewrite (@for_each_Forall2 _ _ (Forall2 encodes) _
             (fun rs => map Print (map class_output rs)) rows classes);
    [|intros row rs Hrow|exact H].
  - clear H. f_equal.
    induction classes as [|rs classes IH]; simpl; [reflexivity|].
    now rewrite IH, !map_app.
  - now apply for_each_encoded.
Qed.

(** X15.  [postprocess] prints as it goes: when an item has fewer than
    three fields, the lines of the class results before it, in the rows
    before and in its own row, are already on standard output when the
    [IndexError] is raised, and nothing after it is printed. *)
Theorem X15_partial_output (results : InferResult) (output_name : pyval)
    (filenames : list string) (batch_size : pyint) (a : ndarray)
    (rows_before rows_after : list (list elem))
    (items_before items_after : list elem) (b : bytes)
    (classes_before : list (list class_result))
    (classes_row : list class_result) :
  as_numpy results output_name = Some a ->
  dtype_is_bytes a = true ->
  len (rows a) = int_of batch_size ->
  rows a = rows_before ++ (items_before ++ ElBytes b :: items_after) :: rows_after ->
  Forall2 (Forall2 encodes) rows_before classes_before ->
  Forall2 encodes items_before classes_row ->
  (count_char ":" (join_chr b) < 2)%nat ->
  postprocess results output_name filenames batch_size
  = (Raise (builtin_error IndexError),
     map Print (map class_output (List.concat classes_before ++ classes_row))).
Proof.
  intros Ha Hb Hlen Hrows Hbefore Hrow Hbad.
  rewrite postprocess_match with (a := a) by assumption.
  rewrite Hb, Hrows.
  rewrite for_each_app_Ok
    with (t1 := map Print (map class_output (List.concat classes_before)))
    by now apply for_each_rows_encoded.
  assert (for_each (items_before ++ ElBytes b :: items_after)
                   (fun item => print_class true item)
          = (Raise (builtin_error IndexError),
             map Print (map class_output classes_row))) as Hr.
  { rewrite for_each_app_Ok
      with (t1 := map Print (map class_output classes_row))
      by now apply for_each_encoded.
    rewrite for_each_cons_Raise
      with (e := builtin_error IndexError) (t := [])
      by now apply print_class_short.
    cbn [fst snd]. now rewrite app_nil_r. }
  rewrite for_each_cons_Raise
    with (e := builtin_error IndexError)
         (t := map Print (map class_output classes_row))
    by (unfold bind; now rewrite Hr).
  cbn [fst snd]. now rewrite !map_app.
Qed.

(** X15 at an answer of two images whose second item has no label. *)
Lemma X15_witness :
  postprocess
    (mk_InferResult (fun _ => Some (mk_ndarray true
       [[ElBytes (Example.content "0.93:281:TABBY")];
        [ElBytes (Example.content "0.87:207")]])))
    (PyStr "OUTPUT") ["images/cat.jpg"; "images/dog.jpg"] (PInt 2)
  = (Raise (builtin_error IndexError), [Print "    0.93 (281) = TABBY"]).
Proof.
  apply (@X15_partial_output
           (mk_InferResult (fun _ => Some (mk_ndarray true
              [[ElBytes (Example.content "0.93:281:TABBY")];
               [ElBytes (Example.content "0.87:207")]])))
           (PyStr "OUTPUT") ["images/cat.jpg"; "images/dog.jpg"] (PInt 2)
           (mk_ndarray true
              [[ElBytes (Example.content "0.93:281:TABBY")];
               [ElBytes (Example.content "0.87:207")]])
           [[ElBytes (Example.content "0.93:281:TABBY")]] []
           [] [] (Example.content "0.87:207")
           [[mk_class_result "0.93" "281" "TABBY"]] []
           eq_refl eq_refl eq_refl eq_refl).
  - repeat constructor. eexists. split; reflexivity.
  - constructor.
  - vm_compute. lia.
Defined.

(** X16.  The two ways of decoding agree: an array of bytes and the array of
    another dtype that holds the decoded strings of its items are printed
    alike.  Under another dtype an item that is still a [bytes] object
    cannot be split on a [str]: the [TypeError] is raised at the first item,
    before anything is printed. *)
Theorem X16_decoding_branches :
  (forall r r' output_name filenames batch_size (items : list (list bytes)),
      as_numpy r output_name = Some (mk_ndarray true (map (map ElBytes) items)) ->
      as_numpy r' output_name
      = Some (mk_ndarray false (map (map (fun b => ElStr (join_chr b))) items)) ->
      postprocess r output_name filenames batch_size
      = postprocess r' output_name filenames batch_size) /\
  (forall r output_name filenames batch_size b row rows,
      as_numpy r output_name = Some (mk_ndarray false ((ElBytes b :: row) :: rows)) ->
      len ((ElBytes b :: row) :: rows) = int_of batch_size ->
      postprocess r output_name filenames batch_size
      = (Raise (builtin_error TypeError), [])).
Proof.
  split.
  - intros r r' output_name filenames batch_size items Hr Hr'.
    unfold postprocess. rewrite Hr, Hr'. cbn [np_len rows dtype_is_bytes].
    rewrite !len_map, !bind_lift_Ok.
    destruct (negb (len items =? int_of batch_size)); [reflexivity|].
    rewrite !for_each_map. apply for_each_ext. intros row.
    rewrite !for_each_map. apply for_each_ext. intros b. reflexivity.
  - intros r output_name filenames batch_size b row rows Hr Hlen.
    rewrite postprocess_match
      with (a := mk_ndarray false ((ElBytes b :: row) :: rows)) by assumption.
    reflexivity.
Qed.

(** X16 at an array of objects that holds a [bytes] item. *)
Lemma X16_witness :
  postprocess
    (mk_InferResult (fun _ => Some (mk_ndarray false
       [[ElBytes (Example.content "0.93:281:TABBY")]])))
    (PyStr "OUTPUT") ["images/cat.jpg"] (PInt 1)
  = (Raise (builtin_error TypeError), []).
Proof.
  apply (proj2 X16_decoding_branches
           (mk_InferResult (fun _ => Some (mk_ndarray false
              [[ElBytes (Example.content "0.93:281:TABBY")]])))
           (PyStr "OUTPUT") ["images/cat.jpg"] (PInt 1)
           (Example.content "0.93:281:TABBY") [] [] eq_refl eq_refl).
Defined.

Lemma print_class_Ok (is_bytes : bool) (item : elem) :
  fst (print_class is_bytes item) = Ok tt ->
  exists line, print_class is_bytes item = (Ok tt, [Print line]).
Proof.
  unfold print_class.
  destruct (class_fields is_bytes item) as [cls|e]; [|discriminate].
  rewrite bind_lift_Ok.
  destruct cls as [|c0 [|c1 [|c2 cls]]]; try discriminate.
  intros _. eexists. reflexivity.
Qed.

Lemma for_each_Ok_lines {A} (l : list A) (body : A -> M unit) (count : A -> nat) :
  (forall x, fst (body x) = Ok tt ->
             List.length (stdout (snd (body x))) = count x) ->
  fst (for_each l body) = Ok tt ->
  List.length (stdout (snd (for_each l body))) = list_sum (map count l).
Proof.
  intros Hb. induction l as [|x l IH]; simpl; [reflexivity|].
  intros H. apply fst_bind_Ok in H as ([] & Hx & Hl).
  rewrite (bind_Ok _ _ Hx). cbn [snd].
  rewrite stdout_app, length_app, (Hb x Hx), (IH Hl). reflexivity.
Qed.

(** X17.  A call of [postprocess] that returns has printed exactly one line
    for each item of the array, and every such line begins with a space; the
    array then had as many rows as the batch size. *)
Theorem X17_one_line_per_item (results : InferResult) (output_name : pyval)
    (filenames : list string) (batch_size : pyint) :
  fst (postprocess results output_name filenames batch_size) = Ok tt ->
  exists a,
    as_numpy results output_name = Some a /\
    len (rows a) = int_of batch_size /\
    List.length (stdout (snd (postprocess results output_name filenames batch_size)))
    = list_sum (map (@List.length elem) (rows a)) /\
    Forall is_class_print (snd (postprocess results output_name filenames batch_size)).
Proof.
  intros H.
  destruct (as_numpy results output_name) as [a|] eqn:Ha.
  2: { unfold postprocess in H. rewrite Ha in H. discriminate. }
  destruct (Z.eq_dec (len (rows a)) (int_of batch_size)) as [He|Hne].
  2: { rewrite postprocess_mismatch with (a := a) in H by assumption.
       discriminate. }
  exists a. split; [reflexivity|]. split; [exact He|].
  split; [|apply class_prints_postprocess].
  rewrite postprocess_match with (a := a) in * by assumption.
  apply for_each_Ok_lines; [|exact H].
  intros row Hrow.
  rewrite (@for_each_Ok_lines _ row _ (fun _ => 1%nat)); [|intros item Hi|exact Hrow].
  - clear. induction row as [|x row IH]; simpl; congruence.
  - apply print_class_Ok in Hi as (line & ->). reflexivity.
Qed.

(** X17 at an answer of two classes for one image. *)
Lemma X17_witness :
  exists a,
    as_numpy (mk_InferResult (fun _ => Some (mk_ndarray true
       [[ElBytes (Example.content "0.93:281:TABBY");
         ElBytes (Example.content "0.05:282:TIGER CAT")]])))
       (PyStr "OUTPUT") = Some a /\
    len (rows a) = int_of (PInt 1) /\
    List.length (stdout (snd (postprocess
       (mk_InferResult (fun _ => Some (mk_ndarray true
          [[ElBytes (Example.content "0.93:281:TABBY");
            ElBytes (Example.content "0.05:282:TIGER CAT")]])))
       (PyStr "OUTPUT") ["images/cat.jpg"] (PInt 1))))
    = list_sum (map (@List.length elem) (rows a)) /\
    Forall is_class_print (snd (postprocess
       (mk_InferResult (fun _ => Some (mk_ndarray true
          [[ElBytes (Example.content "0.93:281:TABBY");
            ElBytes (Example.content "0.05:282:TIGER CAT")]])))
       (PyStr "OUTPUT") ["images/cat.jpg"] (PInt 1))).
Proof.
  apply X17_one_line_per_item. reflexivity.
Defined.

(** ** The flags *)

(** X18.  The letter case of [--protocol] never matters: two runs whose
    flags differ in nothing but the case of the protocol are the same run,
    event for event. *)
Theorem X18_protocol_case (w : World) (F F' : Flags.t) :
  lower (Flags.protocol F) = lower (Flags.protocol F') ->
  Flags.verbose F = Flags.verbose F' ->
  Flags.classes F = Flags.classes F' ->
  Flags.url F = Flags.url F' ->
  Flags.image_filename F = Flags.image_filename F' ->
  main w F = main w F'.
Proof.
  destruct F as [v k u p f], F' as [v' k' u' p' f']. cbn [Flags.protocol
    Flags.verbose Flags.classes Flags.url Flags.image_filename].
  intros Hp <- <- <- <-.
  unfold main, create_client, parse_model, classify, make_inputs, make_outputs.
  cbn [Flags.protocol Flags.verbose Flags.classes Flags.url Flags.image_filename].
  rewrite Hp. reflexivity.
Qed.

(** X18 at [GRPC] and [grpc]. *)
Lemma X18_witness :
  main (Example.world 8) (Example.flags "GRPC")
  = main (Example.world 8) (Example.flags "grpc").
Proof.
  apply X18_protocol_case; reflexivity.
Defined.

(** ** The order of the remote calls *)

Lemma remote_calls_app (t1 t2 : list event) :
  remote_calls (t1 ++ t2) = remote_calls t1 ++ remote_calls t2.
Proof. unfold remote_calls. apply filter_app. Qed.

Lemma remote_calls_prints (t : list event) :
  Forall is_print t -> remote_calls t = [].
Proof.
  induction 1 as [|ev t H _ IH]; [reflexivity|].
  destruct ev; simpl in *; try contradiction. exact IH.
Qed.

Lemma remote_calls_map_Open (l : list string) : remote_calls (map Open l) = [].
Proof. induction l as [|x l IH]; simpl; congruence. Qed.

Lemma remote_calls_warning_events (fs : list string) (n : pyint) :
  remote_calls (warning_events fs n) = [].
Proof. unfold warning_events. destruct (len fs <=? int_of n); reflexivity. Qed.

Lemma remote_calls_send (FLAGS : Flags.t) (c : Client) (i o : pyval)
    (chosen : list string) (k : pyint) (data : list (list elem)) :
  remote_calls (snd (send FLAGS c i o chosen k data)) = []
  \/ exists ins outs,
       remote_calls (snd (send FLAGS c i o chosen k data))
       = [Infer model_name ins outs].
Proof.
  unfold send. destruct (np_stack data) as [batched|e]; [|now left].
  rewrite bind_lift_Ok. cbv zeta.
  destruct (make_outputs FLAGS o) as [outs|e]; [|now left].
  rewrite bind_lift_Ok. right.
  destruct (infer c model_name _ _) as [r|e].
  - rewrite call_Return, bind_pair_Ok. cbn [snd app remote_calls filter].
    fold (remote_calls (snd (postprocess r o chosen k;; print "PASS"))).
    rewrite remote_calls_prints by auto with trace. eauto.
  - eexists. eexists. reflexivity.
Qed.

Lemma remote_calls_classify_chosen (w : World) (FLAGS : Flags.t) (c : Client)
    (i o bs : pyval) :
  remote_calls (snd (classify_chosen w FLAGS c i o bs)) = []
  \/ exists ins outs,
       remote_calls (snd (classify_chosen w FLAGS c i o bs))
       = [Infer model_name ins outs].
Proof.
  destruct (list_filenames w (Flags.image_filename FLAGS)) as [fs|e] eqn:Hfs.
  2: { unfold classify_chosen. rewrite Hfs. now left. }
  destruct (py_index bs) as [n|e] eqn:Hn.
  2: { unfold classify_chosen. rewrite Hfs, Hn. now left. }
  rewrite classify_chosen_reads with (fs := fs) (n := n) by assumption.
  destruct (read_list_opens w (chosen_files fs n)) as (k & Hk).
  destruct (fst (read_list w (chosen_files fs n))) as [data|e|x]; cbn [snd];
    rewrite !remote_calls_app, remote_calls_warning_events, Hk,
      remote_calls_map_Open; cbn [app]; try now left.
  apply remote_calls_send.
Qed.

(** X19.  The calls to the client library always come in the same order,
    each at most once: the client is created, then the metadata is fetched,
    then the configuration, then the inference is run; a call is made only
    if all the calls before it returned.  When the creation of the client
    raises, it is the only call; when the metadata fetch raises, whatever the
    exception, the configuration is not fetched; when the configuration fetch
    raises, no inference is run; and the inference, if it is run, comes after
    the three calls returned. *)
Theorem X19_order_of_remote_calls (w : World) (FLAGS : Flags.t) :
  (exists k,
      (1 <= k <= 3)%nat /\
      (remote_calls (snd (main w FLAGS)) = firstn k (prologue FLAGS) \/
       exists ins outs,
         k = 3%nat /\
         remote_calls (snd (main w FLAGS))
         = prologue FLAGS ++ [Infer model_name ins outs])) /\
  (forall e,
      InferenceServerClient w (transport_of FLAGS) (Flags.url FLAGS)
                            (Flags.verbose FLAGS) = Throw e ->
      remote_calls (snd (main w FLAGS))
      = [CreateClient (transport_of FLAGS) (Flags.url FLAGS) (Flags.verbose FLAGS)]) /\
  (forall c e,
      InferenceServerClient w (transport_of FLAGS) (Flags.url FLAGS)
                            (Flags.verbose FLAGS) = Return c ->
      get_model_metadata c model_name = Throw e ->
      remote_calls (snd (main w FLAGS))
      = [CreateClient (transport_of FLAGS) (Flags.url FLAGS) (Flags.verbose FLAGS);
         GetModelMetadata model_name]) /\
  (forall c md e,
      InferenceServerClient w (transport_of FLAGS) (Flags.url FLAGS)
                            (Flags.verbose FLAGS) = Return c ->
      get_model_metadata c model_name = Return md ->
      get_model_config c model_name = Throw e ->
      remote_calls (snd (main w FLAGS))
      = [CreateClient (transport_of FLAGS) (Flags.url FLAGS) (Flags.verbose FLAGS);
         GetModelMetadata model_name;
         GetModelConfig model_name]) /\
  (forall c md cfg,
      InferenceServerClient w (transport_of FLAGS) (Flags.url FLAGS)
                            (Flags.verbose FLAGS) = Return c ->
      get_model_metadata c model_name = Return md ->
      get_model_config c model_name = Return cfg ->
      exists rest,
        remote_calls (snd (main w FLAGS))
        = [CreateClient (transport_of FLAGS) (Flags.url FLAGS) (Flags.verbose FLAGS);
           GetModelMetadata model_name;
           GetModelConfig model_name] ++ rest /\
        (rest = [] \/ exists ins outs, rest = [Infer model_name ins outs])) /\
  (forall mn ins outs,
      In (Infer mn ins outs) (snd (main w FLAGS)) ->
      exists c md cfg,
        InferenceServerClient w (transport_of FLAGS) (Flags.url FLAGS)
                              (Flags.verbose FLAGS) = Return c /\
        get_model_metadata c model_name = Return md /\
        get_model_config c model_name = Return cfg).
Proof.
  assert (forall c md cfg,
             InferenceServerClient w (transport_of FLAGS) (Flags.url FLAGS)
                                   (Flags.verbose FLAGS) = Return c ->
             get_model_metadata c model_name = Return md ->
             get_model_config c model_name = Return cfg ->
             exists rest,
               remote_calls (snd (main w FLAGS)) = prologue FLAGS ++ rest /\
               (rest = [] \/ exists ins outs, rest = [Infer model_name ins outs]))
    as Hall.
  { intros c md cfg Hc Hmd Hcfg.
    rewrite main_eq. unfold main_by_cases. cbv zeta. rewrite Hc, Hmd, Hcfg.
    destruct (parse_model FLAGS md cfg) as [[[i o] bs]|e].
    2: { exists []. split; [reflexivity | now left]. }
    cbn [snd]. rewrite remote_calls_app.
    destruct (remote_calls_classify_chosen w FLAGS c i o bs)
      as [-> | (ins & outs & ->)].
    - exists []. split; [reflexivity | now left].
    - exists [Infer model_name ins outs]. split; [reflexivity|]. right. eauto. }
  split; [|split; [|split; [|split; [|split]]]].
  - destruct (InferenceServerClient w (transport_of FLAGS) (Flags.url FLAGS)
                                    (Flags.verbose FLAGS)) as [c|e] eqn:Hc.
    2: { exists 1%nat. split; [lia|]. left.
         rewrite main_eq. unfold main_by_cases. cbv zeta. now rewrite Hc. }
    destruct (get_model_metadata c model_name) as [md|e] eqn:Hmd.
    2: { exists 2%nat. split; [lia|]. left.
         rewrite main_eq. unfold main_by_cases. cbv zeta. rewrite Hc, Hmd.
         destruct (is_InferenceServerException e); reflexivity. }
    destruct (get_model_config c model_name) as [cfg|e] eqn:Hcfg.
    2: { exists 3%nat. split; [lia|]. left.
         rewrite main_eq. unfold main_by_cases. cbv zeta. rewrite Hc, Hmd, Hcfg.
         destruct (is_InferenceServerException e); reflexivity. }
    exists 3%nat. split; [lia|].
    destruct (Hall c md cfg eq_refl Hmd Hcfg)
      as (rest & -> & [-> | (ins & outs & ->)]).
    + left. now rewrite app_nil_r.
    + right. exists ins, outs. split; reflexivity.
  - intros e Hc. rewrite main_eq. unfold main_by_cases. cbv zeta.
    now rewrite Hc.
  - intros c e Hc Hmd. rewrite main_eq. unfold main_by_cases. cbv zeta.
    rewrite Hc, Hmd. destruct (is_InferenceServerException e); reflexivity.
  - intros c md e Hc Hmd Hcfg. rewrite main_eq. unfold main_by_cases. cbv zeta.
    rewrite Hc, Hmd, Hcfg. destruct (is_InferenceServerException e); reflexivity.
  - exact Hall.
  - intros mn ins outs H.
    apply main_infer in H
      as (c & cfg & i & o & bs & fs & n & cs & (Hc & Hcfg & md & Hmd & _) & _).
    exists c, md, cfg. auto.
Qed.

(** X19 at a server that cannot be reached: the HTTP client is created, the
    metadata fetch fails in the socket layer, and nothing else is asked. *)
Lemma X19_witness :
  remote_calls (snd (main Example.unreachable_world (Example.flags "HTTP")))
  = [CreateClient HTTP "localhost:8000" false; GetModelMetadata model_name].
Proof.
  apply (proj1 (proj2 (proj2 (X19_order_of_remote_calls
                                Example.unreachable_world (Example.flags "HTTP"))))
               (HttpC Example.unreachable_http_client)
               Example.connection_refused);
    reflexivity.
Defined.
